(** * pg8000: a shallow embedding of the pure-Python PostgreSQL driver

    The development follows [pg8000/dbapi.py] and [pg8000/types.py]:

    - the Python values, exceptions and [struct] packers the code relies on;
    - [types.py]: the integer bounds and the [Interval] class;
    - [dbapi.py]: [convert_paramstyle], [inspect_int] and [make_params],
      the binary numeric codec ([numeric_send], [numeric_recv]), the
      [ErrorResponse] and [AuthenticationRequest] handlers, [send_EXECUTE]
      and [PreparedStatement.read_tuple];
    - [dbapi.py], further: the arrays ([array_inspect] and the sender it
      builds, [array_recv], the helpers on nested lists), the dispatch loop
      [handle_messages] with the handlers of the answers to Parse, Bind and
      Execute, [data_into_dict] on whole bodies, and
      [PreparedStatement.read_dict];
    - [types.py], further: [interval_recv] and [interval_send].

    The code runs on Python 2 and on Python 3 (it tests [six.PY2] itself);
    where the two interpreters differ the embedding takes the flag [PY2] as
    an argument.  Threading locks are left out: the model is sequential and
    every [acquire] of the modelled methods is paired with a [release] in a
    [finally] block. *)

From Stdlib Require Import ZArith List String Ascii Lia QArith Qround Bool.
From Stdlib Require Import DecimalString.
From stdpp Require Import base numbers list strings gmap.

Open Scope string_scope.
Open Scope list_scope.
Open Scope Z_scope.

(** ** Python values, exceptions and results *)

(** A Python 2 [str] and a Python 3 [bytes] are both sequences of 8-bit
    characters: they are modelled by [string], whose characters are
    8-bit. *)
Abbreviation bytes := string (only parsing).

(** Modelled from the spec: pg8000/errors.py is not among the sources; the
    exception classes it declares are the taxonomy of section 7 of the
    specification.  The built-in Python exceptions the code can raise are
    listed with them. *)
Inductive exn : Type :=
  | TypeError (msg : string)
  | OverflowError (msg : string)
  | KeyError
  | IndexError
  | AttributeError (msg : string)
  | ValueError
  | StructError
  | UnicodeError
  | InvalidOperation
  | QueryParameterParseError (msg : string)
  | InterfaceError (msg : string)
  | ProgrammingError (args : list string)
  | NotSupportedError (msg : string)
  | InternalError (msg : string).

Inductive result (A : Type) : Type :=
  | Ok (a : A)
  | Raise (e : exn).
Arguments Ok {A} a.
Arguments Raise {A} e.

#[global] Instance result_ret : MRet result := fun A a => Ok a.
#[global] Instance result_bind : MBind result := fun A B f m =>
  match m with
  | Ok a => f a
  | Raise e => Raise e
  end.
#[global] Instance result_fmap : FMap result := fun A B f m =>
  match m with
  | Ok a => Ok (f a)
  | Raise e => Raise e
  end.

(** The finite [Decimal] values of Python's [decimal] module: a sign, a
    coefficient and an exponent (the value is [(-1)^sign * coeff * 10^exp]). *)
Record decimal_t : Type := MkDecimal {
  dec_sign : bool;
  dec_coeff : N;
  dec_exp : Z
}.

(** The Python values the modelled code is run on.  [PyLong] is the
    Python 2 type [long] (Python 3 has none); [PyObject] stands for an
    instance of a class that the driver's type tables do not mention, given
    by the [repr] of its class and its own [str]. *)
Inductive pyvalue : Type :=
  | PyNone
  | PyBool (b : bool)
  | PyInt (z : Z)
  | PyLong (z : Z)
  | PyStr (s : string)
  | PyDec (d : decimal_t)
  | PyObject (type_repr : string) (str : string).

(** [isinstance(value, int)]: [bool] is a subclass of [int]; a Python 2
    [long] is not an [int]. *)
Definition isinstance_int (value : pyvalue) : option Z :=
  match value with
  | PyInt z => Some z
  | PyBool b => Some (if b then 1 else 0)
  | _ => None
  end.

(** ** Characters, strings and sequences as Python treats them *)

Definition NUL : ascii := ascii_of_N 0.
Definition DQUOTE : ascii := ascii_of_N 34.

(** The ASCII digits and the ASCII letters. *)
Definition isdigit (c : ascii) : bool :=
  let n := N_of_ascii c in (48 <=? n)%N && (n <=? 57)%N.

Definition isalpha (c : ascii) : bool :=
  let n := N_of_ascii c in
  ((65 <=? n)%N && (n <=? 90)%N) || ((97 <=? n)%N && (n <=? 122)%N).

(** [c.isalnum()] for a character of a text string (a [str] of Python 3,
    a [unicode] of Python 2), the characters of [string] standing for the
    code points up to U+00FF: the ASCII letters and digits and, beyond
    ASCII, what the Unicode database classes as a letter or gives a
    numeric value, that is the two ordinal indicators, the micro sign, the
    superscripts 1, 2 and 3, the three fractions, and every character from
    U+00C0 on but the multiplication and division signs. *)
Definition isalnum (c : ascii) : bool :=
  isalpha c || isdigit c
  || (let n := N_of_ascii c in
      (n =? 170) || (n =? 178) || (n =? 179) || (n =? 181) || (n =? 185)
      || (n =? 186) || ((188 <=? n) && (n <=? 190))
      || ((192 <=? n) && negb (n =? 215) && negb (n =? 247)))%N.

(** [int(char)] for a digit character. *)
Definition digit_value (c : ascii) : Z := Z.of_N (N_of_ascii c) - 48.

(** [str(z)] for an integer. *)
Definition str_of_int (z : Z) : string := NilZero.string_of_int (Z.to_int z).

Fixpoint digits_value (s : string) (acc : Z) : option Z :=
  match s with
  | EmptyString => Some acc
  | String c rest =>
      if isdigit c then digits_value rest (10 * acc + digit_value c) else None
  end.

Definition split_sign (s : string) : bool * string :=
  match s with
  | String c rest =>
      if (c =? "-")%char then (true, rest)
      else if (c =? "+")%char then (false, rest)
      else (false, s)
  | EmptyString => (false, s)
  end.

(** [int(s)] for a string: an optional sign and at least one digit. *)
Definition int_of_str (s : string) : result Z :=
  let '(neg, body) := split_sign s in
  match body with
  | EmptyString => Raise ValueError
  | _ =>
      match digits_value body 0 with
      | Some v => Ok (if neg then - v else v)
      | None => Raise ValueError
      end
  end.

(** ["0" * n] *)
Definition zeros (n : Z) : string :=
  string_of_list_ascii (repeat "0"%char (Z.to_nat n)).

(** [s.zfill(width)]: zeros are inserted after a leading sign. *)
Definition zfill (s : string) (width : Z) : string :=
  let pad := zeros (width - Z.of_nat (String.length s)) in
  match s with
  | String c rest =>
      if (c =? "-")%char || (c =? "+")%char then String c (pad +:+ rest)
      else pad +:+ s
  | EmptyString => pad
  end.

(** A slice bound [i] of a sequence of length [len]: a negative bound counts
    from the end, and bounds are clipped to the sequence. *)
Definition slice_bound (len i : Z) : nat :=
  Z.to_nat (Z.max 0 (Z.min len (if i <? 0 then i + len else i))).

(** [s[lo:hi]] for a string. *)
Definition str_slice (s : string) (lo hi : Z) : string :=
  let n := Z.of_nat (String.length s) in
  let a := slice_bound n lo in
  let b := slice_bound n hi in
  String.substring a (b - a) s.

(** [s[lo:]] for a string. *)
Definition str_from (s : string) (lo : Z) : string :=
  let n := Z.of_nat (String.length s) in
  let a := slice_bound n lo in
  String.substring a (Z.to_nat n - a) s.

(** [l[:hi]] and [l[lo:]] for a list. *)
Definition list_upto {A} (l : list A) (hi : Z) : list A :=
  take (slice_bound (Z.of_nat (length l)) hi) l.
Definition list_from {A} (l : list A) (lo : Z) : list A :=
  drop (slice_bound (Z.of_nat (length l)) lo) l.

(** [l[i]]: a negative index counts from the end. *)
Definition py_index {A} (l : list A) (i : Z) : result A :=
  let n := Z.of_nat (length l) in
  let j := if i <? 0 then i + n else i in
  if (0 <=? j) && (j <? n) then
    match l !! Z.to_nat j with
    | Some x => Ok x
    | None => Raise IndexError
    end
  else Raise IndexError.

(** [s[i]] for a string. *)
Definition str_index (s : string) (i : Z) : result ascii :=
  py_index (list_ascii_of_string s) i.

(** [[x] * n]: a negative count gives the empty list. *)
Definition list_times {A} (x : A) (n : Z) : list A := repeat x (Z.to_nat n).

(** [sep.join(l)] with the empty separator. *)
Definition join (l : list string) : string := String.concat EmptyString l.

(** [s.encode("ascii")] *)
Definition is_ascii (s : string) : bool :=
  forallb (fun c => (N_of_ascii c <? 128)%N) (list_ascii_of_string s).
Definition encode_ascii (s : string) : result bytes :=
  if is_ascii s then Ok s else Raise UnicodeError.

(** [str(d)] for a finite [Decimal]: plain notation while the exponent is
    at most 0 and the adjusted exponent at least -6, scientific notation
    otherwise. *)
Definition Decimal_str (d : decimal_t) : string :=
  let sign := if dec_sign d then "-" else EmptyString in
  let int_ := NilZero.string_of_uint (N.to_uint (dec_coeff d)) in
  let len := Z.of_nat (String.length int_) in
  let leftdigits := dec_exp d + len in
  let dotplace :=
    if (dec_exp d <=? 0) && (-6 <? leftdigits) then leftdigits else 1 in
  let intpart :=
    if dotplace <=? 0 then "0"
    else if len <=? dotplace then int_ +:+ zeros (dotplace - len)
    else str_slice int_ 0 dotplace in
  let fracpart :=
    if dotplace <=? 0 then "." +:+ zeros (- dotplace) +:+ int_
    else if len <=? dotplace then EmptyString
    else "." +:+ str_from int_ dotplace in
  let exp :=
    if leftdigits =? dotplace then EmptyString
    else
      let e := leftdigits - dotplace in
      "E" +:+ (if e <? 0 then str_of_int e else "+" +:+ str_of_int e) in
  sign +:+ intpart +:+ fracpart +:+ exp.

(** The maximal prefix of digits of a string, and the rest. *)
Fixpoint span_digits (s : string) : string * string :=
  match s with
  | String c rest =>
      if isdigit c then
        let '(ds, tl) := span_digits rest in (String c ds, tl)
      else (EmptyString, s)
  | EmptyString => (EmptyString, EmptyString)
  end.

(** [Decimal(s)] for a numeric string: sign, digits, fraction, exponent. *)
Definition Decimal_of_str (s : string) : result decimal_t :=
  let '(sign, s1) := split_sign s in
  let '(intpart, s2) := span_digits s1 in
  let '(fracpart, s3) :=
    match s2 with
    | String c rest =>
        if (c =? ".")%char then span_digits rest else (EmptyString, s2)
    | EmptyString => (EmptyString, s2)
    end in
  let coeff := Z.to_N (default 0 (digits_value (intpart +:+ fracpart) 0)) in
  let nfrac := Z.of_nat (String.length fracpart) in
  if (String.length intpart + String.length fracpart =? 0)%nat then
    Raise InvalidOperation
  else
    match s3 with
    | EmptyString => Ok (MkDecimal sign coeff (- nfrac))
    | String c rest =>
        if (c =? "e")%char || (c =? "E")%char then
          match int_of_str rest with
          | Ok e => Ok (MkDecimal sign coeff (e - nfrac))
          | Raise _ => Raise InvalidOperation
          end
        else Raise InvalidOperation
    end.

(** The number a [Decimal] stands for. *)
Definition dec_value (d : decimal_t) : Q :=
  let c := Z.of_N (dec_coeff d) in
  let m := if dec_sign d then - c else c in
  if 0 <=? dec_exp d then inject_Z (m * 10 ^ dec_exp d)
  else Qmake m (Z.to_pos (10 ^ (- dec_exp d))).

(** [str(value)]; an opaque object prints as its class says. *)
Definition py_str (value : pyvalue) : string :=
  match value with
  | PyNone => "None"
  | PyBool b => if b then "True" else "False"
  | PyInt z => str_of_int z
  | PyLong z => str_of_int z
  | PyStr s => s
  | PyDec d => Decimal_str d
  | PyObject _ s => s
  end.

(** ** The [struct] packers *)

Definition byte_of_Z (z : Z) : ascii := ascii_of_N (Z.to_N (z mod 256)).
Definition Z_of_byte (c : ascii) : Z := Z.of_N (N_of_ascii c).

Fixpoint be_encode (width : nat) (v : Z) : bytes :=
  match width with
  | O => EmptyString
  | S w => String (byte_of_Z (v / 256 ^ Z.of_nat w)) (be_encode w v)
  end.

Fixpoint be_decode (s : bytes) (acc : Z) : Z :=
  match s with
  | EmptyString => acc
  | String c rest => be_decode rest (256 * acc + Z_of_byte c)
  end.

(** Modelled from the spec: pg8000/__init__.py, which binds [h_pack],
    [i_pack], [q_pack], [hhhh_pack] and the matching [unpack_from] methods
    of [struct.Struct], is not among the sources.  The specification fixes
    the wire form: integers are signed, in network byte order (big-endian),
    of 2, 4 and 8 bytes; [struct] refuses a value out of range. *)
Definition pack_int (width : nat) (v : Z) : result bytes :=
  let half := 2 ^ (8 * Z.of_nat width - 1) in
  if (- half <=? v) && (v <? half) then Ok (be_encode width v)
  else Raise StructError.

(** Modelled from the spec: the [unpack_from] side of the same packers;
    [struct] refuses a buffer that is too short, and counts a negative
    offset from the end. *)
Definition unpack_int (width : nat) (data : bytes) (offset : Z) : result Z :=
  let n := Z.of_nat (String.length data) in
  let off := if offset <? 0 then offset + n else offset in
  if (0 <=? off) && (Z.of_nat width <=? n - off) then
    let u := be_decode (String.substring (Z.to_nat off) width data) 0 in
    let half := 2 ^ (8 * Z.of_nat width - 1) in
    Ok (if u <? half then u else u - 2 * half)
  else Raise StructError.

Definition h_pack : Z -> result bytes := pack_int 2.
Definition i_pack : Z -> result bytes := pack_int 4.
Definition q_pack : Z -> result bytes := pack_int 8.
Definition h_unpack : bytes -> Z -> result Z := unpack_int 2.
Definition i_unpack : bytes -> Z -> result Z := unpack_int 4.

Definition hhhh_pack (a b c d : Z) : result bytes :=
  a' ← h_pack a; b' ← h_pack b; c' ← h_pack c; d' ← h_pack d;
  mret (a' +:+ b' +:+ c' +:+ d').

Definition hhhh_unpack (data : bytes) (offset : Z)
  : result (Z * Z * Z * Z) :=
  let n := Z.of_nat (String.length data) in
  let off := if offset <? 0 then offset + n else offset in
  if (0 <=? off) && (8 <=? n - off) then
    a ← h_unpack data off; b ← h_unpack data (off + 2);
    c ← h_unpack data (off + 4); d ← h_unpack data (off + 6);
    mret (a, b, c, d)
  else Raise StructError.

(** [unpack_from("!" + "h" * count, data, offset)] *)
Definition unpack_shorts (count : Z) (data : bytes) (offset : Z)
  : result (list Z) :=
  let k := Z.to_nat count in
  let n := Z.of_nat (String.length data) in
  let off := if offset <? 0 then offset + n else offset in
  if (0 <=? off) && (2 * Z.of_nat k <=? n - off) then
    mapM (fun j => h_unpack data (off + 2 * Z.of_nat j)) (seq 0 k)
  else Raise StructError.

(** [cccc_unpack(data, offset)]: four single bytes. *)
Definition cccc_unpack (data : bytes) (offset : Z) : result (list bytes) :=
  let n := Z.of_nat (String.length data) in
  let off := if offset <? 0 then offset + n else offset in
  if (0 <=? off) && (4 <=? n - off) then
    Ok (map (fun j => String.substring (Z.to_nat off + j) 1 data) (seq 0 4))
  else Raise StructError.

(** ** types.py: integer bounds and [Interval] *)

Definition min_int2 : Z := - 2 ^ 15.
Definition max_int2 : Z := 2 ^ 15.
Definition min_int4 : Z := - 2 ^ 31.
Definition max_int4 : Z := 2 ^ 31.
Definition min_int8 : Z := - 2 ^ 63.
Definition max_int8 : Z := 2 ^ 63.

(** The chained comparison [lo < value < hi]. *)
Definition between (lo value hi : Z) : bool := (lo <? value) && (value <? hi).

(** An [Interval] object: the three private attributes behind the
    properties; an attribute is [None] until its setter has succeeded once. *)
Record Interval : Type := MkInterval {
  _microseconds : option Z;
  _days : option Z;
  _months : option Z
}.

Definition _setMicroseconds (self : Interval) (value : pyvalue)
  : result unit * Interval :=
  match isinstance_int value with
  | None => (Raise (TypeError "microseconds must be an int"), self)
  | Some v =>
      if negb (between min_int8 v max_int8) then
        (Raise (OverflowError
                  "microseconds must be representable as a 64-bit integer"),
         self)
      else
        (Ok tt, MkInterval (Some v) (_days self) (_months self))
  end.

Definition _setDays (self : Interval) (value : pyvalue)
  : result unit * Interval :=
  match isinstance_int value with
  | None => (Raise (TypeError "days must be an int"), self)
  | Some v =>
      if negb (between min_int4 v max_int4) then
        (Raise (OverflowError
                  "days must be representable as a 32-bit integer"),
         self)
      else
        (Ok tt, MkInterval (_microseconds self) (Some v) (_months self))
  end.

Definition _setMonths (self : Interval) (value : pyvalue)
  : result unit * Interval :=
  match isinstance_int value with
  | None => (Raise (TypeError "months must be an int"), self)
  | Some v =>
      if negb (between min_int4 v max_int4) then
        (Raise (OverflowError
                  "months must be representable as a 32-bit integer"),
         self)
      else
        (Ok tt, MkInterval (_microseconds self) (_days self) (Some v))
  end.

(** [Interval.__init__]: the three assignments go through the setters; the
    first one that raises aborts the construction. *)
Definition Interval_init (microseconds days months : pyvalue)
  : result Interval :=
  let self := MkInterval None None None in
  match _setMicroseconds self microseconds with
  | (Raise e, _) => Raise e
  | (Ok _, self) =>
      match _setDays self days with
      | (Raise e, _) => Raise e
      | (Ok _, self) =>
          match _setMonths self months with
          | (Raise e, _) => Raise e
          | (Ok _, self) => Ok self
          end
      end
  end.

(** ** dbapi.py: the binary numeric codec *)

(** A Python number met in the arithmetic of [numeric_send]: [/] between
    two ints floors on Python 2 and is the true division on Python 3, whose
    float results (quotients by 4 of small integers) are exact and are kept
    as rationals. *)
Inductive pynum : Type :=
  | PInt (z : Z)
  | PFloat (q : Q).

Definition num_Q (x : pynum) : Q :=
  match x with
  | PInt z => inject_Z z
  | PFloat q => q
  end.

Definition num_add (x : pynum) (k : Z) : pynum :=
  match x with
  | PInt z => PInt (z + k)
  | PFloat q => PFloat (q + inject_Z k)
  end.

Definition num_neg (x : pynum) : pynum :=
  match x with
  | PInt z => PInt (- z)
  | PFloat q => PFloat (- q)
  end.

(** [int(x)] truncates a float towards zero. *)
Definition num_int (x : pynum) : Z :=
  match x with
  | PInt z => z
  | PFloat q => if Qlt_le_dec q 0 then Qceiling q else Qfloor q
  end.

Definition DEC_DIGITS : Z := 4.

(** The loop [for char in s[pos:]] of [numeric_send]: it returns
    [decdigits], [dweight], [dscale] and [pos] as the loop leaves them. *)
Fixpoint scan_decdigits (chars : string) (have_dp : bool)
    (decdigits : list Z) (dweight dscale pos : Z) : list Z * Z * Z * Z :=
  match chars with
  | EmptyString => (decdigits, dweight, dscale, pos)
  | String char rest =>
      if isdigit char then
        if negb have_dp then
          scan_decdigits rest have_dp (decdigits ++ [digit_value char])
            (dweight + 1) dscale (pos + 1)
        else
          scan_decdigits rest have_dp (decdigits ++ [digit_value char])
            dweight (dscale + 1) (pos + 1)
      else if (char =? ".")%char then
        scan_decdigits rest true decdigits dweight dscale (pos + 1)
      else (decdigits, dweight, dscale, pos)
  end.

(** The loop [while ndigits_ > 0]: one base-10000 group per turn. *)
Fixpoint pack_groups (ndigits_ : nat) (decdigits : list Z) (i : Z)
    (digits : bytes) : result bytes :=
  match ndigits_ with
  | O => Ok digits
  | S n =>
      d0 ← py_index decdigits i;
      d1 ← py_index decdigits (i + 1);
      d2 ← py_index decdigits (i + 2);
      d3 ← py_index decdigits (i + 3);
      group ← h_pack (((d0 * 10 + d1) * 10 + d2) * 10 + d3);
      pack_groups n decdigits (i + DEC_DIGITS) (digits +:+ group)
  end.

Section Numeric.
(** [six.PY2] *)
Variable PY2 : bool.

(** [a / b] for two ints. *)
Definition int_div (a b : Z) : pynum :=
  if PY2 then PInt (a / b) else PFloat (inject_Z a / inject_Z b).

(** [char == '0'] where [char] runs over a byte string: a one-character
    [str] on Python 2, an [int] on Python 3, which no [str] equals. *)
Definition byte_eq_char0 (char : ascii) : bool :=
  PY2 && (char =? "0")%char.

(** The first loop of the part marked [strip_var()]: [for char in digits]. *)
Fixpoint strip_leading (digits : bytes) (weight ndigits : Z) : Z * Z :=
  match digits with
  | EmptyString => (weight, ndigits)
  | String char rest =>
      if ndigits =? 0 then (weight, ndigits)
      else if byte_eq_char0 char then
        strip_leading rest (weight - 1) (ndigits - 1)
      else (weight, ndigits)
  end.

(** The second loop: [for char in reversed(digits)]; the argument is the
    reversed string. *)
Fixpoint strip_trailing (rdigits : bytes) (ndigits : Z) : Z :=
  match rdigits with
  | EmptyString => ndigits
  | String char rest =>
      if ndigits =? 0 then ndigits
      else if byte_eq_char0 char then strip_trailing rest (ndigits - 1)
      else ndigits
  end.

(** The header fields [numeric_send] computes, and the digit bytes. *)
Record numeric_wire : Type := MkNumericWire {
  w_ndigits : Z;
  w_weight : Z;
  w_sign : Z;
  w_dscale : Z;
  w_digits : bytes
}.

(** [numeric_send] up to the last line: everything but the packing of the
    header. *)
Definition numeric_send_fields (d : pyvalue) : result numeric_wire :=
  let s := py_str d in
  c0 ← str_index s 0;
  let '(sign, pos) :=
    if (c0 =? "-")%char then (16384, 1)
    else if (c0 =? "+")%char then (0, 1)
    else (0, 0) in
  let '(decdigits, dweight, dscale, pos) :=
    scan_decdigits (str_from s pos) false [0; 0; 0; 0] (-1) 0 pos in
  '(dweight, dscale) ←
    (if Z.of_nat (String.length s) >? pos then
       char ← str_index s pos;
       if (char =? "e")%char || (char =? "E")%char then
         let pos := pos + 1 in
         exponent ← int_of_str (str_from s pos);
         let dweight := dweight + exponent in
         let dscale := dscale - exponent in
         mret (dweight, if dscale <? 0 then 0 else dscale)
       else mret (dweight, dscale)
     else mret (dweight, dscale));
  let weight :=
    if dweight >=? 0 then
      num_int (num_add (int_div (dweight + 1 + DEC_DIGITS - 1) DEC_DIGITS)
                 (-1))
    else
      num_int (num_neg (num_add (int_div (- dweight - 1) DEC_DIGITS) 1)) in
  let offset := (weight + 1) * DEC_DIGITS - (dweight + 1) in
  let ndigits :=
    num_int (int_div (Z.of_nat (length decdigits) - DEC_DIGITS + offset
                      + DEC_DIGITS - 1) DEC_DIGITS) in
  let i := DEC_DIGITS - offset in
  let decdigits := decdigits ++ [0; 0; 0] in
  digits ← pack_groups (Z.to_nat ndigits) decdigits i EmptyString;
  (* strip_var() *)
  let '(weight, ndigits) := strip_leading digits weight ndigits in
  let ndigits := strip_trailing (String.rev digits) ndigits in
  let '(sign, weight) :=
    if ndigits =? 0 then (16384, 0) else (sign, weight) in
  mret (MkNumericWire ndigits weight sign dscale digits).

Definition numeric_send (d : pyvalue) : result bytes :=
  w ← numeric_send_fields d;
  header ← hhhh_pack (w_ndigits w) (w_weight w) (w_sign w) (w_dscale w);
  mret (header +:+ w_digits w).

End Numeric.

(** [numeric_recv(data, offset, recv)]; the third argument is not used. *)
Definition numeric_recv (data : bytes) (offset : Z) (recv : Z)
  : result decimal_t :=
  '(num_digits, weight, sign, scale) ← hhhh_unpack data offset;
  let pos_weight := Z.max 0 weight + 1 in
  groups ← unpack_shorts num_digits data (offset + 8);
  let digits :=
    list_times "0000" (Z.abs (Z.min weight 0))
    ++ map (fun d => zfill (str_of_int d) 4) groups
    ++ list_times "0000" (pos_weight - num_digits) in
  Decimal_of_str
    (join [ (if sign =? 0 then EmptyString else "-");
            join (list_upto digits pos_weight);
            ".";
            str_slice (join (list_from digits pos_weight)) 0 scale ]).

(** ** dbapi.py: parameter-type inspection *)

Definition FC_TEXT : Z := 0.
Definition FC_BINARY : Z := 1.

(** The encoders found as third component of a parameter descriptor, under
    the names the source gives them ([send_bool] and [send_null] are the two
    anonymous lambdas of [py_types]). *)
Inductive send_func : Type :=
  | send_h_pack
  | send_i_pack
  | send_q_pack
  | send_numeric_send
  | send_bool
  | send_null
  | send_textout.

(** A parameter descriptor [(oid, format code, encoder)]. *)
Definition param_desc : Type := Z * Z * send_func.

Definition inspect_int (value : Z) : param_desc :=
  if between min_int2 value max_int2 then (21, FC_BINARY, send_h_pack)
  else if between min_int4 value max_int4 then (23, FC_BINARY, send_i_pack)
  else if between min_int8 value max_int8 then (20, FC_BINARY, send_q_pack)
  else (1700, FC_BINARY, send_numeric_send).

(** [self.py_types[type(value)]], for the values of [pyvalue]; [None] is
    the [KeyError]. *)
Definition py_types (value : pyvalue) : option param_desc :=
  match value with
  | PyBool _ => Some (16, FC_BINARY, send_bool)
  | PyDec _ => Some (1700, FC_BINARY, send_numeric_send)
  | PyNone => Some (-1, FC_BINARY, send_null)
  | PyStr _ => Some (705, FC_BINARY, send_textout)
  | PyInt _ | PyLong _ | PyObject _ _ => None
  end.

(** [self.inspect_funcs[type(value)](value)]: [int] is always a key, [long]
    is one on Python 2. *)
Definition inspect_funcs (PY2 : bool) (value : pyvalue) : option param_desc :=
  match value with
  | PyInt z => Some (inspect_int z)
  | PyLong z => if PY2 then Some (inspect_int z) else None
  | _ => None
  end.

(** [repr(type(value))], which is what [str(exc_info()[1])] gives for the
    [KeyError] of a type table. *)
Definition repr_type (PY2 : bool) (value : pyvalue) : string :=
  let builtin name :=
    (if PY2 then "<type '" else "<class '") +:+ name +:+ "'>" in
  match value with
  | PyNone => builtin "NoneType"
  | PyBool _ => builtin "bool"
  | PyInt _ => builtin "int"
  | PyLong _ => builtin "long"
  | PyStr _ => builtin "str"
  | PyDec _ => "<class 'decimal.Decimal'>"
  | PyObject r _ => r
  end.

(** [Connection.make_params] *)
Definition make_params (PY2 : bool) (values : list pyvalue)
  : result (list param_desc) :=
  mapM (fun value =>
          match py_types value with
          | Some p => Ok p
          | None =>
              match inspect_funcs PY2 value with
              | Some p => Ok p
              | None =>
                  Raise (NotSupportedError
                           ("type " +:+ repr_type PY2 value
                            +:+ "not mapped to pg type"))
              end
          end) values.

(** The rule the specification words for integers: the smallest of int2,
    int4, int8 and numeric whose range contains the value. *)
Definition smallest_fit_oid (v : Z) : Z :=
  if (- 2 ^ 15 <=? v) && (v <=? 2 ^ 15 - 1) then 21
  else if (- 2 ^ 31 <=? v) && (v <=? 2 ^ 31 - 1) then 23
  else if (- 2 ^ 63 <=? v) && (v <=? 2 ^ 63 - 1) then 20
  else 1700.

Definition desc_oid (p : param_desc) : Z := p.1.1.

(** ** dbapi.py: [convert_paramstyle] *)

Inductive scan_state : Type :=
  | OUTSIDE      (* outside quoted string *)
  | INSIDE_SQ    (* inside single-quote string '...' *)
  | INSIDE_QI    (* inside quoted identifier *)
  | INSIDE_ES    (* inside escaped single-quote string, E'...' *)
  | INSIDE_PN.   (* inside parameter name eg. :name *)

(** The local variables of [convert_paramstyle] that live across the turns
    of its loop; [param_idx] is the next number the iterator
    [map(lambda x: "$" + str(x), count(1))] will use. *)
Record scanner : Type := MkScanner {
  sc_style : string;
  sc_state : scan_state;
  in_quote_escape : bool;
  in_param_escape : bool;
  placeholders : list string;
  output_query : list string;
  param_idx : Z
}.

Definition set_style (sc : scanner) (style : string) : scanner :=
  MkScanner style (sc_state sc) (in_quote_escape sc) (in_param_escape sc)
    (placeholders sc) (output_query sc) (param_idx sc).
Definition set_state (sc : scanner) (state : scan_state) : scanner :=
  MkScanner (sc_style sc) state (in_quote_escape sc) (in_param_escape sc)
    (placeholders sc) (output_query sc) (param_idx sc).
Definition set_quote_escape (sc : scanner) (b : bool) : scanner :=
  MkScanner (sc_style sc) (sc_state sc) b (in_param_escape sc)
    (placeholders sc) (output_query sc) (param_idx sc).
Definition set_param_escape (sc : scanner) (b : bool) : scanner :=
  MkScanner (sc_style sc) (sc_state sc) (in_quote_escape sc) b
    (placeholders sc) (output_query sc) (param_idx sc).
Definition set_placeholders (sc : scanner) (l : list string) : scanner :=
  MkScanner (sc_style sc) (sc_state sc) (in_quote_escape sc)
    (in_param_escape sc) l (output_query sc) (param_idx sc).

(** [output_query.append(piece)] *)
Definition emit (sc : scanner) (piece : string) : scanner :=
  MkScanner (sc_style sc) (sc_state sc) (in_quote_escape sc)
    (in_param_escape sc) (placeholders sc) (output_query sc ++ [piece])
    (param_idx sc).

(** [output_query.append(next(param_idx))] *)
Definition emit_next_param (sc : scanner) : scanner :=
  MkScanner (sc_style sc) (sc_state sc) (in_quote_escape sc)
    (in_param_escape sc) (placeholders sc)
    (output_query sc ++ ["$" +:+ str_of_int (param_idx sc)])
    (param_idx sc + 1).

Definition char_str (c : ascii) : string := String c EmptyString.

Definition is_char (o : option ascii) (c : ascii) : bool :=
  match o with
  | Some x => (x =? c)%char
  | None => false
  end.

(** [l.index(x)]: the first position of [x], [None] for [ValueError]. *)
Fixpoint list_index (x : string) (l : list string) : option Z :=
  match l with
  | [] => None
  | y :: l' =>
      if String.eqb y x then Some 0
      else option_map Z.succ (list_index x l')
  end.

(** [placeholders[-1] += c] *)
Definition append_to_last (l : list string) (c : ascii)
  : result (list string) :=
  match reverse l with
  | [] => Raise IndexError
  | last :: rinit => Ok (reverse rinit ++ [last +:+ char_str c])
  end.

(** The [try] block that ends a parameter name, with [state = OUTSIDE]
    before it:
    [pidx = placeholders.index(placeholders[-1], 0, -1)] and, when the name
    is already known, its number is written again and the new entry is
    deleted; otherwise ([ValueError]) the entry stays and its position is
    its number. *)
Definition end_param_name (sc : scanner) : result scanner :=
  let sc := set_state sc OUTSIDE in
  match reverse (placeholders sc) with
  | [] => Raise IndexError
  | last :: rinit =>
      match list_index last (reverse rinit) with
      | Some pidx =>
          Ok (set_placeholders (emit sc ("$" +:+ str_of_int (pidx + 1)))
                (reverse rinit))
      | None =>
          Ok (emit sc ("$" +:+ str_of_int
                                 (Z.of_nat (length (placeholders sc)))))
      end
  end.

(** The branch taken on a [%] in the three quoted states: only an escaped
    percent sign is supported.  The message concatenates [next_c], which is
    [None] at the end of the query: a [TypeError]. *)
Definition quoted_percent (sc : scanner) (c : ascii) (next_c : option ascii)
  : result scanner :=
  if in_param_escape sc then
    Ok (emit (set_param_escape sc false) (char_str c))
  else if is_char next_c "%" then Ok (set_param_escape sc true)
  else
    match next_c with
    | Some n =>
        Raise (QueryParameterParseError
                 ("'%" +:+ char_str n +:+ "' not supported in quoted string"))
    | None => Raise (TypeError "cannot concatenate str and NoneType")
    end.

Definition style_in_format_pyformat (style : string) : bool :=
  String.eqb style "format" || String.eqb style "pyformat".

(** One turn of the loop [for i, c in enumerate(query)], the assignment
    [prev_c = c] apart. *)
Definition scan_char (sc : scanner) (prev_c : option ascii) (c : ascii)
    (next_c : option ascii) : result scanner :=
  let style := sc_style sc in
  match sc_state sc with
  | OUTSIDE =>
      if (c =? "'")%char then
        let sc := emit sc (char_str c) in
        if is_char prev_c "E" then Ok (set_state sc INSIDE_ES)
        else Ok (set_state sc INSIDE_SQ)
      else if (c =? DQUOTE)%char then
        Ok (set_state (emit sc (char_str c)) INSIDE_QI)
      else if String.eqb style "qmark" && (c =? "?")%char then
        Ok (emit_next_param sc)
      else if String.eqb style "numeric" && (c =? ":")%char then
        Ok (emit sc "$")
      else if String.eqb style "named" && (c =? ":")%char then
        Ok (set_placeholders (set_state sc INSIDE_PN)
              (placeholders sc ++ [EmptyString]))
      else if String.eqb style "pyformat" && (c =? "%")%char
              && is_char next_c "(" then
        Ok (set_placeholders (set_state sc INSIDE_PN)
              (placeholders sc ++ [EmptyString]))
      else if style_in_format_pyformat style && (c =? "%")%char then
        let sc := set_style sc "format" in
        if in_param_escape sc then
          Ok (emit (set_param_escape sc false) (char_str c))
        else if is_char next_c "%" then Ok (set_param_escape sc true)
        else if is_char next_c "s" then
          Ok (emit_next_param (set_state sc INSIDE_PN))
        else Raise (QueryParameterParseError "Only %s and %% are supported")
      else Ok (emit sc (char_str c))
  | INSIDE_SQ =>
      if (c =? "'")%char then
        let sc := emit sc (char_str c) in
        if in_quote_escape sc then Ok (set_quote_escape sc false)
        else if is_char next_c "'" then Ok (set_quote_escape sc true)
        else Ok (set_state sc OUTSIDE)
      else if style_in_format_pyformat style && (c =? "%")%char then
        quoted_percent sc c next_c
      else Ok (emit sc (char_str c))
  | INSIDE_QI =>
      if (c =? DQUOTE)%char then
        Ok (emit (set_state sc OUTSIDE) (char_str c))
      else if style_in_format_pyformat style && (c =? "%")%char then
        quoted_percent sc c next_c
      else Ok (emit sc (char_str c))
  | INSIDE_ES =>
      if (c =? "'")%char && negb (is_char prev_c "\") then
        Ok (set_state (emit sc (char_str c)) OUTSIDE)
      else if style_in_format_pyformat style && (c =? "%")%char then
        quoted_percent sc c next_c
      else Ok (emit sc (char_str c))
  | INSIDE_PN =>
      if String.eqb style "named" then
        l ← append_to_last (placeholders sc) c;
        let sc := set_placeholders sc l in
        match next_c with
        | Some n =>
            if negb (isalnum n) && negb (n =? "_")%char then end_param_name sc
            else Ok sc
        | None => end_param_name sc
        end
      else if String.eqb style "pyformat" then
        if is_char prev_c ")" && (c =? "s")%char then end_param_name sc
        else if (c =? "(")%char || (c =? ")")%char then Ok sc
        else
          l ← append_to_last (placeholders sc) c;
          Ok (set_placeholders sc l)
      else if String.eqb style "format" then Ok (set_state sc OUTSIDE)
      else Ok sc
  end.

Definition head_char (s : string) : option ascii :=
  match s with
  | String c _ => Some c
  | EmptyString => None
  end.

(** The loop run over a stretch [chars] of the query that is followed by
    the character [after] ([None] at the end of the query): it returns the
    variables and [prev_c] as the stretch leaves them. *)
Fixpoint scan_chars (sc : scanner) (prev_c : option ascii) (chars : string)
    (after : option ascii) : result (scanner * option ascii) :=
  match chars with
  | EmptyString => Ok (sc, prev_c)
  | String c rest =>
      let next_c :=
        match rest with
        | String n _ => Some n
        | EmptyString => after
        end in
      sc' ← scan_char sc prev_c c next_c;
      scan_chars sc' (Some c) rest after
  end.

Definition scanner_init (style : string) : scanner :=
  MkScanner style OUTSIDE false false [] [] 1.

(** The two closures [make_args] that [convert_paramstyle] can return. *)
Inductive make_args_t : Type :=
  | make_args_identity
  | make_args_lookup (placeholders : list string).

(** The arguments handed to a statement: nothing, a sequence or a
    mapping. *)
Inductive pyargs : Type :=
  | ArgsNone
  | ArgsTuple (items : list pyvalue)
  | ArgsDict (items : gmap string pyvalue).

(** [args[p]] for a string [p]. *)
Definition args_getitem (args : pyargs) (p : string) : result pyvalue :=
  match args with
  | ArgsDict m =>
      match m !! p with
      | Some v => Ok v
      | None => Raise KeyError
      end
  | ArgsTuple _ => Raise (TypeError "tuple indices must be integers")
  | ArgsNone => Raise (TypeError "'NoneType' object is not subscriptable")
  end.

(** Calling the closure: [() if args is None else args] for the first, and
    [tuple(args[p] for p in placeholders)] for the second. *)
Definition make_args (f : make_args_t) (args : pyargs) : result pyargs :=
  match f with
  | make_args_identity =>
      Ok (match args with
          | ArgsNone => ArgsTuple []
          | _ => args
          end)
  | make_args_lookup placeholders =>
      ArgsTuple <$> mapM (args_getitem args) placeholders
  end.

Definition convert_paramstyle (style : string) (query : string)
  : result (string * make_args_t) :=
  '(sc, _) ← scan_chars (scanner_init style) None query None;
  let style := sc_style sc in
  let make_args :=
    if String.eqb style "numeric" || String.eqb style "qmark"
       || String.eqb style "format"
    then make_args_identity
    else make_args_lookup (placeholders sc) in
  mret (join (output_query sc), make_args).

(** ** dbapi.py: messages and the connection *)

(* Message codes *)
Definition ERROR_RESPONSE : bytes := "E".
Definition READY_FOR_QUERY : bytes := "Z".
Definition COPY_DONE : bytes := "c".

Definition BIND : bytes := "B".
Definition PARSE : bytes := "P".
Definition EXECUTE : bytes := "E".
Definition FLUSH : bytes := "H".
Definition SYNC : bytes := "S".
Definition PASSWORD : bytes := "p".
Definition DESCRIBE : bytes := "D".
Definition TERMINATE : bytes := "X".
Definition CLOSE : bytes := "C".

(** [SINGLETON_MESSAGES]: each code followed by [i_pack(4)]. *)
Definition SINGLETON_MESSAGES : list (bytes * bytes) :=
  map (fun code => (code, code +:+ be_encode 4 4))
    [FLUSH; SYNC; TERMINATE; COPY_DONE].

(* ErrorResponse codes *)
Definition RESPONSE_SEVERITY : bytes := "S".  (* always present *)
Definition RESPONSE_CODE : bytes := "C".  (* always present *)
Definition RESPONSE_MSG : bytes := "M".  (* always present *)

(** [data.split(sep)] for a one-byte separator. *)
Fixpoint bytes_split (sep : ascii) (data : bytes) : list bytes :=
  match data with
  | EmptyString => [EmptyString]
  | String c rest =>
      if (c =? sep)%char then EmptyString :: bytes_split sep rest
      else
        match bytes_split sep rest with
        | piece :: pieces => String c piece :: pieces
        | [] => [char_str c]
        end
  end.

(** [dict(pairs)]: a later pair replaces an earlier one with the same key. *)
Definition dict_of_pairs (pairs : list (bytes * bytes)) : gmap bytes bytes :=
  foldl (fun m kv => <[kv.1 := kv.2]> m) ∅ pairs.

Definition data_into_dict (data : bytes) : gmap bytes bytes :=
  dict_of_pairs
    (map (fun s => (str_slice s 0 1, str_from s 1)) (bytes_split NUL data)).

(** The part of a [Connection] the modelled methods read and write:
    [sock_out] collects the bytes written to the socket, in order, and
    [closed] tells that the socket file has been closed. *)
Record Connection : Type := MkConnection {
  user : string;
  password : option string;
  binding : bool;
  closed : bool;
  sock_out : bytes
}.

Definition set_binding (self : Connection) (b : bool) : Connection :=
  MkConnection (user self) (password self) b (closed self) (sock_out self).

(** [self._write(data)] *)
Definition _write (self : Connection) (data : bytes) : Connection :=
  MkConnection (user self) (password self) (binding self) (closed self)
    (sock_out self +:+ data).

(** An argument of [_send_messages]: a bare code, looked up in
    [SINGLETON_MESSAGES], or a pair of a code and a body. *)
Inductive message : Type :=
  | Singleton (code : bytes)
  | Framed (code : bytes) (msg_data : bytes).

Fixpoint write_messages (self : Connection) (messages : list message)
  : result unit * Connection :=
  match messages with
  | [] => (Ok tt, self)
  | Singleton code :: rest =>
      match List.find (fun kv => String.eqb kv.1 code) SINGLETON_MESSAGES with
      | Some kv => write_messages (_write self kv.2) rest
      | None => (Raise KeyError, self)
      end
  | Framed code msg_data :: rest =>
      match i_pack (Z.of_nat (String.length msg_data) + 4) with
      | Ok len =>
          write_messages (_write (_write self (code +:+ len)) msg_data) rest
      | Raise e => (Raise e, self)
      end
  end.

(** [Connection._send_messages]: writing to a closed socket file is turned
    into [InterfaceError("Connection is closed.")]. *)
Definition _send_messages (self : Connection) (messages : list message)
  : result unit * Connection :=
  if closed self then (Raise (InterfaceError "Connection is closed."), self)
  else write_messages self messages.

(** [hexdigest()] of a digest: two lower-case hexadecimal digits a byte. *)
Definition hex_digit (n : N) : ascii :=
  if (n <? 10)%N then ascii_of_N (48 + n) else ascii_of_N (87 + n).

Fixpoint hexlify (digest : bytes) : string :=
  match digest with
  | EmptyString => EmptyString
  | String c rest =>
      String (hex_digit (N_of_ascii c / 16))
        (String (hex_digit (N_of_ascii c mod 16)) (hexlify rest))
  end.

(** ** [hashlib.md5]

    The MD5 function of RFC 1321, on byte strings: the handlers below take
    the digest function as a parameter, and this is the one Python binds to
    it. *)

Definition md5_shift : list Z :=
  [ 7; 12; 17; 22; 7; 12; 17; 22; 7; 12; 17; 22; 7; 12; 17; 22;
    5; 9; 14; 20; 5; 9; 14; 20; 5; 9; 14; 20; 5; 9; 14; 20;
    4; 11; 16; 23; 4; 11; 16; 23; 4; 11; 16; 23; 4; 11; 16; 23;
    6; 10; 15; 21; 6; 10; 15; 21; 6; 10; 15; 21; 6; 10; 15; 21 ].

Definition md5_K : list Z :=
  [ 3614090360; 3905402710; 606105819; 3250441966;
    4118548399; 1200080426; 2821735955; 4249261313;
    1770035416; 2336552879; 4294925233; 2304563134;
    1804603682; 4254626195; 2792965006; 1236535329;
    4129170786; 3225465664; 643717713; 3921069994;
    3593408605; 38016083; 3634488961; 3889429448;
    568446438; 3275163606; 4107603335; 1163531501;
    2850285829; 4243563512; 1735328473; 2368359562;
    4294588738; 2272392833; 1839030562; 4259657740;
    2763975236; 1272893353; 4139469664; 3200236656;
    681279174; 3936430074; 3572445317; 76029189;
    3654602809; 3873151461; 530742520; 3299628645;
    4096336452; 1126891415; 2878612391; 4237533241;
    1700485571; 2399980690; 4293915773; 2240044497;
    1873313359; 4264355552; 2734768916; 1309151649;
    4149444226; 3174756917; 718787259; 3951481745 ].

Definition w32 (x : Z) : Z := x mod 2 ^ 32.
Definition not32 (x : Z) : Z := 2 ^ 32 - 1 - x.
Definition rotl32 (x c : Z) : Z :=
  Z.lor (w32 (Z.shiftl x c)) (Z.shiftr x (32 - c)).

Definition md5_words : Type := Z * Z * Z * Z.

Definition md5_step (M : list Z) (st : md5_words) (i : nat) : md5_words :=
  let '(A, B, C, D) := st in
  let iz := Z.of_nat i in
  let '(F, g) :=
    if iz <? 16 then (Z.lor (Z.land B C) (Z.land (not32 B) D), iz)
    else if iz <? 32 then
      (Z.lor (Z.land D B) (Z.land (not32 D) C), (5 * iz + 1) mod 16)
    else if iz <? 48 then (Z.lxor (Z.lxor B C) D, (3 * iz + 5) mod 16)
    else (Z.lxor C (Z.lor B (not32 D)), (7 * iz) mod 16) in
  let F := w32 (F + A + nth i md5_K 0 + nth (Z.to_nat g) M 0) in
  (D, w32 (B + rotl32 F (nth i md5_shift 0)), B, C).

Definition md5_block (st : md5_words) (M : list Z) : md5_words :=
  let '(A, B, C, D) := st in
  let '(a, b, c, d) := foldl (md5_step M) st (seq 0 64) in
  (w32 (A + a), w32 (B + b), w32 (C + c), w32 (D + d)).

(** Little-endian encoding and decoding of words. *)
Fixpoint le_encode (width : nat) (v : Z) : list Z :=
  match width with
  | O => []
  | S w => v mod 256 :: le_encode w (v / 256)
  end.

Fixpoint le_decode (l : list Z) : Z :=
  match l with
  | [] => 0
  | b :: l' => b + 256 * le_decode l'
  end.

(** The sixteen 32-bit words of each 64-byte block. *)
Fixpoint md5_blocks (nblocks : nat) (l : list Z) : list (list Z) :=
  match nblocks with
  | O => []
  | S n =>
      map (fun j => le_decode (take 4 (drop (4 * j) l))) (seq 0 16)
      :: md5_blocks n (drop 64 l)
  end.

Definition md5_pad (l : list Z) : list Z :=
  let len := Z.of_nat (length l) in
  l ++ [128] ++ repeat 0 (Z.to_nat ((55 - len) mod 64))
    ++ le_encode 8 ((8 * len) mod 2 ^ 64).

Definition md5 (data : bytes) : bytes :=
  let l := md5_pad (map Z_of_byte (list_ascii_of_string data)) in
  let '(A, B, C, D) :=
    foldl md5_block (1732584193, 4023233417, 2562383102, 271733878)
      (md5_blocks (length l / 64) l) in
  string_of_list_ascii
    (map byte_of_Z
       (le_encode 4 A ++ le_encode 4 B ++ le_encode 4 C ++ le_encode 4 D)).

Section Handlers.
(** [six.PY2] *)
Variable PY2 : bool.
(** [hashlib.md5(data).digest()] *)
Variable md5_digest : bytes -> bytes.

Definition md5_hexdigest (data : bytes) : string :=
  hexlify (md5_digest data).

(** [value == "28000"] for a byte string [value] and a [str] literal:
    equality of strings on Python 2; on Python 3 a [bytes] object and a
    [str] are never equal. *)
Definition bytes_eq_str (value : bytes) (literal : string) : bool :=
  PY2 && String.eqb value literal.

(** [Connection.handle_ERROR_RESPONSE]: it always raises; the connection
    is returned as the exception leaves it. *)
Definition handle_ERROR_RESPONSE (self : Connection) (data : bytes)
  : result unit * Connection :=
  let msg_dict := data_into_dict data in
  let '(sent, self) :=
    if binding self then _send_messages (set_binding self false)
                           [Singleton SYNC]
    else (Ok tt, self) in
  match sent with
  | Raise e => (Raise e, self)
  | Ok _ =>
      match msg_dict !! RESPONSE_CODE with
      | None => (Raise KeyError, self)
      | Some code =>
          if bytes_eq_str code "28000" then
            (Raise (InterfaceError "md5 password authentication failed"),
             self)
          else
            match msg_dict !! RESPONSE_SEVERITY, msg_dict !! RESPONSE_MSG
            with
            | Some severity, Some msg =>
                (Raise (ProgrammingError [severity; code; msg]), self)
            | _, _ => (Raise KeyError, self)
            end
      end
  end.

(** [Connection.handle_AUTHENTICATION_REQUEST].  The two last branches
    concatenate a [str] and the int [auth_code] to build their message,
    which raises [TypeError] before the exception they name is built (the
    text of the [TypeError] is that of Python 2). *)
Definition handle_AUTHENTICATION_REQUEST (self : Connection) (data : bytes)
  : result unit * Connection :=
  match i_unpack data 0 with
  | Raise e => (Raise e, self)
  | Ok auth_code =>
      if auth_code =? 0 then (Ok tt, self)
      else if auth_code =? 5 then
        match cccc_unpack data 4 with
        | Raise e => (Raise e, self)
        | Ok cccc =>
            let salt := join cccc in
            match password self with
            | None =>
                (Raise (InterfaceError
                          ("server requesting MD5 password authentication, "
                           +:+ "but no password was provided")), self)
            | Some pw =>
                match
                  (p ← encode_ascii pw;
                   u ← encode_ascii (user self);
                   inner ← encode_ascii (md5_hexdigest (p +:+ u));
                   outer ← encode_ascii (md5_hexdigest (inner +:+ salt));
                   mret ("md5" +:+ outer))
                with
                | Raise e => (Raise e, self)
                | Ok pwd =>
                    _send_messages self
                      [Framed PASSWORD (pwd +:+ char_str NUL)]
                end
            end
        end
      else
        (Raise (TypeError "cannot concatenate 'str' and 'int' objects"),
         self)
  end.

End Handlers.

(** ** dbapi.py: [PreparedStatement] *)

(** A field of a row description, with the decoder [func] that
    [handle_ROW_DESCRIPTION] attaches to it. *)
Record field_desc : Type := MkFieldDesc {
  fd_name : bytes;
  fd_type_oid : Z;
  fd_format : Z;
  fd_func : bytes -> Z -> Z -> result pyvalue
}.

(** The attributes of a [PreparedStatement] that row fetching reads and
    writes; [portal_name] and [portal_row_desc] are [None] until [execute]
    and the answer to Bind set them. *)
Record PreparedStatement : Type := MkPreparedStatement {
  statement_name : string;
  portal_name : option string;
  _cached_rows : list (list pyvalue);
  portal_suspended : bool;
  portal_row_desc : option (list field_desc);
  cmd : option bytes;
  row_count : Z
}.

Definition set_cached_rows (ps : PreparedStatement)
    (rows : list (list pyvalue)) : PreparedStatement :=
  MkPreparedStatement (statement_name ps) (portal_name ps) rows
    (portal_suspended ps) (portal_row_desc ps) (cmd ps) (row_count ps).

(** [ps.cmd = None; ps.portal_suspended = False] *)
Definition reset_for_execute (ps : PreparedStatement) : PreparedStatement :=
  MkPreparedStatement (statement_name ps) (portal_name ps) (_cached_rows ps)
    false (portal_row_desc ps) None (row_count ps).

(** The loop of [handle_DATA_ROW] over the fields of the row description. *)
Fixpoint decode_row (descs : list field_desc) (data : bytes) (data_idx : Z)
  : result (list pyvalue) :=
  match descs with
  | [] => Ok []
  | desc :: rest =>
      vlen ← i_unpack data data_idx;
      let data_idx := data_idx + 4 in
      if vlen =? -1 then
        row ← decode_row rest data data_idx;
        mret (PyNone :: row)
      else
        v ← fd_func desc data data_idx vlen;
        row ← decode_row rest data (data_idx + vlen);
        mret (v :: row)
  end.

(** [Connection.handle_DATA_ROW]: the decoded row goes to the right end of
    the cache. *)
Definition handle_DATA_ROW (data : bytes) (ps : PreparedStatement)
  : result unit * PreparedStatement :=
  match portal_row_desc ps with
  | None => (Raise (TypeError "'NoneType' object is not iterable"), ps)
  | Some descs =>
      match decode_row descs data 2 with
      | Ok row => (Ok tt, set_cached_rows ps (_cached_rows ps ++ [row]))
      | Raise e => (Raise e, ps)
      end
  end.

(** [Connection.send_EXECUTE] *)
Definition send_EXECUTE (self : Connection) (ps : PreparedStatement)
    (row_count : Z) : result unit * Connection * PreparedStatement :=
  let ps := reset_for_execute ps in
  match portal_name ps with
  | None =>
      (Raise (AttributeError "'NoneType' object has no attribute 'encode'"),
       self, ps)
  | Some name =>
      match (portal_name_b ← encode_ascii name;
             limit ← i_pack row_count;
             mret (portal_name_b +:+ char_str NUL +:+ limit)) with
      | Raise e => (Raise e, self, ps)
      | Ok val =>
          let '(r, self) :=
            _send_messages self
              [Framed EXECUTE val; Singleton SYNC; Singleton FLUSH] in
          (r, self, ps)
      end
  end.

(** [Connection._make_CLOSE_portal]: note that the name put in the message
    is [ps.statement_name]. *)
Definition _make_CLOSE (typ : bytes) (ps : PreparedStatement)
  : result message :=
  name ← encode_ascii (statement_name ps);
  mret (Framed CLOSE (typ +:+ name +:+ char_str NUL)).

Definition _make_CLOSE_portal (ps : PreparedStatement) : result message :=
  _make_CLOSE "P" ps.

Section RowFetch.
(** [PreparedStatement.row_cache_size], a class attribute (100 unless the
    application changes it). *)
Variable row_cache_size : Z.

(** [Connection.handle_messages(ps)]: the dispatch loop, which reads the
    server's messages up to ReadyForQuery and lets their handlers update
    the connection and the statement.  What the server sends is not
    known to the client: the loop is a parameter of the model. *)
Variable handle_messages :
  Connection -> PreparedStatement ->
  result unit * Connection * PreparedStatement.

(** [Connection.close_portal] *)
Definition close_portal (self : Connection) (ps : PreparedStatement)
  : result unit * Connection * PreparedStatement :=
  match _make_CLOSE_portal ps with
  | Raise e => (Raise e, self, ps)
  | Ok msg =>
      match _send_messages self [msg; Singleton SYNC] with
      | (Raise e, self) => (Raise e, self, ps)
      | (Ok _, self) => handle_messages self ps
      end
  end.

(** [PreparedStatement.read_tuple]; the result [None] is Python's
    [None]. *)
Definition read_tuple (self : Connection) (ps : PreparedStatement)
  : result (option (list pyvalue)) * Connection * PreparedStatement :=
  let popleft (self : Connection) (ps : PreparedStatement) :=
    match _cached_rows ps with
    | row :: rows => (Ok (Some row), self, set_cached_rows ps rows)
    | [] => (Raise IndexError, self, ps)
    end in
  let after_refill (self : Connection) (ps : PreparedStatement) :=
    if (length (_cached_rows ps) =? 0)%nat then
      match portal_row_desc ps with
      | None =>
          (Raise (TypeError "object of type 'NoneType' has no len()"),
           self, ps)
      | Some descs =>
          if (length descs =? 0)%nat then
            (Raise (ProgrammingError ["no result set"]), self, ps)
          else
            match close_portal self ps with
            | (Raise e, self, ps) => (Raise e, self, ps)
            | (Ok _, self, ps) => (Ok None, self, ps)
            end
      end
    else popleft self ps in
  if (length (_cached_rows ps) =? 0)%nat then
    if portal_suspended ps then
      match send_EXECUTE self ps row_cache_size with
      | (Raise e, self, ps) => (Raise e, self, ps)
      | (Ok _, self, ps) =>
          match handle_messages self ps with
          | (Raise e, self, ps) => (Raise e, self, ps)
          | (Ok _, self, ps) => after_refill self ps
          end
      end
    else after_refill self ps
  else popleft self ps.

(** [Cursor.fetchone()] on a cursor whose statement is [ps]: an
    [AttributeError] of [read_tuple] is reported as an unexecuted cursor. *)
Definition fetchone (self : Connection) (ps : PreparedStatement)
  : result (option (list pyvalue)) * Connection * PreparedStatement :=
  match read_tuple self ps with
  | (Raise (AttributeError _), self, ps) =>
      (Raise (ProgrammingError ["attempting to use unexecuted cursor"]),
       self, ps)
  | r => r
  end.

(** [Cursor.fetchmany(size)]: [fetchone] is called up to [size] times and
    the loop stops at the first [None]. *)
Fixpoint fetchmany (size : nat) (self : Connection) (ps : PreparedStatement)
  : result (list (list pyvalue)) * Connection * PreparedStatement :=
  match size with
  | O => (Ok [], self, ps)
  | S n =>
      match fetchone self ps with
      | (Raise e, self, ps) => (Raise e, self, ps)
      | (Ok None, self, ps) => (Ok [], self, ps)
      | (Ok (Some value), self, ps) =>
          match fetchmany n self ps with
          | (Raise e, self, ps) => (Raise e, self, ps)
          | (Ok rows, self, ps) => (Ok (value :: rows), self, ps)
          end
      end
  end.

End RowFetch.

(** The values of the numeric round-trip scenario, as [Decimal] builds them
    from the literals 0, 1, -1, 0.0001, 1e20 and -1.5e-7. *)
Definition roundtrip_values : list decimal_t :=
  [ MkDecimal false 0 0;
    MkDecimal false 1 0;
    MkDecimal true 1 0;
    MkDecimal false 1 (-4);
    MkDecimal false 1 20;
    MkDecimal true 15 (-8) ].

(** [Decimal('1.00000')] and [Decimal('-0')]. *)
Definition dec_1_00000 : decimal_t := MkDecimal false 100000 (-5).
Definition dec_minus_0 : decimal_t := MkDecimal true 0 0.

(** An ErrorResponse body as the server sends it for a failed password
    check: severity, code 28000 and message, each NUL-terminated, and the
    final NUL. *)
Definition error_response_28000 : bytes :=
  "SFATAL" +:+ char_str NUL +:+ "C28000" +:+ char_str NUL
  +:+ "Mpassword authentication failed for user" +:+ char_str NUL
  +:+ char_str NUL.

(** A statement that has been executed and has no result set (its portal row
    description is empty), on a connection in its initial state, and a
    dispatch loop that meets ReadyForQuery at once. *)
Definition ps_no_result_set : PreparedStatement :=
  MkPreparedStatement EmptyString (Some "pg8000_portal_0") [] false (Some [])
    None (-1).
Definition conn_idle : Connection :=
  MkConnection "bob" None false false EmptyString.
Definition dispatch_ready (self : Connection) (ps : PreparedStatement)
  : result unit * Connection * PreparedStatement := (Ok tt, self, ps).

(** A statement whose [execute] raised in [bind]: [execute] has emptied the
    cache and set [portal_row_desc] to [None], and nothing has set it
    since. *)
Definition ps_bind_failed : PreparedStatement :=
  MkPreparedStatement EmptyString (Some "pg8000_portal_0") [] false None
    None (-1).

(** A suspended portal with an empty cache and one column, and a dispatch
    loop that stands for a server answering Execute with two rows. *)
Definition ps_suspended : PreparedStatement :=
  MkPreparedStatement EmptyString (Some "pg8000_portal_0") [] true
    (Some [MkFieldDesc "n" 23 1 (fun d o l => PyInt <$> i_unpack d o)])
    None (-1).
Definition dispatch_two_rows (self : Connection) (ps : PreparedStatement)
  : result unit * Connection * PreparedStatement :=
  (Ok tt, self, set_cached_rows ps (_cached_rows ps ++ [[PyInt 1]; [PyInt 2]])).

(** ** Queries with placeholders, and the numbering the specification words

    A query of the named or pyformat dialect, cut into stretches of literal
    text, single-quoted strings, quoted identifiers and placeholders. *)
Inductive segment : Type :=
  | Text (s : string)
  | Quoted (body : string)
  | QuotedIdent (body : string)
  | Param (name : string).

Definition quote_str (body : string) : string := "'" +:+ body +:+ "'".

Definition quote_ident (body : string) : string :=
  String DQUOTE (body +:+ char_str DQUOTE).

(** How a segment is written; a placeholder is [:name] or [%(name)s]. *)
Definition render_segment (style : string) (seg : segment) : string :=
  match seg with
  | Text s => s
  | Quoted body => quote_str body
  | QuotedIdent body => quote_ident body
  | Param name =>
      if String.eqb style "named" then ":" +:+ name
      else "%(" +:+ name +:+ ")s"
  end.

Definition render (style : string) (t : list segment) : string :=
  join (map (render_segment style) t).

Definition param_names (t : list segment) : list string :=
  omap (fun seg => match seg with Param name => Some name | _ => None end) t.

(** The distinct names of a list, in the order of their first
    occurrence. *)
Definition add_name (seen : list string) (name : string) : list string :=
  match list_index name seen with
  | Some _ => seen
  | None => seen ++ [name]
  end.

Definition first_occurrences (names : list string) : list string :=
  foldl add_name [] names.

(** The number of a name: its rank, from 1, among the distinct names. *)
Definition number_of (distinct : list string) (name : string) : Z :=
  match list_index name distinct with
  | Some i => i + 1
  | None => 0
  end.

(** The query with each placeholder replaced by [$N], N the number of its
    name, and everything else as it was. *)
Definition numbered_segment (distinct : list string) (seg : segment)
  : string :=
  match seg with
  | Text s => s
  | Quoted body => quote_str body
  | QuotedIdent body => quote_ident body
  | Param name => "$" +:+ str_of_int (number_of distinct name)
  end.

Definition numbered (t : list segment) : string :=
  join (map (numbered_segment (first_occurrences (param_names t))) t).

(** The tuple [(args[name_1], ..., args[name_n])]. *)
Definition args_in_order (args : gmap string pyvalue) (names : list string)
  : list pyvalue :=
  map (fun name => default PyNone (args !! name)) names.

(** The two queries of the scenarios, and a pyformat query with a literal
    percent sign. *)
Definition query_a_b_a : list segment :=
  [Text "SELECT "; Param "a"; Text ", "; Param "b"; Text ", "; Param "a"].
Definition query_x_y_x : list segment :=
  [Text "SELECT "; Param "x"; Text ", "; Param "y"; Text ", "; Param "x"].
Definition query_quoted_a : list segment :=
  [Text "SELECT "; Quoted ":a"; Text " AS "; QuotedIdent ":b"; Text ", ";
   Param "a"].
Definition args_x_5 : gmap string pyvalue := {[ "x" := PyInt 5 ]}.

(** Characters of literal text that the scanner copies in state OUTSIDE:
    no quote, and not the marker of the dialect. *)
Definition plain_char (style : string) (c : ascii) : bool :=
  negb (c =? "'")%char && negb (c =? DQUOTE)%char
  && negb (if String.eqb style "named" then (c =? ":")%char
           else (c =? "%")%char).

Definition ident_char (c : ascii) : bool := isalnum c || (c =? "_")%char.

Definition str_forall (P : ascii -> bool) (s : string) : bool :=
  forallb P (list_ascii_of_string s).

Definition no_paren (c : ascii) : bool :=
  negb (c =? "(")%char && negb (c =? ")")%char.

(** A name that the scanner reads back whole: for the named dialect a
    non-empty identifier, for pyformat a string without parentheses. *)
Definition good_name (style : string) (name : string) : bool :=
  if String.eqb style "named" then
    negb (String.eqb name EmptyString) && str_forall ident_char name
  else str_forall no_paren name.

(** What may follow a placeholder: in the named dialect the name ends
    where the identifier ends, at a character that is neither
    alphanumeric nor an underscore. *)
Definition ends_name (style : string) (rest : string) : bool :=
  if String.eqb style "named" then
    match rest with
    | String c _ => negb (ident_char c)
    | EmptyString => true
    end
  else true.

(** The characters of a quoted string that the scanner copies: no quote,
    no backslash, and in pyformat no percent sign. *)
Definition quoted_char (style : string) (c : ascii) : bool :=
  negb (c =? "'")%char && negb (c =? "\")%char
  && (String.eqb style "named" || negb (c =? "%")%char).

(** The same for a quoted identifier. *)
Definition quoted_ident_char (style : string) (c : ascii) : bool :=
  negb (c =? DQUOTE)%char
  && (String.eqb style "named" || negb (c =? "%")%char).

(** What may follow a quoted string: anything but another quote. *)
Definition ends_quote (rest : string) : bool :=
  match rest with
  | String c _ => negb (c =? "'")%char
  | EmptyString => true
  end.

Fixpoint well_formed (style : string) (t : list segment) : bool :=
  match t with
  | [] => true
  | Text s :: t' => str_forall (plain_char style) s && well_formed style t'
  | Quoted body :: t' =>
      str_forall (quoted_char style) body && ends_quote (render style t')
      && well_formed style t'
  | QuotedIdent body :: t' =>
      str_forall (quoted_ident_char style) body && well_formed style t'
  | Param name :: t' =>
      good_name style name && ends_name style (render style t')
      && well_formed style t'
  end.

(** The query numbered from left to right, [seen] being the distinct names
    met so far. *)
Fixpoint numbered_from (seen : list string) (t : list segment) : string :=
  match t with
  | [] => EmptyString
  | Text s :: t' => s +:+ numbered_from seen t'
  | Quoted body :: t' => quote_str body +:+ numbered_from seen t'
  | QuotedIdent body :: t' => quote_ident body +:+ numbered_from seen t'
  | Param name :: t' =>
      ("$" +:+ str_of_int (number_of (add_name seen name) name))
      +:+ numbered_from (add_name seen name) t'
  end.

(** The character that follows a stretch of the query. *)
Definition following (rest : string) (after : option ascii) : option ascii :=
  match rest with
  | String c _ => Some c
  | EmptyString => after
  end.

(** The last character of a stretch, [prev_c] if it is empty. *)
Fixpoint last_char (prev_c : option ascii) (s : string) : option ascii :=
  match s with
  | EmptyString => prev_c
  | String c rest => last_char (Some c) rest
  end.

(** [output_query] after the characters of [s] have been appended one by
    one. *)
Definition emit_chars (sc : scanner) (s : string) : scanner :=
  MkScanner (sc_style sc) (sc_state sc) (in_quote_escape sc)
    (in_param_escape sc) (placeholders sc)
    (output_query sc ++ map char_str (list_ascii_of_string s))
    (param_idx sc).

(** The variables after a doubled percent sign has been read in a state
    other than INSIDE_PN: a single [%] has been appended, and outside
    quotes the dialect is [format] from then on. *)
Definition after_percent_pair (sc : scanner) : scanner :=
  emit (match sc_state sc with
        | OUTSIDE => set_style sc "format"
        | _ => sc
        end) "%".

(** The variables after a [%s] has been read in state OUTSIDE. *)
Definition after_percent_s (sc : scanner) : scanner :=
  emit_next_param (set_style sc "format").

(** ** More [struct] packers *)

(** Modelled from the spec: [q_unpack], [ii_pack], [iii_pack], [qii_pack]
    and their [unpack_from] sides are bound in pg8000/__init__.py, which is
    not among the sources; their names spell the [struct] format ([h], [i]
    and [q] are signed integers of 2, 4 and 8 bytes) and the specification
    fixes the network byte order.  A packer of several fields refuses a
    value out of range; an unpacker refuses a buffer that does not hold the
    whole format at the offset. *)
Definition q_unpack : bytes -> Z -> result Z := unpack_int 8.

(** The offset [struct.unpack_from] starts at, when [size] bytes are there. *)
Definition unpack_offset (size : Z) (data : bytes) (offset : Z) : result Z :=
  let n := Z.of_nat (String.length data) in
  let off := if offset <? 0 then offset + n else offset in
  if (0 <=? off) && (size <=? n - off) then Ok off else Raise StructError.

Definition ii_pack (a b : Z) : result bytes :=
  a' ← i_pack a; b' ← i_pack b; mret (a' +:+ b').

Definition iii_pack (a b c : Z) : result bytes :=
  a' ← i_pack a; b' ← i_pack b; c' ← i_pack c; mret (a' +:+ b' +:+ c').

Definition qii_pack (a b c : Z) : result bytes :=
  a' ← q_pack a; b' ← i_pack b; c' ← i_pack c; mret (a' +:+ b' +:+ c').

Definition ii_unpack (data : bytes) (offset : Z) : result (Z * Z) :=
  off ← unpack_offset 8 data offset;
  a ← i_unpack data off; b ← i_unpack data (off + 4);
  mret (a, b).

Definition iii_unpack (data : bytes) (offset : Z) : result (Z * Z * Z) :=
  off ← unpack_offset 12 data offset;
  a ← i_unpack data off; b ← i_unpack data (off + 4);
  c ← i_unpack data (off + 8);
  mret (a, b, c).

Definition qii_unpack (data : bytes) (offset : Z) : result (Z * Z * Z) :=
  off ← unpack_offset 16 data offset;
  a ← q_unpack data off; b ← i_unpack data (off + 8);
  c ← i_unpack data (off + 12);
  mret (a, b, c).

(** ** dbapi.py: arrays *)

#[local] Set Warnings "-register-all".

(** A Python value that may be a list: the leaves are the values of
    [pyvalue], the nodes are Python lists. *)
Inductive pyarr : Type :=
  | Item (v : pyvalue)
  | PyList (items : list pyarr).

(** [isinstance(v, list)] *)
Definition is_list (v : pyarr) : bool :=
  match v with
  | PyList _ => true
  | Item _ => false
  end.

(** Modelled from the spec: the specialisations of pg8000/errors.py that
    the array code raises (section 7 of the specification lists them); any
    other exception is one of [exn]. *)
Inductive error : Type :=
  | Builtin (e : exn)
  | ArrayContentEmptyError (msg : string)
  | ArrayContentNotHomogenousError (msg : string)
  | ArrayDimensionsNotConsistentError (msg : string)
  | ArrayContentNotSupportedError (msg : string).

Inductive outcome (A : Type) : Type :=
  | Return (a : A)
  | Throw (e : error).
Arguments Return {A} a.
Arguments Throw {A} e.

#[global] Instance outcome_ret : MRet outcome := fun A a => Return a.
#[global] Instance outcome_bind : MBind outcome := fun A B f m =>
  match m with
  | Return a => f a
  | Throw e => Throw e
  end.

Definition lift {A} (r : result A) : outcome A :=
  match r with
  | Ok a => Return a
  | Raise e => Throw (Builtin e)
  end.

(** What the generator [array_flatten] yields for one item [v] of the
    list it walks: the leaves below it, from left to right. *)
Fixpoint flatten_item (v : pyarr) : list pyvalue :=
  match v with
  | Item x => [x]
  | PyList l => flat_map flatten_item l
  end.

(** [array_flatten(arr)] for a list [arr], as the list of what it yields. *)
Definition array_flatten (arr : list pyarr) : list pyvalue :=
  flat_map flatten_item arr.

Definition is_None (v : pyvalue) : bool :=
  match v with
  | PyNone => true
  | _ => false
  end.

(** [array_find_first_element(arr)]; [None] is Python's [None]. *)
Definition array_find_first_element (arr : list pyarr) : option pyvalue :=
  List.find (fun v => negb (is_None v)) (array_flatten arr).

(** [array_has_null(arr)] *)
Definition array_has_null (arr : list pyarr) : bool :=
  existsb is_None (array_flatten arr).

(** The name of the class of a value in the messages of CPython 3. *)
Definition class_name (v : pyvalue) : string :=
  match v with
  | PyNone => "NoneType"
  | PyBool _ => "bool"
  | PyInt _ | PyLong _ => "int"
  | PyDec _ => "decimal.Decimal"
  | PyStr _ => "str"
  | PyObject _ _ => "object"
  end.

(** The [TypeError] of [v[0]] for a value that is not a sequence (the text
    is CPython 3's). *)
Definition not_subscriptable (v : pyvalue) : exn :=
  TypeError ("'" +:+ class_name v +:+ "' object is not subscriptable").

(** [len(v)] for an item of a list: a list and a string have a length. *)
Definition len_item (v : pyarr) : result Z :=
  match v with
  | PyList l => Ok (Z.of_nat (length l))
  | Item (PyStr s) => Ok (Z.of_nat (String.length s))
  | Item x =>
      Raise (TypeError ("object of type '" +:+ class_name x
                        +:+ "' has no len()"))
  end.

Definition list_Z_eqb (a b : list Z) : bool :=
  bool_decide (a = b).

Section CheckItems.
Variable check : pyarr -> outcome (list Z).
Variable req_len : Z.
Variable req_inner_lengths : list Z.

(** The loop [for v in arr] of the first branch of
    [array_check_dimensions]; [check] is the function itself. *)
Fixpoint check_items (vs : list pyarr) : outcome unit :=
  match vs with
  | [] => Return tt
  | v :: vs' =>
      inner_lengths ← check v;
      len_v ← lift (len_item v);
      if negb (len_v =? req_len)
         || negb (list_Z_eqb inner_lengths req_inner_lengths)
      then Throw (ArrayDimensionsNotConsistentError
                    "array dimensions not consistent")
      else check_items vs'
  end.

End CheckItems.

(** [array_check_dimensions(arr)].  The code calls it on lists and, from
    its own loop, on the items of a list: an item that is a string is a
    sequence of one-character strings, none of which is a list; any other
    leaf fails at [arr[0]] ([PyObject] stands here for an object that is no
    sequence). *)
Fixpoint array_check_dimensions (arr : pyarr) : outcome (list Z) :=
  match arr with
  | Item (PyStr s) =>
      match s with
      | EmptyString => Throw (Builtin IndexError)
      | String _ _ => Return []
      end
  | Item x => Throw (Builtin (not_subscriptable x))
  | PyList [] => Throw (Builtin IndexError)
  | PyList ((v0 :: _) as items) =>
      match v0 with
      | PyList l0 =>
          let req_len := Z.of_nat (length l0) in
          req_inner_lengths ← array_check_dimensions v0;
          _ ← check_items array_check_dimensions req_len req_inner_lengths
                items;
          mret (req_len :: req_inner_lengths)
      | Item _ =>
          (* make sure nothing else at this level is a list *)
          if existsb is_list items then
            Throw (ArrayDimensionsNotConsistentError
                     "array dimensions not consistent")
          else Return []
      end
  end.

(** [array_dim_lengths(arr)], called on lists. *)
Fixpoint array_dim_lengths (arr : pyarr) : result (list Z) :=
  match arr with
  | Item (PyStr s) =>
      match s with
      | EmptyString => Raise IndexError
      | String _ _ => Ok [Z.of_nat (String.length s)]
      end
  | Item x => Raise (not_subscriptable x)
  | PyList [] => Raise IndexError
  | PyList ((v0 :: _) as items) =>
      match v0 with
      | PyList l0 =>
          rest ← array_dim_lengths v0;
          mret (Z.of_nat (length l0) :: rest)
      | Item _ => Ok [Z.of_nat (length items)]
      end
  end.

(** The class [typ] that [send_array] tests the elements against:
    [integer_types], [str], or the class of the first element. *)
Inductive elem_typ : Type :=
  | typ_integer_types
  | typ_str
  | typ_of (first_element : pyvalue).

(** [pg_array_types]: pg element typeoid -> pg array typeoid. *)
Definition pg_array_types (oid : Z) : option Z :=
  if oid =? 701 then Some 1022
  else if oid =? 16 then Some 1000
  else if oid =? 25 then Some 1009
  else if oid =? 1700 then Some 1231
  else None.

(** What the closure [send_array] keeps of the call of [array_inspect] that
    built it: the inspected list [value], and [typ], [oid] and
    [send_func]. *)
Record array_sender : Type := MkArraySender {
  as_value : list pyarr;
  as_typ : elem_typ;
  as_oid : Z;
  as_send_func : send_func
}.

(** [list(map(list, zip( *[iter(values)] * length)))] for a positive
    [length]: the consecutive groups of [length] items, an incomplete last
    group being dropped.  [need] items are missing from the group [acc]. *)
Fixpoint zip_groups (length need : nat) (acc values : list pyarr)
  : list pyarr :=
  match values with
  | [] => []
  | x :: values' =>
      match need with
      | O => []
      | S O => PyList (acc ++ [x]) :: zip_groups length length [] values'
      | S m => zip_groups length m (acc ++ [x]) values'
      end
  end.

(** The same for any [length]: [zip()] of no iterator at all is empty. *)
Definition regroup (length : Z) (values : list pyarr) : list pyarr :=
  if length <=? 0 then []
  else zip_groups (Z.to_nat length) (Z.to_nat length) [] values.

(** The decoders of [Connection.pg_types], under the names the source gives
    them; the anonymous lambdas are named after their type. *)
Inductive recv_func : Type :=
  | bool_recv | bytea_recv | varcharin | int8_recv | int2_recv | int4_recv
  | oid_in | float4_recv | float8_recv | array_recv_func | date_in | time_in
  | timestamp_recv | timestamptz_recv | interval_recv_func | numeric_recv_func
  | uuid_recv.

(** [self.pg_types[oid]]: a [defaultdict], an unknown oid is read as
    text. *)
Definition pg_types (oid : Z) : Z * recv_func :=
  if oid =? 16 then (FC_BINARY, bool_recv)
  else if oid =? 17 then (FC_BINARY, bytea_recv)
  else if oid =? 19 then (FC_BINARY, varcharin)
  else if oid =? 20 then (FC_BINARY, int8_recv)
  else if oid =? 21 then (FC_BINARY, int2_recv)
  else if oid =? 23 then (FC_BINARY, int4_recv)
  else if oid =? 25 then (FC_BINARY, varcharin)
  else if oid =? 26 then (FC_TEXT, oid_in)
  else if oid =? 700 then (FC_BINARY, float4_recv)
  else if oid =? 701 then (FC_BINARY, float8_recv)
  else if oid =? 829 then (FC_TEXT, varcharin)
  else if (oid =? 1000) || (oid =? 1003) || (oid =? 1005) || (oid =? 1007)
          || (oid =? 1009) || (oid =? 1014) || (oid =? 1015)
          || (oid =? 1016) || (oid =? 1021) || (oid =? 1022)
          || (oid =? 1231) || (oid =? 1263)
  then (FC_BINARY, array_recv_func)
  else if oid =? 1042 then (FC_BINARY, varcharin)
  else if oid =? 1043 then (FC_BINARY, varcharin)
  else if oid =? 1082 then (FC_TEXT, date_in)
  else if oid =? 1083 then (FC_TEXT, time_in)
  else if oid =? 1114 then (FC_BINARY, timestamp_recv)
  else if oid =? 1184 then (FC_BINARY, timestamptz_recv)
  else if oid =? 1186 then (FC_BINARY, interval_recv_func)
  else if oid =? 1700 then (FC_BINARY, numeric_recv_func)
  else if oid =? 2275 then (FC_BINARY, varcharin)
  else if oid =? 2950 then (FC_BINARY, uuid_recv)
  else (FC_BINARY, varcharin).

Section Arrays.
(** [six.PY2] *)
Variable PY2 : bool.
(** [v.encode(self._client_encoding)] for a string [v]: the codec is
    Python's. *)
Variable textout : string -> result bytes.
(** The decoders whose results are not values of [pyvalue] (floats, dates
    and times, text decoded with the client encoding, bytea, uuid). *)
Variable recv_extern : recv_func -> bytes -> Z -> Z -> result pyvalue.

(** The number that [struct] packs for a value: an int, a bool. *)
Definition struct_int (v : pyvalue) : option Z :=
  match v with
  | PyInt z | PyLong z => Some z
  | PyBool b => Some (if b then 1 else 0)
  | _ => None
  end.

(** [send_func(v)] for the encoders of the parameter descriptors.  The
    integer packers are reached with ints and bools, [textout] with
    strings. *)
Definition apply_send (f : send_func) (v : pyvalue) : result bytes :=
  match f with
  | send_h_pack =>
      match struct_int v with Some z => h_pack z | None => Raise StructError end
  | send_i_pack =>
      match struct_int v with Some z => i_pack z | None => Raise StructError end
  | send_q_pack =>
      match struct_int v with Some z => q_pack z | None => Raise StructError end
  | send_numeric_send => numeric_send PY2 v
  | send_bool =>
      match v with
      | PyBool true => Ok (char_str (ascii_of_N 1))
      | PyBool false => Ok (char_str NUL)
      | PyNone => Ok (char_str NUL)
      | PyInt z | PyLong z =>
          Ok (char_str (if z =? 0 then NUL else ascii_of_N 1))
      | PyStr s =>
          Ok (char_str (if String.eqb s EmptyString then NUL
                        else ascii_of_N 1))
      | PyDec d =>
          Ok (char_str (if (dec_coeff d =? 0)%N then NUL else ascii_of_N 1))
      | PyObject _ _ => Ok (char_str (ascii_of_N 1))
      end
  | send_null => i_pack (-1)
  | send_textout =>
      match v with
      | PyStr s => textout s
      | _ =>
          Raise (AttributeError
                   ("'" +:+ class_name v
                    +:+ "' object has no attribute 'encode'"))
      end
  end.

(** [lo < v] for an int [lo] and a value [v].  Python 2 orders any two
    objects ([None] is the smallest, numbers come before the rest) and
    Python 3 raises [TypeError]; [PyObject] stands here for an object
    without comparison methods. *)
Definition int_lt_value (lo : Z) (v : pyvalue) : result bool :=
  match v with
  | PyInt z | PyLong z => Ok (lo <? z)
  | PyBool b => Ok (lo <? (if b then 1 else 0))
  | PyDec d => Ok (negb (Qle_bool (dec_value d) (inject_Z lo)))
  | PyNone =>
      if PY2 then Ok false
      else Raise (TypeError "'<' not supported between instances of 'int' and 'NoneType'")
  | PyStr _ | PyObject _ _ =>
      if PY2 then Ok true
      else Raise (TypeError ("'<' not supported between instances of 'int' and '"
                             +:+ class_name v +:+ "'"))
  end.

(** [v < hi] likewise. *)
Definition value_lt_int (v : pyvalue) (hi : Z) : result bool :=
  match v with
  | PyInt z | PyLong z => Ok (z <? hi)
  | PyBool b => Ok ((if b then 1 else 0) <? hi)
  | PyDec d => Ok (negb (Qle_bool (inject_Z hi) (dec_value d)))
  | PyNone =>
      if PY2 then Ok true
      else Raise (TypeError "'<' not supported between instances of 'NoneType' and 'int'")
  | PyStr _ | PyObject _ _ =>
      if PY2 then Ok false
      else Raise (TypeError ("'<' not supported between instances of '"
                             +:+ class_name v +:+ "' and 'int'"))
  end.

(** The chained comparison [lo < v < hi]: the second test is made only
    if the first holds. *)
Definition value_between (lo : Z) (v : pyvalue) (hi : Z) : result bool :=
  match int_lt_value lo v with
  | Raise e => Raise e
  | Ok true => value_lt_int v hi
  | Ok false => Ok false
  end.

(** The loop of [array_inspect] over the flattened array, on the three
    flags [(int2_ok, int4_ok, int8_ok)]. *)
Fixpoint int_ranges (vs : list pyvalue) (ok : bool * bool * bool)
  : result (bool * bool * bool) :=
  match vs with
  | [] => Ok ok
  | v :: vs' =>
      let '(int2_ok, int4_ok, int8_ok) := ok in
      if is_None v then int_ranges vs' ok
      else
        match value_between min_int2 v max_int2 with
        | Raise e => Raise e
        | Ok true => int_ranges vs' ok
        | Ok false =>
            match value_between min_int4 v max_int4 with
            | Raise e => Raise e
            | Ok true => int_ranges vs' (false, int4_ok, int8_ok)
            | Ok false =>
                match value_between min_int8 v max_int8 with
                | Raise e => Raise e
                | Ok true => int_ranges vs' (false, false, int8_ok)
                | Ok false => int_ranges vs' (false, false, false)
                end
            end
        end
  end.

(** [issubclass(type(v), integer_types)]: [int] and its subclass [bool],
    and [long] on Python 2. *)
Definition is_integer_type (v : pyvalue) : bool :=
  match v with
  | PyInt _ | PyBool _ => true
  | PyLong _ => PY2
  | _ => false
  end.

(** [type(a) is type(b)], which stands for [isinstance(b, type(a))]:
    two objects are of the same class when their classes print alike. *)
Definition same_class (a b : pyvalue) : bool :=
  match a, b with
  | PyNone, PyNone | PyBool _, PyBool _ | PyInt _, PyInt _
  | PyLong _, PyLong _ | PyStr _, PyStr _ | PyDec _, PyDec _ => true
  | PyObject r _, PyObject r' _ => String.eqb r r'
  | _, _ => false
  end.

(** [isinstance(v, typ)] *)
Definition isinstance_typ (v : pyvalue) (typ : elem_typ) : bool :=
  match typ with
  | typ_integer_types => is_integer_type v
  | typ_str => match v with PyStr _ => true | _ => false end
  | typ_of first_element => same_class first_element v
  end.

(** [str(typ)] *)
Definition str_typ (typ : elem_typ) : string :=
  match typ with
  | typ_integer_types =>
      if PY2 then "(<type 'int'>, <type 'long'>)" else "(<class 'int'>,)"
  | typ_str => if PY2 then "<type 'str'>" else "<class 'str'>"
  | typ_of first_element => repr_type PY2 first_element
  end.

(** [Connection.array_inspect(value)]: the array typeoid, the format code
    and the closure [send_array]. *)
Definition array_inspect (value : list pyarr)
  : outcome (Z * Z * array_sender) :=
  match array_find_first_element value with
  | None => Throw (ArrayContentEmptyError "array has no values")
  | Some first_element =>
      if is_integer_type first_element then
        (* special int array support -- send as smallest possible array type *)
        match int_ranges (array_flatten value) (true, true, true) with
        | Raise e => Throw (Builtin e)
        | Ok (int2_ok, int4_ok, int8_ok) =>
            if int2_ok then
              Return (1005, FC_BINARY,
                      MkArraySender value typ_integer_types 21 send_h_pack)
            else if int4_ok then
              Return (1007, FC_BINARY,
                      MkArraySender value typ_integer_types 23 send_i_pack)
            else if int8_ok then
              Return (1016, FC_BINARY,
                      MkArraySender value typ_integer_types 20 send_q_pack)
            else
              Throw (ArrayContentNotSupportedError
                       "numeric not supported as array contents")
        end
      else
        match first_element with
        | PyStr _ =>
            match pg_array_types 25 with
            | Some array_typeoid =>
                Return (array_typeoid, FC_BINARY,
                        MkArraySender value typ_str 25 send_textout)
            | None => Throw (Builtin KeyError)
            end
        | _ =>
            let unsupported :=
              Throw (ArrayContentNotSupportedError
                       ("type " +:+ repr_type PY2 first_element
                        +:+ " not supported as array contents")) in
            match make_params PY2 [first_element] with
            | Ok ((oid, fc, send_func) :: _) =>
                match pg_array_types oid with
                | Some array_typeoid =>
                    Return (array_typeoid, FC_BINARY,
                            MkArraySender value (typ_of first_element) oid
                              send_func)
                | None => unsupported
                end
            | Ok [] => Throw (Builtin IndexError)
            | Raise (NotSupportedError _) => unsupported
            | Raise KeyError => unsupported
            | Raise e => Throw (Builtin e)
            end
        end
  end.

(** The first loop of [send_array]: the check for a homogenous array. *)
Fixpoint check_homogenous (typ : elem_typ) (vs : list pyvalue)
  : outcome unit :=
  match vs with
  | [] => Return tt
  | v :: vs' =>
      if negb (is_None v) && negb (isinstance_typ v typ) then
        Throw (ArrayContentNotHomogenousError
                 ("not all array elements are of type " +:+ str_typ typ))
      else check_homogenous typ vs'
  end.

(** The last loop of [send_array]: each element is its length and its
    bytes, a null is the length -1. *)
Fixpoint send_elements (send_func : send_func) (vs : list pyvalue)
  : result bytes :=
  match vs with
  | [] => Ok EmptyString
  | v :: vs' =>
      elem ← (if is_None v then i_pack (-1)
              else
                inner_data ← apply_send send_func v;
                len ← i_pack (Z.of_nat (String.length inner_data));
                mret (len +:+ inner_data));
      rest ← send_elements send_func vs';
      mret (elem +:+ rest)
  end.

Fixpoint send_dims (dim_lengths : list Z) : result bytes :=
  match dim_lengths with
  | [] => Ok EmptyString
  | i :: rest =>
      d ← ii_pack i 1;
      ds ← send_dims rest;
      mret (d +:+ ds)
  end.

(** The closure [send_array(arr)]: the two checks read the list [value]
    that [array_inspect] was called on. *)
Definition send_array (s : array_sender) (arr : list pyarr) : outcome bytes :=
  _ ← check_homogenous (as_typ s) (array_flatten (as_value s));
  (* check that all array dimensions are consistent *)
  _ ← array_check_dimensions (PyList (as_value s));
  let has_null := array_has_null arr in
  lift (dim_lengths ← array_dim_lengths (PyList arr);
        header ← iii_pack (Z.of_nat (length dim_lengths))
                   (if has_null then 1 else 0) (as_oid s);
        dims ← send_dims dim_lengths;
        elems ← send_elements (as_send_func s) (array_flatten arr);
        mret (header +:+ dims +:+ elems)).

(** The loop [for i in range(dim)] of [array_recv]: the dimension lengths
    and the index after them. *)
Fixpoint recv_dims (dim : nat) (data : bytes) (idx : Z)
  : result (list Z * Z) :=
  match dim with
  | O => Ok ([], idx)
  | S n =>
      '(d, _) ← ii_unpack data idx;
      '(ds, idx') ← recv_dims n data (idx + 8);
      mret (d :: ds, idx')
  end.

(** The loop [while idx < final_idx] of [array_recv].  It runs while
    [fuel] lasts: the result [None] stands for a loop that has not ended
    by then. *)
Fixpoint recv_elements (conversion : bytes -> Z -> Z -> option (result pyarr))
    (fuel : nat) (data : bytes) (idx final_idx : Z) (values : list pyarr)
  : option (result (list pyarr)) :=
  match fuel with
  | O => None
  | S n =>
      if idx <? final_idx then
        match i_unpack data idx with
        | Raise e => Some (Raise e)
        | Ok element_len =>
            let idx := idx + 4 in
            if element_len =? -1 then
              recv_elements conversion n data idx final_idx
                (values ++ [Item PyNone])
            else
              match conversion data idx element_len with
              | None => None
              | Some (Raise e) => Some (Raise e)
              | Some (Ok v) =>
                  recv_elements conversion n data (idx + element_len)
                    final_idx (values ++ [v])
              end
        end
      else Some (Ok values)
  end.

(** The body of [array_recv(data, idx, length)], given the decoders
    [self.pg_types[typeoid][1]]. *)
Definition array_recv_with
    (conversions : Z -> bytes -> Z -> Z -> option (result pyarr))
    (fuel : nat) (data : bytes) (idx length : Z)
  : option (result (list pyarr)) :=
  let final_idx := idx + length in
  match iii_unpack data idx with
  | Raise e => Some (Raise e)
  | Ok (dim, hasnull, typeoid) =>
      let idx := idx + 12 in
      let conversion := conversions typeoid in
      match recv_dims (Z.to_nat dim) data idx with
      | Raise e => Some (Raise e)
      | Ok (dim_lengths, idx) =>
          match recv_elements conversion fuel data idx final_idx [] with
          | None => None
          | Some (Raise e) => Some (Raise e)
          | Some (Ok values) =>
              Some (Ok (foldl (fun values length => regroup length values)
                          values (rev (tail dim_lengths))))
          end
      end
  end.

(** [bool_recv(d, o, l)]: Python 2 compares the byte with 1, Python 3
    unpacks it with the format [?], for which any byte but 0 is true. *)
Definition apply_bool_recv (data : bytes) (offset : Z) : result pyvalue :=
  if PY2 then
    c ← str_index data offset;
    mret (PyBool (c =? ascii_of_N 1)%char)
  else
    off ← unpack_offset 1 data offset;
    c ← str_index data off;
    mret (PyBool (negb (c =? NUL)%char)).

(** [self.pg_types[oid][1](data, offset, length)] for a decoder [f];
    [fuel] bounds the nesting of arrays and the turns of their loops. *)
Fixpoint apply_recv (fuel : nat) (f : recv_func) (data : bytes)
    (offset length : Z) : option (result pyarr) :=
  match f with
  | int8_recv => Some (Item ∘ PyInt <$> q_unpack data offset)
  | int2_recv => Some (Item ∘ PyInt <$> h_unpack data offset)
  | int4_recv => Some (Item ∘ PyInt <$> i_unpack data offset)
  | bool_recv => Some (Item <$> apply_bool_recv data offset)
  | numeric_recv_func =>
      Some (Item ∘ PyDec <$> numeric_recv data offset length)
  | array_recv_func =>
      match fuel with
      | O => None
      | S n =>
          match array_recv_with (fun typeoid => apply_recv n (pg_types typeoid).2)
                  (S n) data offset length with
          | None => None
          | Some r => Some (PyList <$> r)
          end
      end
  | _ => Some (Item <$> recv_extern f data offset length)
  end.

(** [array_recv(data, idx, length)] *)
Definition array_recv (fuel : nat) (data : bytes) (idx length : Z)
  : option (result (list pyarr)) :=
  array_recv_with (fun typeoid => apply_recv fuel (pg_types typeoid).2)
    (S fuel) data idx length.

End Arrays.

(** *** Shapes of arrays *)

(** A rectangular array: [has_shape [d1; ...; dk] v] holds when [v] is a
    list of [d1] items of shape [[d2; ...; dk]], the items of the innermost
    lists being leaves. *)
Fixpoint has_shape (shape : list Z) (v : pyarr) : bool :=
  match shape, v with
  | [], Item _ => true
  | d :: shape', PyList l =>
      (Z.of_nat (length l) =? d) && forallb (has_shape shape') l
  | _, _ => false
  end.

(** The number of elements of an array of a given shape. *)
Definition shape_size (shape : list Z) : Z := foldr Z.mul 1 shape.

(** The leaves that are neither strings nor objects of an unknown
    class. *)
Definition scalar (v : pyvalue) : bool :=
  match v with
  | PyStr _ | PyObject _ _ => false
  | _ => true
  end.

(** The integer of a leaf of an array of ints, and the array type that
    the bounds of [array_inspect] give for the integers of an array: array
    typeoid, element typeoid and packer. *)
Definition int_leaf (v : pyvalue) : option Z :=
  match v with
  | PyInt z => Some z
  | PyBool b => Some (if b then 1 else 0)
  | _ => None
  end.

Definition int_array_type (zs : list Z) : option (Z * Z * send_func) :=
  if forallb (fun z => between (- 2 ^ 15) z (2 ^ 15)) zs
  then Some (1005, 21, send_h_pack)
  else if forallb (fun z => between (- 2 ^ 31) z (2 ^ 31)) zs
  then Some (1007, 23, send_i_pack)
  else if forallb (fun z => between (- 2 ^ 63) z (2 ^ 63)) zs
  then Some (1016, 20, send_q_pack)
  else None.

(** The arrays [[[1, 2, 3], [4, 5, 6]]], [[7, None, 9]] and
    [[True, False]]. *)
Definition array_2x3 : list pyarr :=
  [ PyList [Item (PyInt 1); Item (PyInt 2); Item (PyInt 3)];
    PyList [Item (PyInt 4); Item (PyInt 5); Item (PyInt 6)] ].
Definition array_7_None_9 : list pyarr :=
  [Item (PyInt 7); Item PyNone; Item (PyInt 9)].
Definition array_of_bools : list pyarr :=
  [Item (PyBool true); Item (PyBool false)].

(** ** Queries of the positional dialects *)

(** The characters that the scanner copies outside quotes, whatever the
    dialect: no quote, and none of the markers that the dialect reads. *)
Definition copied_outside (style : string) (c : ascii) : bool :=
  negb (c =? "'")%char && negb (c =? DQUOTE)%char
  && negb (String.eqb style "qmark" && (c =? "?")%char)
  && negb (String.eqb style "numeric" && (c =? ":")%char)
  && negb (String.eqb style "named" && (c =? ":")%char)
  && negb (style_in_format_pyformat style && (c =? "%")%char).

(** The characters that it copies inside a single-quoted string and inside
    a quoted identifier. *)
Definition copied_quoted (style : string) (c : ascii) : bool :=
  negb (c =? "'")%char && negb (c =? "\")%char
  && negb (style_in_format_pyformat style && (c =? "%")%char).

Definition copied_ident (style : string) (c : ascii) : bool :=
  negb (c =? DQUOTE)%char
  && negb (style_in_format_pyformat style && (c =? "%")%char).

(** A query of the qmark or format dialect: literal text, quoted strings
    and identifiers, doubled percent signs and placeholders. *)
Inductive pos_segment : Type :=
  | PText (s : string)
  | PQuoted (body : string)
  | PQuotedIdent (body : string)
  | PPercent
  | PParam.

(** How a segment is written: a placeholder is [?] in qmark and [%s] in
    format. *)
Definition render_pos_segment (style : string) (seg : pos_segment) : string :=
  match seg with
  | PText s => s
  | PQuoted body => quote_str body
  | PQuotedIdent body => quote_ident body
  | PPercent => "%%"
  | PParam => if String.eqb style "qmark" then "?" else "%s"
  end.

Definition render_pos (style : string) (t : list pos_segment) : string :=
  join (map (render_pos_segment style) t).

(** The query with its placeholders numbered from [n] on, from left to
    right, and each doubled percent sign made single. *)
Fixpoint numbered_pos (n : Z) (t : list pos_segment) : string :=
  match t with
  | [] => EmptyString
  | PText s :: t' => s +:+ numbered_pos n t'
  | PQuoted body :: t' => quote_str body +:+ numbered_pos n t'
  | PQuotedIdent body :: t' => quote_ident body +:+ numbered_pos n t'
  | PPercent :: t' => "%" +:+ numbered_pos n t'
  | PParam :: t' => ("$" +:+ str_of_int n) +:+ numbered_pos (n + 1) t'
  end.

Fixpoint well_formed_pos (style : string) (t : list pos_segment) : bool :=
  match t with
  | [] => true
  | PText s :: t' =>
      str_forall (copied_outside style) s && well_formed_pos style t'
  | PQuoted body :: t' =>
      str_forall (copied_quoted style) body
      && ends_quote (render_pos style t') && well_formed_pos style t'
  | PQuotedIdent body :: t' =>
      str_forall (copied_ident style) body && well_formed_pos style t'
  | PPercent :: t' => String.eqb style "format" && well_formed_pos style t'
  | PParam :: t' => well_formed_pos style t'
  end.

(** A query of the numeric dialect, where nothing but quotes is read:
    literal text without quotes, quoted strings and identifiers. *)
Inductive lit_segment : Type :=
  | LText (s : string)
  | LQuoted (body : string)
  | LQuotedIdent (body : string).

Definition render_lit_segment (seg : lit_segment) : string :=
  match seg with
  | LText s => s
  | LQuoted body => quote_str body
  | LQuotedIdent body => quote_ident body
  end.

Definition render_lit (t : list lit_segment) : string :=
  join (map render_lit_segment t).

(** A string with each colon replaced by a dollar sign. *)
Fixpoint colons_to_dollars (s : string) : string :=
  match s with
  | EmptyString => EmptyString
  | String c rest =>
      String (if (c =? ":")%char then "$"%char else c) (colons_to_dollars rest)
  end.

Definition numeric_segment (seg : lit_segment) : string :=
  match seg with
  | LText s => colons_to_dollars s
  | LQuoted body => quote_str body
  | LQuotedIdent body => quote_ident body
  end.

Definition no_quote (c : ascii) : bool :=
  negb (c =? "'")%char && negb (c =? DQUOTE)%char.

Fixpoint well_formed_lit (t : list lit_segment) : bool :=
  match t with
  | [] => true
  | LText s :: t' => str_forall no_quote s && well_formed_lit t'
  | LQuoted body :: t' =>
      str_forall (copied_quoted "numeric") body
      && ends_quote (render_lit t') && well_formed_lit t'
  | LQuotedIdent body :: t' =>
      str_forall (copied_ident "numeric") body && well_formed_lit t'
  end.

(** [SELECT ?, 'a?' || ?] and [SELECT %s, 100 %% 3, %s], and the numeric
    query [SELECT :1::int, ':2']. *)
Definition query_qmark : list pos_segment :=
  [PText "SELECT "; PParam; PText ", "; PQuoted "a?"; PText " || "; PParam].
Definition query_format : list pos_segment :=
  [PText "SELECT "; PParam; PText ", 100 "; PPercent; PText " 3, "; PParam].
Definition query_numeric : list lit_segment :=
  [LText "SELECT :1::int, "; LQuoted ":2"].

(** ** The fields of an ErrorResponse or NoticeResponse *)

(** A field as the server writes it: its one-byte code, its value and a
    zero byte; the body of the message is the fields and a last zero
    byte. *)
Definition field_bytes (f : ascii * string) : bytes :=
  String f.1 (f.2 +:+ char_str NUL).

Definition response_body (fields : list (ascii * string)) : bytes :=
  join (map field_bytes fields) +:+ char_str NUL.

(** The value of the last field that has the code [k]. *)
Definition last_field (k : ascii) (fields : list (ascii * string))
  : option string :=
  foldl (fun acc f => if (f.1 =? k)%char then Some f.2 else acc) None fields.

(** A field whose code is not the zero byte and whose value holds none. *)
Definition field_ok (f : ascii * string) : bool :=
  negb (f.1 =? NUL)%char && str_forall (fun c => negb (c =? NUL)%char) f.2.

(** ** dbapi.py: the dispatch loop *)

(** Modelled from the spec: [ci_unpack] of pg8000/__init__.py, the header
    of a message: its one-byte code and its length, a 4-byte signed
    integer in network order. *)
Definition ci_unpack (data : bytes) : result (bytes * Z) :=
  off ← unpack_offset 5 data 0;
  len ← i_unpack data (off + 1);
  mret (String.substring (Z.to_nat off) 1 data, len).

Section Dispatch.
(** [six.PY2] *)
Variable PY2 : bool.
(** What the handlers read and write: the attributes of the connection
    and of the statement, the bytes written to the socket. *)
Context {State : Type}.
(** [self.message_types]: the handler of each message code, applied to the
    payload. *)
Variable message_types : bytes -> option (bytes -> State -> result unit * State).
(** [isinstance(e, pg8000.errors.Error)] *)
Variable is_Error : exn -> bool.
(** [prepared_statement is None] *)
Variable no_statement : bool.

(** [self._sock.read(n)] on the bytes that the server has sent and that
    have not been read, the stream ending after them: [n] bytes or, at the
    end of the stream, fewer.  A negative [n] reads to the end of the
    stream, except that the buffered reader of Python 3 refuses a count
    below -1. *)
Definition sock_read (n : Z) (input : bytes) : result (bytes * bytes) :=
  if 0 <=? n then
    Ok (String.substring 0 (Z.to_nat n) input,
        String.substring (Z.to_nat n) (String.length input - Z.to_nat n)
          input)
  else if PY2 || (n =? -1) then Ok (input, EmptyString)
  else Raise ValueError.

(** What the clause [except KeyError] of the loop raises: Python 2
    concatenates the message and the code, Python 3 cannot add [bytes] to
    a [str]. *)
Definition unrecognised (message_code : bytes) : exn :=
  if PY2 then InternalError ("Unrecognised message code " +:+ message_code)
  else TypeError "Can't convert 'bytes' object to str implicitly".

(** [Connection.handle_messages]: the loop, with the variable [error];
    it returns with the bytes left unread.  Each turn reads five bytes or
    fails, so that the loop ends on any finite input: [fuel] stands for
    the turns that it may take, [None] for a loop that needs more. *)
Fixpoint handle_messages_loop (fuel : nat) (error : option exn)
    (input : bytes) (st : State) : option (result unit * bytes * State) :=
  match fuel with
  | O => None
  | S n =>
      match sock_read 5 input with
      | Raise e => Some (Raise e, input, st)
      | Ok (header, input) =>
          match ci_unpack header with
          | Raise e => Some (Raise e, input, st)
          | Ok (message_code, data_len) =>
              let next (error : option exn) (input : bytes) (st : State) :=
                if String.eqb message_code READY_FOR_QUERY then
                  Some (match error with
                        | Some e => Raise e
                        | None => Ok tt
                        end, input, st)
                else handle_messages_loop n error input st in
              match message_types message_code with
              | None => Some (Raise (unrecognised message_code), input, st)
              | Some handler =>
                  match sock_read (data_len - 4) input with
                  | Raise e => Some (Raise e, input, st)
                  | Ok (data, input) =>
                      match handler data st with
                      | (Ok _, st) => next error input st
                      | (Raise KeyError, st) =>
                          Some (Raise (unrecognised message_code), input, st)
                      | (Raise e, st) =>
                          if is_Error e then
                            if no_statement then Some (Raise e, input, st)
                            else next (Some e) input st
                          else Some (Raise e, input, st)
                      end
                  end
              end
          end
      end
  end.

Definition handle_messages (fuel : nat) (input : bytes) (st : State)
  : option (result unit * bytes * State) :=
  handle_messages_loop fuel None input st.

(** *** Messages as the server frames them *)

(** A message of code [m.1] and payload [m.2] on the wire. *)
Definition frame (m : bytes * bytes) : bytes :=
  m.1 +:+ be_encode 4 (Z.of_nat (String.length m.2) + 4) +:+ m.2.

Definition frames (msgs : list (bytes * bytes)) : bytes :=
  join (map frame msgs).

(** A message that the loop can read and hand to a handler. *)
Definition framed (m : bytes * bytes) : Prop :=
  String.length m.1 = 1%nat
  /\ Z.of_nat (String.length m.2) + 4 < 2 ^ 31
  /\ is_Some (message_types m.1).

(** The handlers of a list of messages run one after the other: the
    exceptions that they raise, in order, and the state that they
    leave. *)
Fixpoint run_handlers (msgs : list (bytes * bytes)) (st : State)
  : list exn * State :=
  match msgs with
  | [] => ([], st)
  | m :: msgs' =>
      match message_types m.1 with
      | None => ([], st)
      | Some handler =>
          match handler m.2 st with
          | (Ok _, st') => run_handlers msgs' st'
          | (Raise e, st') =>
              let '(es, st'') := run_handlers msgs' st' in (e :: es, st'')
          end
      end
  end.

(** The exceptions that the loop latches: the instances of
    [pg8000.errors.Error]. *)
Definition latched (e : exn) : Prop :=
  is_Error e = true /\ e <> KeyError.

End Dispatch.

(** ** dbapi.py: the handlers of the answers to Bind and Execute *)

Definition DATA_ROW : bytes := "D".
Definition COMMAND_COMPLETE : bytes := "C".
Definition PARSE_COMPLETE : bytes := "1".
Definition BIND_COMPLETE : bytes := "2".
Definition CLOSE_COMPLETE : bytes := "3".
Definition PORTAL_SUSPENDED : bytes := "s".
Definition PARAMETER_DESCRIPTION : bytes := "t".
Definition ROW_DESCRIPTION : bytes := "T".
Definition NO_DATA : bytes := "n".

Definition READY_STATUS : list (bytes * string) :=
  [("I", "Idle"); ("T", "Idle in Transaction");
   ("E", "Idle in Failed Transaction")].

(** What these handlers read and write: the connection and the statement,
    with three attributes more, [self._ready_status], the entry ['oid'] of
    [ps.cmd] and [ps.statement_row_desc]; the field [cmd] of the statement
    is the entry ['command'].  [None] stands for an attribute or an entry
    that is not there, and for the [None] that [statement_row_desc] is
    until the statement is described. *)
Record Exchange : Type := MkExchange {
  ex_self : Connection;
  ex_ps : PreparedStatement;
  _ready_status : option string;
  cmd_oid : option Z;
  statement_row_desc : option (list field_desc)
}.

Definition with_self (x : Exchange) (self : Connection) : Exchange :=
  MkExchange self (ex_ps x) (_ready_status x) (cmd_oid x)
    (statement_row_desc x).

Definition with_ps (x : Exchange) (ps : PreparedStatement) : Exchange :=
  MkExchange (ex_self x) ps (_ready_status x) (cmd_oid x)
    (statement_row_desc x).

Definition set_portal_row_desc (ps : PreparedStatement)
    (row_desc : list field_desc) : PreparedStatement :=
  MkPreparedStatement (statement_name ps) (portal_name ps) (_cached_rows ps)
    (portal_suspended ps) (Some row_desc) (cmd ps) (row_count ps).

Definition handle_CLOSE_COMPLETE (data : bytes) (x : Exchange)
  : result unit * Exchange := (Ok tt, x).

Definition handle_PARSE_COMPLETE (data : bytes) (x : Exchange)
  : result unit * Exchange := (Ok tt, x).

Definition handle_PARAMETER_DESCRIPTION (data : bytes) (x : Exchange)
  : result unit * Exchange := (Ok tt, x).

Definition handle_BIND_COMPLETE (data : bytes) (x : Exchange)
  : result unit * Exchange :=
  (Ok tt, with_self x (set_binding (ex_self x) false)).

Definition handle_PORTAL_SUSPENDED (data : bytes) (x : Exchange)
  : result unit * Exchange :=
  let ps := ex_ps x in
  (Ok tt,
   with_ps x
     (MkPreparedStatement (statement_name ps) (portal_name ps)
        (_cached_rows ps) true (portal_row_desc ps) (cmd ps) (row_count ps))).

Definition handle_READY_FOR_QUERY (data : bytes) (x : Exchange)
  : result unit * Exchange :=
  match List.find (fun kv => String.eqb kv.1 data) READY_STATUS with
  | Some kv =>
      (Ok tt,
       MkExchange (ex_self x) (ex_ps x) (Some kv.2) (cmd_oid x)
         (statement_row_desc x))
  | None => (Raise KeyError, x)
  end.

(** The white space that [int] strips from both ends of its argument. *)
Definition isspace (c : ascii) : bool :=
  let n := N_of_ascii c in ((9 <=? n) && (n <=? 13) || (n =? 32))%N.

Fixpoint lstrip_space (s : string) : string :=
  match s with
  | String c rest => if isspace c then lstrip_space rest else s
  | EmptyString => s
  end.

Fixpoint rstrip_space (s : string) : string :=
  match s with
  | String c rest =>
      match rstrip_space rest with
      | EmptyString => if isspace c then EmptyString else char_str c
      | rest' => String c rest'
      end
  | EmptyString => s
  end.

(** [int(value)] for a byte string: white space around the number is
    allowed (and, from Python 3.6 on, single underscores between digits,
    which this model refuses). *)
Definition int_of_bytes (value : bytes) : result Z :=
  int_of_str (rstrip_space (lstrip_space value)).

(** The command tags that end in a row count. *)
Definition counted_commands : list bytes :=
  ["INSERT"; "DELETE"; "UPDATE"; "MOVE"; "FETCH"; "COPY"; "SELECT"].

(** [Connection.handle_COMMAND_COMPLETE], for a statement: [ps.cmd]
    starts anew, and has its entry ['command'] before any conversion can
    fail. *)
Definition handle_COMMAND_COMPLETE (data : bytes) (x : Exchange)
  : result unit * Exchange :=
  let ps := ex_ps x in
  let set (command : bytes) (row_count : Z) (oid : option Z) :=
    MkExchange (ex_self x)
      (MkPreparedStatement (statement_name ps) (portal_name ps)
         (_cached_rows ps) (portal_suspended ps) (portal_row_desc ps)
         (Some command) row_count)
      (_ready_status x) oid (statement_row_desc x) in
  let data := str_slice data 0 (-1) in
  let values := bytes_split " " data in
  let values0 := List.hd EmptyString values in
  if existsb (String.eqb values0) counted_commands then
    match int_of_bytes (List.last values EmptyString) with
    | Raise e => (Raise e, set values0 (row_count ps) None)
    | Ok n =>
        let total := if row_count ps =? -1 then n else row_count ps + n in
        if String.eqb values0 "INSERT" then
          match nth_error values 1 with
          | None => (Raise IndexError, set values0 total None)
          | Some v =>
              match int_of_bytes v with
              | Raise e => (Raise e, set values0 total None)
              | Ok oid => (Ok tt, set values0 total (Some oid))
              end
          end
        else (Ok tt, set values0 total None)
    end
  else (Ok tt, set data (row_count ps) None).

(** Modelled from the spec: the taxonomy of pg8000/errors.py, in which
    [InterfaceError], [ProgrammingError], [NotSupportedError],
    [InternalError] and [QueryParameterParseError] descend from [Error];
    the other exceptions here are built in. *)
Definition is_pg8000_Error (e : exn) : bool :=
  match e with
  | InterfaceError _ | ProgrammingError _ | NotSupportedError _
  | InternalError _ | QueryParameterParseError _ => true
  | _ => false
  end.

(** [data.find(c, start)] for a one-byte [c]: the index of the first [c]
    at or after [start], -1 when there is none. *)
Fixpoint find_from (c : ascii) (s : string) (i : Z) : Z :=
  match s with
  | EmptyString => -1
  | String x rest => if (x =? c)%char then i else find_from c rest (i + 1)
  end.

Definition bytes_find (c : ascii) (data : bytes) (start : Z) : Z :=
  let n := Z.of_nat (String.length data) in
  let a := slice_bound n start in
  find_from c (String.substring a (String.length data - a) data) (Z.of_nat a).

(** Modelled from the spec: [ihihih_unpack] of pg8000/__init__.py, three
    pairs of a 4-byte and a 2-byte signed integer in network order. *)
Definition ihihih_unpack (data : bytes) (offset : Z)
  : result (Z * Z * Z * Z * Z * Z) :=
  off ← unpack_offset 18 data offset;
  a ← i_unpack data off; b ← h_unpack data (off + 4);
  c ← i_unpack data (off + 6); d ← h_unpack data (off + 10);
  e ← i_unpack data (off + 12); f ← h_unpack data (off + 16);
  mret (a, b, c, d, e, f).

Section StatementMessages.
(** [six.PY2] *)
Variable PY2 : bool.
(** The functions that [self.pg_types] holds under the names of
    [recv_func]. *)
Variable recv : recv_func -> bytes -> Z -> Z -> result pyvalue.
(** [PreparedStatement.row_cache_size] *)
Variable row_cache_size : Z.

(** The loop of [handle_ROW_DESCRIPTION]: of the keys of a field, the ones
    that are read later are kept, ['name'], ['type_oid'], ['format'] and
    ['func']; ['pg8000_fc'] is what [pg_types] gives for the type. *)
Fixpoint read_fields (count : nat) (data : bytes) (idx : Z)
  : result (list field_desc) :=
  match count with
  | O => Ok []
  | S count' =>
      let name := str_slice data idx (bytes_find NUL data idx) in
      let idx := idx + Z.of_nat (String.length name) + 1 in
      match ihihih_unpack data idx with
      | Raise e => Raise e
      | Ok (table_oid, column_attrnum, type_oid, type_size, type_modifier,
            format) =>
          let idx := idx + 18 in
          row_desc ← read_fields count' data idx;
          mret (MkFieldDesc name type_oid format (recv (pg_types type_oid).2)
                :: row_desc)
      end
  end.

(** [Connection.handle_ROW_DESCRIPTION], for a statement.  The message of
    the [NotSupportedError] for a format that is not the one of the type
    is the sum of a [str] and an int, so that [TypeError] is raised in its
    place (the text is that of Python 2). *)
Definition handle_ROW_DESCRIPTION (data : bytes) (x : Exchange)
  : result unit * Exchange :=
  match (count ← h_unpack data 0; read_fields (Z.to_nat count) data 2) with
  | Raise e => (Raise e, x)
  | Ok row_desc =>
      match statement_row_desc x with
      | None =>
          (Ok tt,
           MkExchange (ex_self x) (ex_ps x) (_ready_status x) (cmd_oid x)
             (Some row_desc))
      | Some _ =>
          let ps := set_portal_row_desc (ex_ps x) row_desc in
          if forallb (fun d => fd_format d =? (pg_types (fd_type_oid d)).1)
               row_desc
          then
            let '(r, self, ps) := send_EXECUTE (ex_self x) ps row_cache_size in
            (r, with_ps (with_self x self) ps)
          else
            (Raise (TypeError "cannot concatenate 'str' and 'int' objects"),
             with_ps x ps)
      end
  end.

(** [Connection.handle_NO_DATA], for a statement. *)
Definition handle_NO_DATA (msg : bytes) (x : Exchange)
  : result unit * Exchange :=
  match statement_row_desc x with
  | None =>
      (Ok tt,
       MkExchange (ex_self x) (ex_ps x) (_ready_status x) (cmd_oid x)
         (Some []))
  | Some _ =>
      let ps := set_portal_row_desc (ex_ps x) [] in
      let '(r, self, ps) := send_EXECUTE (ex_self x) ps 0 in
      (r, with_ps (with_self x self) ps)
  end.

(** The entries of [self.message_types] for the handlers above, that of
    ErrorResponse and that of DataRow; the table of [Connection.__init__]
    has ten more, for the codes of the connection start-up, of COPY, of
    notices and of notifications. *)
Definition statement_message_types (code : bytes)
  : option (bytes -> Exchange -> result unit * Exchange) :=
  if String.eqb code READY_FOR_QUERY then Some handle_READY_FOR_QUERY
  else if String.eqb code ERROR_RESPONSE then
    Some (fun data x =>
            let '(r, self) := handle_ERROR_RESPONSE PY2 (ex_self x) data in
            (r, with_self x self))
  else if String.eqb code DATA_ROW then
    Some (fun data x =>
            let '(r, ps) := handle_DATA_ROW data (ex_ps x) in
            (r, with_ps x ps))
  else if String.eqb code COMMAND_COMPLETE then Some handle_COMMAND_COMPLETE
  else if String.eqb code PARSE_COMPLETE then Some handle_PARSE_COMPLETE
  else if String.eqb code BIND_COMPLETE then Some handle_BIND_COMPLETE
  else if String.eqb code CLOSE_COMPLETE then Some handle_CLOSE_COMPLETE
  else if String.eqb code PORTAL_SUSPENDED then Some handle_PORTAL_SUSPENDED
  else if String.eqb code PARAMETER_DESCRIPTION then
    Some handle_PARAMETER_DESCRIPTION
  else if String.eqb code ROW_DESCRIPTION then Some handle_ROW_DESCRIPTION
  else if String.eqb code NO_DATA then Some handle_NO_DATA
  else None.

End StatementMessages.

(** An exchange on an idle connection for the suspended statement, and
    what a server sends for Execute: a row, an error, a second row, and
    ReadyForQuery. *)
Definition exchange_suspended : Exchange :=
  MkExchange conn_idle ps_suspended None None (portal_row_desc ps_suspended).

Definition data_row_int4 (v : Z) : bytes :=
  be_encode 2 1 +:+ be_encode 4 4 +:+ be_encode 4 v.

Definition error_response_42601 : bytes :=
  "SERROR" +:+ char_str NUL +:+ "C42601" +:+ char_str NUL
  +:+ "Msyntax error" +:+ char_str NUL +:+ char_str NUL.

(** Receivers that are not called: the row descriptions of the examples
    carry their own. *)
Definition no_recv (f : recv_func) (data : bytes) (offset length : Z)
  : result pyvalue := Raise ValueError.

(** A command tag as the server sends it in CommandComplete: the command,
    its numbers, each after a space, and a zero byte. *)
Definition command_tag (tag : bytes) (fields : list bytes) : bytes :=
  tag +:+ join (map (String " ") fields) +:+ char_str NUL.

(** The number that a string of decimal digits writes. *)
Definition decimal (f : bytes) : option Z :=
  match f with
  | EmptyString => None
  | String _ _ => digits_value f 0
  end.

(** ** types.py: the interval codec *)

Section IntervalCodec.
(** Python's [float]. *)
Variable float : Type.
(** [microseconds / 1000.0 / 1000.0] *)
Variable seconds_of : Z -> float.
(** [int(seconds * 1000 * 1000)] *)
Variable microseconds_of : float -> result Z.
(** [dii_pack] and [dii_unpack] of pg8000/__init__.py, whose first field
    is a double. *)
Variable dii_pack : float -> Z -> Z -> result bytes.
Variable dii_unpack : bytes -> Z -> result (float * Z * Z).

(** [interval_recv]; the numbers that [struct] unpacks are [int]s. *)
Definition interval_recv (data : bytes) (integer_datetimes : bool)
  : result Interval :=
  if integer_datetimes then
    match qii_unpack data 0 with
    | Raise e => Raise e
    | Ok (microseconds, days, months) =>
        Interval_init (PyInt microseconds) (PyInt days) (PyInt months)
    end
  else
    match dii_unpack data 0 with
    | Raise e => Raise e
    | Ok (seconds, days, months) =>
        microseconds ← microseconds_of seconds;
        Interval_init (PyInt microseconds) (PyInt days) (PyInt months)
    end.

(** [interval_send], for an [Interval] that its constructor has built:
    the three properties read the private attributes. *)
Definition interval_send (data : Interval) (integer_datetimes : bool)
  : result bytes :=
  match _microseconds data, _days data, _months data with
  | Some microseconds, Some days, Some months =>
      if integer_datetimes then qii_pack microseconds days months
      else dii_pack (seconds_of microseconds) days months
  | _, _, _ => Raise StructError
  end.

End IntervalCodec.

(** What [interval_recv] makes of the three integers of the wire. *)
Definition interval_of_wire (microseconds days months : Z) : result Interval :=
  if microseconds =? - 2 ^ 63 then
    Raise (OverflowError
             "microseconds must be representable as a 64-bit integer")
  else if days =? - 2 ^ 31 then
    Raise (OverflowError "days must be representable as a 32-bit integer")
  else if months =? - 2 ^ 31 then
    Raise (OverflowError "months must be representable as a 32-bit integer")
  else Ok (MkInterval (Some microseconds) (Some days) (Some months)).

(** A field of a RowDescription as the server writes it: the name of the
    column, a zero byte, and six integers of 4 and 2 bytes in turn; the
    body of the message is the number of fields on 2 bytes and the
    fields. *)
Record wire_field : Type := MkWireField {
  wf_name : bytes;
  wf_table_oid : Z;
  wf_column_attrnum : Z;
  wf_type_oid : Z;
  wf_type_size : Z;
  wf_type_modifier : Z;
  wf_format : Z
}.

Definition field_wire (f : wire_field) : bytes :=
  wf_name f +:+ char_str NUL
  +:+ be_encode 4 (wf_table_oid f) +:+ be_encode 2 (wf_column_attrnum f)
  +:+ be_encode 4 (wf_type_oid f) +:+ be_encode 2 (wf_type_size f)
  +:+ be_encode 4 (wf_type_modifier f) +:+ be_encode 2 (wf_format f).

Definition row_description (fields : list wire_field) : bytes :=
  be_encode 2 (Z.of_nat (length fields)) +:+ join (map field_wire fields).

(** A field that the wire can carry: no zero byte in the name, and each
    integer within its width. *)
Definition wire_field_ok (f : wire_field) : Prop :=
  str_forall (fun c => negb (c =? NUL)%char) (wf_name f) = true
  /\ - 2 ^ 31 <= wf_table_oid f < 2 ^ 31
  /\ - 2 ^ 15 <= wf_column_attrnum f < 2 ^ 15
  /\ - 2 ^ 31 <= wf_type_oid f < 2 ^ 31
  /\ - 2 ^ 15 <= wf_type_size f < 2 ^ 15
  /\ - 2 ^ 31 <= wf_type_modifier f < 2 ^ 31
  /\ - 2 ^ 15 <= wf_format f < 2 ^ 15.

(** The description that the driver keeps of a field. *)
Definition described (recv : recv_func -> bytes -> Z -> Z -> result pyvalue)
    (f : wire_field) : field_desc :=
  MkFieldDesc (wf_name f) (wf_type_oid f) (wf_format f)
    (recv (pg_types (wf_type_oid f)).2).

(** The format of the field is the one that the driver reads for its
    type. *)
Definition format_expected (f : wire_field) : bool :=
  wf_format f =? (pg_types (wf_type_oid f)).1.

(** ** dbapi.py: [PreparedStatement.read_dict] *)

Section RowDict.
Variable row_cache_size : Z.
Variable handle_messages :
  Connection -> PreparedStatement ->
  result unit * Connection * PreparedStatement.

(** [PreparedStatement.read_dict]: once [read_tuple] has given a row, the
    bound of the loop is [len(self.bind_row_desc.fields)], and no
    statement of the module assigns [bind_row_desc]; the loop that would
    fill the dictionary is not reached. *)
Definition read_dict (self : Connection) (ps : PreparedStatement)
  : result (option (gmap bytes pyvalue)) * Connection * PreparedStatement :=
  match read_tuple row_cache_size handle_messages self ps with
  | (Raise e, self, ps) => (Raise e, self, ps)
  | (Ok None, self, ps) => (Ok None, self, ps)
  | (Ok (Some row), self, ps) =>
      (Raise (AttributeError
                "'PreparedStatement' object has no attribute 'bind_row_desc'"),
       self, ps)
  end.

End RowDict.

(** ** DataRow on the wire *)

(** A column of a DataRow as the server writes it: the length of the value
    on 4 bytes and the value, or the length -1 for a null; the body of the
    message is the number of columns on 2 bytes and the columns. *)
Definition column_wire (col : option bytes) : bytes :=
  match col with
  | None => be_encode 4 (-1)
  | Some value => be_encode 4 (Z.of_nat (String.length value)) +:+ value
  end.

Definition data_row (cols : list (option bytes)) : bytes :=
  be_encode 2 (Z.of_nat (length cols)) +:+ join (map column_wire cols).

(** The decoder of the field [desc] makes [v] of the bytes [value],
    wherever they lie in the message. *)
Definition decodes (desc : field_desc) (value : bytes) (v : pyvalue) : Prop :=
  forall pre post : bytes,
    fd_func desc (pre +:+ value +:+ post) (Z.of_nat (String.length pre))
      (Z.of_nat (String.length value)) = Ok v.

(** The column [col] of a row is read as [v] by the field [desc]. *)
Definition column_read (desc : field_desc) (col : option bytes) (v : pyvalue)
  : Prop :=
  match col with
  | None => v = PyNone
  | Some value =>
      Z.of_nat (String.length value) < 2 ^ 31 /\ decodes desc value v
  end.

(* ================================================================== *)
(** * Theorems *)

(** ** Strings *)

#[local] Arguments append !_ _ / : simpl nomatch.

Lemma str_app_assoc (a b c : string) : (a +:+ b) +:+ c = a +:+ (b +:+ c).
Proof. induction a as [|x a IH]; [reflexivity | cbn; now f_equal]. Qed.

Lemma str_app_nil_r (a : string) : a +:+ EmptyString = a.
Proof. induction a as [|x a IH]; [reflexivity | cbn; now f_equal]. Qed.

Lemma str_length_app (a b : string) :
  String.length (a +:+ b) = (String.length a + String.length b)%nat.
Proof. induction a as [|x a IH]; [reflexivity | cbn; now f_equal]. Qed.

Lemma length_hexlify (digest : bytes) :
  String.length (hexlify digest) = (2 * String.length digest)%nat.
Proof. induction digest as [|c d IH]; simpl; [reflexivity | lia]. Qed.

Lemma hex_digit_ascii (n : N) :
  (n < 16)%N -> (N_of_ascii (hex_digit n) <? 128)%N = true.
Proof.
  intros Hn. unfold hex_digit. apply N.ltb_lt.
  destruct (N.ltb_spec n 10); rewrite N_ascii_embedding; lia.
Qed.

Lemma hexlify_is_ascii (digest : bytes) : is_ascii (hexlify digest) = true.
Proof.
  unfold is_ascii. induction digest as [|c d IH]; [reflexivity|].
  cbn [hexlify list_ascii_of_string forallb].
  rewrite !hex_digit_ascii; [exact IH | |].
  - apply N.mod_upper_bound. discriminate.
  - apply N.Div0.div_lt_upper_bound.
    pose proof (N_ascii_bounded c). lia.
Qed.

Lemma encode_ascii_hexlify (digest : bytes) :
  encode_ascii (hexlify digest) = Ok (hexlify digest).
Proof. unfold encode_ascii. now rewrite hexlify_is_ascii. Qed.

Lemma encode_ascii_Ok (s b : string) : encode_ascii s = Ok b -> b = s.
Proof. unfold encode_ascii. destruct (is_ascii s); congruence. Qed.

(** ** The numeric codec *)

Lemma roundtrip_values_literals :
  map Decimal_of_str ["0"; "1"; "-1"; "0.0001"; "1e20"; "-1.5e-7"]
  = map Ok roundtrip_values.
Proof. reflexivity. Qed.

Lemma roundtrip_values_str :
  map Decimal_str roundtrip_values
  = ["0"; "1"; "-1"; "0.0001"; "1E+20"; "-1.5E-7"].
Proof. reflexivity. Qed.

(** C2. For the six values of the scenario, on either interpreter,
    [numeric_send] returns bytes that [numeric_recv] reads back, at offset
    0, as a [Decimal] of the same numeric value. *)
Theorem numeric_roundtrip (PY2 : bool) (v : decimal_t) :
  In v roundtrip_values ->
  exists (data : bytes) (v' : decimal_t),
    numeric_send PY2 (PyDec v) = Ok data
    /\ numeric_recv data 0 (Z.of_nat (String.length data)) = Ok v'
    /\ (dec_value v' == dec_value v)%Q.
Proof.
  intros Hin. simpl in Hin.
  destruct PY2;
    repeat (destruct Hin as [<- | Hin];
            [eexists; eexists;
             split; [vm_compute; reflexivity |
             split; [vm_compute; reflexivity | reflexivity]] |]);
    destruct Hin.
Qed.

Lemma numeric_roundtrip_witness :
  exists (data : bytes) (v' : decimal_t),
    numeric_send false (PyDec (MkDecimal true 15 (-8))) = Ok data
    /\ numeric_recv data 0 (Z.of_nat (String.length data)) = Ok v'
    /\ (dec_value v' == dec_value (MkDecimal true 15 (-8)))%Q.
Proof.
  apply (numeric_roundtrip false (MkDecimal true 15 (-8))).
  simpl. tauto.
Defined.

(** On Python 3 the two stripping loops never fire: a byte is an [int] there
    and is never equal to ['0']. *)
Lemma strip_leading_py3 (digits : bytes) (weight ndigits : Z) :
  strip_leading false digits weight ndigits = (weight, ndigits).
Proof. destruct digits; simpl; [|destruct (ndigits =? 0)]; reflexivity. Qed.

Lemma strip_trailing_py3 (rdigits : bytes) (ndigits : Z) :
  strip_trailing false rdigits ndigits = ndigits.
Proof. destruct rdigits; simpl; [|destruct (ndigits =? 0)]; reflexivity. Qed.

(** On Python 2 the loops compare each byte with the character ['0'] (code
    48), not a digit group with zero: a zero group, two NUL bytes, stops
    them at once. *)
Lemma strip_leading_zero_group (PY2 : bool) (rest : bytes) (weight ndigits : Z) :
  strip_leading PY2 (String NUL (String NUL rest)) weight ndigits
  = (weight, ndigits).
Proof.
  simpl. destruct (ndigits =? 0); [reflexivity|].
  unfold byte_eq_char0. now rewrite andb_false_r.
Qed.

Lemma strip_trailing_zero_group (PY2 : bool) (rest : bytes) (ndigits : Z) :
  strip_trailing PY2 (String NUL (String NUL rest)) ndigits = ndigits.
Proof.
  simpl. destruct (ndigits =? 0); [reflexivity|].
  unfold byte_eq_char0. now rewrite andb_false_r.
Qed.

(** C3. [Decimal('1.00000')] is packed as the groups 1, 0, 0 and leaves
    [numeric_send] with [ndigits] = 3 in the header: the two trailing zero
    groups are counted.  [Decimal('-0')] leaves it with one group and the
    sign field 0x4000, the negative sign.  Both on either interpreter. *)
Theorem numeric_send_keeps_zero_groups (PY2 : bool) :
  Decimal_str dec_1_00000 = "1.00000"
  /\ (exists data : bytes,
        numeric_send PY2 (PyDec dec_1_00000) = Ok data
        /\ hhhh_unpack data 0 = Ok (3, 0, 0, 5)
        /\ unpack_shorts 3 data 8 = Ok [1; 0; 0])
  /\ Decimal_str dec_minus_0 = "-0"
  /\ (exists data : bytes,
        numeric_send PY2 (PyDec dec_minus_0) = Ok data
        /\ hhhh_unpack data 0 = Ok (1, 0, 16384, 0)
        /\ unpack_shorts 1 data 8 = Ok [0]).
Proof.
  split; [reflexivity|]. split.
  - destruct PY2; eexists; (split; [vm_compute; reflexivity|]);
      split; reflexivity.
  - split; [reflexivity|].
    destruct PY2; eexists; (split; [vm_compute; reflexivity|]);
      split; reflexivity.
Qed.

(** ** Integer inspection *)

Lemma between_spec lo v hi : between lo v hi = true <-> lo < v < hi.
Proof. unfold between. rewrite andb_true_iff, !Z.ltb_lt. tauto. Qed.

Lemma between_false lo v hi : between lo v hi = false <-> ~ (lo < v < hi).
Proof.
  rewrite <- between_spec. destruct (between lo v hi); split; congruence.
Qed.

(** What [inspect_int] computes, bound by bound: the int2, int4 and int8
    descriptors are chosen on the open intervals. *)
Lemma inspect_int_oid (v : Z) :
  desc_oid (inspect_int v) =
    if decide (- 2 ^ 15 < v < 2 ^ 15) then 21
    else if decide (- 2 ^ 31 < v < 2 ^ 31) then 23
    else if decide (- 2 ^ 63 < v < 2 ^ 63) then 20
    else 1700.
Proof.
  unfold inspect_int, min_int2, max_int2, min_int4, max_int4, min_int8,
    max_int8.
  repeat case_decide;
    repeat match goal with
    | |- context [between ?lo ?x ?hi] =>
        let E := fresh "E" in
        destruct (between lo x hi) eqn:E;
        [apply between_spec in E | apply between_false in E]
    end; try reflexivity; lia.
Qed.

(** Away from the three negative minima the code and the smallest-fit rule
    agree. *)
Lemma inspect_int_smallest_fit (v : Z) :
  v <> - 2 ^ 15 -> v <> - 2 ^ 31 -> v <> - 2 ^ 63 ->
  desc_oid (inspect_int v) = smallest_fit_oid v.
Proof.
  intros H2 H4 H8. rewrite inspect_int_oid. unfold smallest_fit_oid.
  repeat case_decide;
    repeat match goal with
    | |- context [(?a <=? ?b)] =>
        let E := fresh "E" in
        destruct (Z.leb_spec a b) as [E | E]
    end; simpl; try reflexivity; lia.
Qed.

(** C1. The minimum of int2 is not given OID 21: [inspect_int], and with it
    [make_params], sends -2^15 as int4 (OID 23), although int2 holds it;
    likewise -2^31 goes to int8 and -2^63 to numeric. *)
Theorem inspect_int_at_minima :
  smallest_fit_oid (- 2 ^ 15) = 21
  /\ desc_oid (inspect_int (- 2 ^ 15)) = 23
  /\ (forall PY2,
        make_params PY2 [PyInt (- 2 ^ 15)] = Ok [(23, FC_BINARY, send_i_pack)])
  /\ smallest_fit_oid (- 2 ^ 31) = 23
  /\ desc_oid (inspect_int (- 2 ^ 31)) = 20
  /\ smallest_fit_oid (- 2 ^ 63) = 20
  /\ desc_oid (inspect_int (- 2 ^ 63)) = 1700.
Proof. repeat split; intros; reflexivity. Qed.

(** ** Interval *)

Lemma setter_raises_unchanged (self : Interval) (value : pyvalue) e :
  ((_setMicroseconds self value).1 = Raise e ->
     (_setMicroseconds self value).2 = self)
  /\ ((_setDays self value).1 = Raise e -> (_setDays self value).2 = self)
  /\ ((_setMonths self value).1 = Raise e -> (_setMonths self value).2 = self).
Proof.
  unfold _setMicroseconds, _setDays, _setMonths.
  destruct (isinstance_int value) as [v|]; simpl;
    repeat split; try reflexivity;
    match goal with
    | |- context [between ?lo ?x ?hi] => destruct (between lo x hi)
    end; simpl; intros; congruence.
Qed.

(** C10. The mutators of [Interval] check the type, then the range with
    strict bounds on both sides, and fail without touching the object: a
    non-int raises [TypeError]; an int outside (-2^63, 2^63) for
    microseconds, or outside (-2^31, 2^31) for days and months, raises
    [OverflowError], the minima -2^63 and -2^31 included; the object is
    what it was after a rejected assignment. *)
Theorem Interval_setters_range_checked (self : Interval) (value : pyvalue) :
  (isinstance_int value = None ->
     _setMicroseconds self value
       = (Raise (TypeError "microseconds must be an int"), self)
     /\ _setDays self value = (Raise (TypeError "days must be an int"), self)
     /\ _setMonths self value
        = (Raise (TypeError "months must be an int"), self))
  /\ (forall v : Z, isinstance_int value = Some v ->
        (~ (- 2 ^ 63 < v < 2 ^ 63) ->
           _setMicroseconds self value
           = (Raise (OverflowError
                "microseconds must be representable as a 64-bit integer"),
              self))
        /\ (~ (- 2 ^ 31 < v < 2 ^ 31) ->
              _setDays self value
              = (Raise (OverflowError
                   "days must be representable as a 32-bit integer"), self)
              /\ _setMonths self value
                 = (Raise (OverflowError
                      "months must be representable as a 32-bit integer"),
                    self)))
  /\ _setMicroseconds self (PyInt (- 2 ^ 63))
     = (Raise (OverflowError
          "microseconds must be representable as a 64-bit integer"), self)
  /\ _setDays self (PyInt (- 2 ^ 31))
     = (Raise (OverflowError
          "days must be representable as a 32-bit integer"), self)
  /\ _setMonths self (PyInt (- 2 ^ 31))
     = (Raise (OverflowError
          "months must be representable as a 32-bit integer"), self)
  /\ (forall e,
        ((_setMicroseconds self value).1 = Raise e ->
           (_setMicroseconds self value).2 = self)
        /\ ((_setDays self value).1 = Raise e ->
              (_setDays self value).2 = self)
        /\ ((_setMonths self value).1 = Raise e ->
              (_setMonths self value).2 = self)).
Proof.
  split; [| split; [| split; [| split; [| split]]]].
  - intros Hty. unfold _setMicroseconds, _setDays, _setMonths.
    rewrite Hty. auto.
  - intros v Hv. unfold _setMicroseconds, _setDays, _setMonths.
    rewrite Hv. split.
    + intros Hout. apply between_false in Hout.
      unfold min_int8, max_int8. now rewrite Hout.
    + intros Hout. apply between_false in Hout.
      unfold min_int4, max_int4. now rewrite Hout.
  - reflexivity.
  - reflexivity.
  - reflexivity.
  - intros e. apply setter_raises_unchanged.
Qed.

(** An accepted assignment stores the value and nothing else changes. *)
Lemma Interval_setters_accept (self : Interval) (value : pyvalue) (v : Z) :
  isinstance_int value = Some v ->
  (- 2 ^ 63 < v < 2 ^ 63 ->
     _setMicroseconds self value
     = (Ok tt, MkInterval (Some v) (_days self) (_months self)))
  /\ (- 2 ^ 31 < v < 2 ^ 31 ->
        _setDays self value
        = (Ok tt, MkInterval (_microseconds self) (Some v) (_months self))
        /\ _setMonths self value
           = (Ok tt, MkInterval (_microseconds self) (_days self) (Some v))).
Proof.
  intros Hv. unfold _setMicroseconds, _setDays, _setMonths. rewrite Hv.
  split; intros Hin; apply between_spec in Hin.
  - unfold min_int8, max_int8. now rewrite Hin.
  - unfold min_int4, max_int4. now rewrite Hin.
Qed.

Lemma Interval_setters_range_checked_witness :
  let self := MkInterval (Some 7) (Some 1) (Some 2) in
  _setMicroseconds self (PyStr "12")
    = (Raise (TypeError "microseconds must be an int"), self)
  /\ _setDays self (PyInt (2 ^ 31))
     = (Raise (OverflowError
          "days must be representable as a 32-bit integer"), self).
Proof.
  intros self. split.
  - apply (Interval_setters_range_checked self (PyStr "12")). reflexivity.
  - apply (proj2 (Interval_setters_range_checked self (PyInt (2 ^ 31))))
      with (v := 2 ^ 31); [reflexivity | lia].
Defined.

(** ** The MD5 password exchange *)

Lemma length_md5 (data : bytes) : String.length (md5 data) = 16%nat.
Proof.
  unfold md5.
  destruct (foldl md5_block _ _) as [[[A B] C] D].
  reflexivity.
Qed.

(** C7 (amended). On an AuthenticationRequest of code 5 with the salt
    [s1 s2 s3 s4], an open connection whose password and user name encode
    to ASCII adds one PasswordMessage to the bytes it has sent, and nothing
    else: the byte ['p'], the length 40 on four bytes, and the
    NUL-terminated body
    ["md5" + hex(md5(hex(md5(password + user)) + salt))]. *)
Theorem md5_password_message (md5_digest : bytes -> bytes)
    (self : Connection) (p pb ub : string) (s1 s2 s3 s4 : ascii) :
  (forall m, String.length (md5_digest m) = 16%nat) ->
  closed self = false ->
  password self = Some p ->
  encode_ascii p = Ok pb ->
  encode_ascii (user self) = Ok ub ->
  let salt := String s1 (String s2 (String s3 (String s4 EmptyString))) in
  let body :=
    ("md5"
     +:+ md5_hexdigest md5_digest
           (md5_hexdigest md5_digest (pb +:+ ub) +:+ salt))
    +:+ char_str NUL in
  handle_AUTHENTICATION_REQUEST md5_digest self (be_encode 4 5 +:+ salt)
  = (Ok tt,
     MkConnection (user self) (password self) (binding self) (closed self)
       (sock_out self +:+ "p" +:+ be_encode 4 40 +:+ body)).
Proof.
  intros Hlen Hopen Hpw Hp Hu salt body.
  unfold handle_AUTHENTICATION_REQUEST.
  replace (i_unpack (be_encode 4 5 +:+ salt) 0) with (@Ok Z 5)
    by reflexivity.
  replace (cccc_unpack (be_encode 4 5 +:+ salt) 4)
    with (@Ok (list string)
            [char_str s1; char_str s2; char_str s3; char_str s4])
    by reflexivity.
  replace (join [char_str s1; char_str s2; char_str s3; char_str s4])
    with salt by reflexivity.
  cbn [Z.eqb Pos.eqb].
  rewrite Hpw, Hp, Hu. cbn [mbind result_bind mret result_ret].
  subst body. unfold md5_hexdigest.
  rewrite encode_ascii_hexlify. cbn [mbind result_bind mret result_ret].
  rewrite encode_ascii_hexlify. cbn [mbind result_bind mret result_ret].
  unfold _send_messages. rewrite Hopen. cbn [write_messages].
  rewrite !str_length_app, length_hexlify, Hlen.
  change (i_pack _) with (@Ok bytes (be_encode 4 40)).
  unfold _write. cbn [user password binding closed sock_out].
  rewrite Hpw, Hopen, !str_app_assoc. reflexivity.
Qed.

Lemma md5_password_message_witness :
  handle_AUTHENTICATION_REQUEST md5
    (MkConnection "bob" (Some "secret") false false "sent")
    (be_encode 4 5 +:+ "abcd")
  = (Ok tt,
     MkConnection "bob" (Some "secret") false false
       ("sent" +:+ "p"
        +:+ string_of_list_ascii (map ascii_of_N [0; 0; 0; 40]%N)
        +:+ "md595b9eb35c215f6feb0a53d6ecdb802fb"
        +:+ String (ascii_of_N 0) EmptyString)).
Proof.
  rewrite (md5_password_message md5
             (MkConnection "bob" (Some "secret") false false "sent")
             "secret" "secret" "bob"
             "a" "b" "c" "d" length_md5 eq_refl eq_refl eq_refl eq_refl).
  vm_compute. reflexivity.
Defined.

(** C7, as stated, fails on a password that does not encode to ASCII:
    [self.password.encode("ascii")] raises [UnicodeError], and the
    connection has sent nothing.  The password here is s, e with an acute
    accent (U+00E9), c, r, e, t. *)
Lemma md5_password_not_ascii :
  let pw := String "s" (String (ascii_of_N 233) "cret") in
  handle_AUTHENTICATION_REQUEST md5
    (MkConnection "bob" (Some pw) false false EmptyString)
    (be_encode 4 5 +:+ "abcd")
  = (Raise UnicodeError,
     MkConnection "bob" (Some pw) false false EmptyString).
Proof. vm_compute. reflexivity. Qed.

(** ** ErrorResponse *)

(** What the handler does with a response that has its three mandatory
    fields, on an open connection: a pending Bind is cleared and Sync is
    written first; the exception depends on the interpreter. *)
Lemma handle_ERROR_RESPONSE_raises (PY2 : bool) (self : Connection)
    (data severity code msg : bytes) :
  closed self = false ->
  data_into_dict data !! RESPONSE_SEVERITY = Some severity ->
  data_into_dict data !! RESPONSE_CODE = Some code ->
  data_into_dict data !! RESPONSE_MSG = Some msg ->
  handle_ERROR_RESPONSE PY2 self data
  = (Raise (if PY2 && String.eqb code "28000"
            then InterfaceError "md5 password authentication failed"
            else ProgrammingError [severity; code; msg]),
     if binding self
     then _write (set_binding self false) (SYNC +:+ be_encode 4 4)
     else self).
Proof.
  intros Hopen Hs Hc Hm. unfold handle_ERROR_RESPONSE, bytes_eq_str.
  destruct (binding self).
  - unfold _send_messages. cbn [closed set_binding]. rewrite Hopen.
    cbn [write_messages List.find SINGLETON_MESSAGES].
    rewrite Hc, Hs, Hm.
    destruct (PY2 && String.eqb code "28000"); reflexivity.
  - rewrite Hc, Hs, Hm.
    destruct (PY2 && String.eqb code "28000"); reflexivity.
Qed.

(** On Python 2 the code 28000 gives the interface error. *)
Lemma handle_ERROR_RESPONSE_py2_28000 (self : Connection)
    (data severity msg : bytes) :
  closed self = false ->
  data_into_dict data !! RESPONSE_SEVERITY = Some severity ->
  data_into_dict data !! RESPONSE_CODE = Some "28000" ->
  data_into_dict data !! RESPONSE_MSG = Some msg ->
  (handle_ERROR_RESPONSE true self data).1
  = Raise (InterfaceError "md5 password authentication failed").
Proof.
  intros Hopen Hs Hc Hm.
  now rewrite (handle_ERROR_RESPONSE_raises true self data severity "28000" msg).
Qed.

(** On Python 3 the handler never raises the interface error: the code, a
    [bytes] object, is compared with a [str]. *)
Lemma handle_ERROR_RESPONSE_py3 (self : Connection)
    (data severity code msg : bytes) :
  closed self = false ->
  data_into_dict data !! RESPONSE_SEVERITY = Some severity ->
  data_into_dict data !! RESPONSE_CODE = Some code ->
  data_into_dict data !! RESPONSE_MSG = Some msg ->
  (handle_ERROR_RESPONSE false self data).1
  = Raise (ProgrammingError [severity; code; msg]).
Proof.
  intros Hopen Hs Hc Hm.
  now rewrite (handle_ERROR_RESPONSE_raises false self data severity code msg).
Qed.

(** C6. On Python 3 an ErrorResponse whose code field is 28000 makes the
    handler raise [ProgrammingError], not [InterfaceError]; a pending Bind
    is cleared and Sync is sent before, as on Python 2. *)
Theorem handle_ERROR_RESPONSE_28000_on_python3 (u : string)
    (pw : option string) (out : bytes) :
  data_into_dict error_response_28000 !! RESPONSE_CODE = Some "28000"
  /\ handle_ERROR_RESPONSE false (MkConnection u pw true false out)
       error_response_28000
     = (Raise (ProgrammingError
                 ["FATAL"; "28000"; "password authentication failed for user"]),
        MkConnection u pw false false (out +:+ SYNC +:+ be_encode 4 4))
  /\ handle_ERROR_RESPONSE true (MkConnection u pw true false out)
       error_response_28000
     = (Raise (InterfaceError "md5 password authentication failed"),
        MkConnection u pw false false (out +:+ SYNC +:+ be_encode 4 4)).
Proof.
  assert (Hs : data_into_dict error_response_28000 !! RESPONSE_SEVERITY
               = Some "FATAL") by (vm_compute; reflexivity).
  assert (Hc : data_into_dict error_response_28000 !! RESPONSE_CODE
               = Some "28000") by (vm_compute; reflexivity).
  assert (Hm : data_into_dict error_response_28000 !! RESPONSE_MSG
               = Some "password authentication failed for user")
    by (vm_compute; reflexivity).
  split; [exact Hc|]. split.
  - rewrite (handle_ERROR_RESPONSE_raises false
               (MkConnection u pw true false out) _ _ _ _ eq_refl Hs Hc Hm).
    reflexivity.
  - rewrite (handle_ERROR_RESPONSE_raises true
               (MkConnection u pw true false out) _ _ _ _ eq_refl Hs Hc Hm).
    reflexivity.
Qed.

(** ** Row fetching *)

Section RowFetchFacts.
Variable row_cache_size : Z.
Variable handle_messages :
  Connection -> PreparedStatement ->
  result unit * Connection * PreparedStatement.

#[local] Abbreviation read := (read_tuple row_cache_size handle_messages).
#[local] Abbreviation fetch := (fetchmany row_cache_size handle_messages).

(** A cached row is handed out from the left end, and nothing else
    happens. *)
Lemma read_tuple_cached (self : Connection) (ps : PreparedStatement)
    (row : list pyvalue) (rows : list (list pyvalue)) :
  _cached_rows ps = row :: rows ->
  read self ps = (Ok (Some row), self, set_cached_rows ps rows).
Proof. intros H. unfold read_tuple. rewrite H. reflexivity. Qed.

(** The cache is a queue: the rows leave it in the order in which they
    are in it, whatever the number of calls. *)
Lemma fetchmany_cached (n : nat) (self : Connection) (ps : PreparedStatement) :
  (n <= length (_cached_rows ps))%nat ->
  fetch n self ps
  = (Ok (take n (_cached_rows ps)), self,
     set_cached_rows ps (drop n (_cached_rows ps))).
Proof.
  revert ps. induction n as [|n IH]; intros ps Hn.
  - cbn. destruct ps; reflexivity.
  - destruct (_cached_rows ps) as [|row rows] eqn:E; [simpl in Hn; lia|].
    cbn [fetchmany]. unfold fetchone.
    rewrite (read_tuple_cached self ps row rows E).
    rewrite IH by (simpl in *; lia). reflexivity.
Qed.

(** [handle_DATA_ROW] puts the row it decodes at the right end. *)
Lemma handle_DATA_ROW_appends (data : bytes) (ps : PreparedStatement)
    (descs : list field_desc) (row : list pyvalue) :
  portal_row_desc ps = Some descs ->
  decode_row descs data 2 = Ok row ->
  handle_DATA_ROW data ps
  = (Ok tt, set_cached_rows ps (_cached_rows ps ++ [row])).
Proof. intros Hd Hr. unfold handle_DATA_ROW. now rewrite Hd, Hr. Qed.

(** What [send_EXECUTE] does: it resets [cmd] and [portal_suspended] and
    sends Execute for the portal with the row limit, then Sync and Flush. *)
Lemma send_EXECUTE_messages (self : Connection) (ps : PreparedStatement)
    (name name_b : string) (limit : Z) :
  portal_name ps = Some name ->
  encode_ascii name = Ok name_b ->
  - 2 ^ 31 <= limit < 2 ^ 31 ->
  send_EXECUTE self ps limit
  = (let '(r, self') :=
       _send_messages self
         [Framed EXECUTE (name_b +:+ char_str NUL +:+ be_encode 4 limit);
          Singleton SYNC; Singleton FLUSH] in
     (r, self', reset_for_execute ps)).
Proof.
  intros Hn He Hl. unfold send_EXECUTE. cbn [portal_name reset_for_execute].
  rewrite Hn, He. cbn [mbind result_bind mret result_ret].
  unfold i_pack, pack_int.
  replace (2 ^ (8 * Z.of_nat 4 - 1)) with (2 ^ 31) by reflexivity.
  destruct (Z.leb_spec (- 2 ^ 31) limit); [|lia].
  destruct (Z.ltb_spec limit (2 ^ 31)); [|lia].
  reflexivity.
Qed.

(** The bytes of these three messages on an open connection. *)
Lemma send_EXECUTE_bytes (self : Connection) (ps : PreparedStatement)
    (name name_b : string) (limit : Z) :
  closed self = false ->
  portal_name ps = Some name ->
  encode_ascii name = Ok name_b ->
  - 2 ^ 31 <= limit < 2 ^ 31 ->
  Z.of_nat (String.length name_b) < 2 ^ 31 - 9 ->
  send_EXECUTE self ps limit
  = (Ok tt,
     _write
       (_write
          (_write
             (_write self
                (EXECUTE
                 +:+ be_encode 4 (Z.of_nat (String.length name_b) + 9)))
             (name_b +:+ char_str NUL +:+ be_encode 4 limit))
          (SYNC +:+ be_encode 4 4))
       (FLUSH +:+ be_encode 4 4),
     reset_for_execute ps).
Proof.
  intros Hopen Hn He Hl Hlen.
  rewrite (send_EXECUTE_messages self ps name name_b limit Hn He Hl).
  unfold _send_messages. rewrite Hopen.
  cbn [write_messages List.find SINGLETON_MESSAGES].
  rewrite !str_length_app. cbn [String.length char_str be_encode].
  unfold i_pack, pack_int.
  replace (2 ^ (8 * Z.of_nat 4 - 1)) with (2 ^ 31) by reflexivity.
  destruct (Z.leb_spec (- 2 ^ 31)
              (Z.of_nat (String.length name_b + (1 + 4)) + 4)); [|lia].
  destruct (Z.ltb_spec (Z.of_nat (String.length name_b + (1 + 4)) + 4)
              (2 ^ 31)); [|lia].
  cbn [andb].
  replace (Z.of_nat (String.length name_b + (1 + 4)) + 4)
    with (Z.of_nat (String.length name_b) + 9) by lia.
  reflexivity.
Qed.

(** C8 (amended). [read_tuple] hands out the oldest cached row and touches
    nothing else, so that successive calls drain the cache in order.  With
    an empty cache it sends Execute (row limit [row_cache_size]), Sync and
    Flush and runs the dispatch loop only if the portal is suspended.  If
    the cache is empty after that and the statement has a row description,
    it raises [ProgrammingError("no result set")] when the description is
    empty, and otherwise returns [None], unless its call to [close_portal]
    raises, in which case it raises the same exception. *)
Theorem read_tuple_cases (self : Connection) (ps : PreparedStatement) :
  (forall row rows,
     _cached_rows ps = row :: rows ->
     read self ps = (Ok (Some row), self, set_cached_rows ps rows))
  /\ (forall n : nat,
        (n <= length (_cached_rows ps))%nat ->
        fetch n self ps
        = (Ok (take n (_cached_rows ps)), self,
           set_cached_rows ps (drop n (_cached_rows ps))))
  /\ (_cached_rows ps = [] ->
      forall self' ps',
        (if portal_suspended ps
         then exists self1 ps1,
                send_EXECUTE self ps row_cache_size = (Ok tt, self1, ps1)
                /\ handle_messages self1 ps1 = (Ok tt, self', ps')
         else self' = self /\ ps' = ps) ->
        (forall row rows,
           _cached_rows ps' = row :: rows ->
           read self ps = (Ok (Some row), self', set_cached_rows ps' rows))
        /\ (forall descs,
              _cached_rows ps' = [] ->
              portal_row_desc ps' = Some descs -> descs <> [] ->
              read self ps
              = (let '(r, c, p) := close_portal handle_messages self' ps' in
                 (match r with Ok _ => Ok None | Raise e => Raise e end,
                  c, p)))
        /\ (_cached_rows ps' = [] ->
            portal_row_desc ps' = Some [] ->
            read self ps
            = (Raise (ProgrammingError ["no result set"]), self', ps')))
  /\ (forall name name_b,
        portal_name ps = Some name ->
        encode_ascii name = Ok name_b ->
        - 2 ^ 31 <= row_cache_size < 2 ^ 31 ->
        send_EXECUTE self ps row_cache_size
        = (let '(r, self') :=
             _send_messages self
               [Framed EXECUTE
                  (name_b +:+ char_str NUL +:+ be_encode 4 row_cache_size);
                Singleton SYNC; Singleton FLUSH] in
           (r, self', reset_for_execute ps))).
Proof.
  split; [apply read_tuple_cached|].
  split; [intros n; apply fetchmany_cached|].
  split.
  - intros Hempty self' ps' Hrefill.
    assert (Hread :
      read self ps
      = (if (length (_cached_rows ps') =? 0)%nat then
           match portal_row_desc ps' with
           | None =>
               (Raise (TypeError "object of type 'NoneType' has no len()"),
                self', ps')
           | Some descs =>
               if (length descs =? 0)%nat then
                 (Raise (ProgrammingError ["no result set"]), self', ps')
               else
                 match close_portal handle_messages self' ps' with
                 | (Raise e, c, p) => (Raise e, c, p)
                 | (Ok _, c, p) => (Ok None, c, p)
                 end
           end
         else
           match _cached_rows ps' with
           | row :: rows => (Ok (Some row), self', set_cached_rows ps' rows)
           | [] => (Raise IndexError, self', ps')
           end)).
    { unfold read_tuple. rewrite Hempty. cbn [length Nat.eqb].
      destruct (portal_suspended ps).
      - destruct Hrefill as (self1 & ps1 & Hsend & Hdisp).
        rewrite Hsend, Hdisp. reflexivity.
      - destruct Hrefill as [-> ->]. rewrite Hempty. reflexivity. }
    rewrite Hread. repeat split.
    + intros row rows Hrows. rewrite Hrows. reflexivity.
    + intros descs Hrows Hdesc Hne. rewrite Hrows, Hdesc.
      destruct descs as [|d descs]; [congruence|]. cbn [length Nat.eqb].
      destruct (close_portal handle_messages self' ps') as [[[u|e] c] p];
        reflexivity.
    + intros Hrows Hdesc. rewrite Hrows, Hdesc. reflexivity.
  - intros name name_b. apply send_EXECUTE_messages.
Qed.

(** The Close message of [close_portal] carries the name of the statement,
    whatever the name of the portal. *)
Lemma close_portal_messages (self : Connection) (ps : PreparedStatement)
    (name_b : string) :
  encode_ascii (statement_name ps) = Ok name_b ->
  close_portal handle_messages self ps
  = match
      _send_messages self
        [Framed CLOSE ("P" +:+ name_b +:+ char_str NUL); Singleton SYNC]
    with
    | (Raise e, c) => (Raise e, c, ps)
    | (Ok _, c) => handle_messages c ps
    end.
Proof.
  intros He. unfold close_portal, _make_CLOSE_portal, _make_CLOSE.
  rewrite He. reflexivity.
Qed.

End RowFetchFacts.

Lemma read_tuple_cases_witness :
  read_tuple 100 dispatch_two_rows conn_idle ps_suspended
  = (Ok (Some [PyInt 1]),
     MkConnection "bob" None false false
       (EXECUTE +:+ be_encode 4 24 +:+ "pg8000_portal_0" +:+ char_str NUL
        +:+ be_encode 4 100 +:+ SYNC +:+ be_encode 4 4
        +:+ FLUSH +:+ be_encode 4 4),
     set_cached_rows (reset_for_execute ps_suspended) [[PyInt 2]]).
Proof.
  pose proof (read_tuple_cases 100 dispatch_two_rows conn_idle ps_suspended)
    as (_ & _ & Hempty & _).
  destruct (Hempty eq_refl
              (MkConnection "bob" None false false
                 (EXECUTE +:+ be_encode 4 24 +:+ "pg8000_portal_0"
                  +:+ char_str NUL +:+ be_encode 4 100 +:+ SYNC
                  +:+ be_encode 4 4 +:+ FLUSH +:+ be_encode 4 4))
              (set_cached_rows (reset_for_execute ps_suspended)
                 [[PyInt 1]; [PyInt 2]])) as (Hrow & _).
  - cbn [portal_suspended ps_suspended]. eexists. eexists.
    split; reflexivity.
  - apply (Hrow [PyInt 1] [[PyInt 2]]). reflexivity.
Defined.

(** C8, as stated, fails on a statement without result set: with its
    cache empty, [read_tuple] does not return [None]; it raises
    [ProgrammingError("no result set")], and nothing is sent.  It fails
    also on a statement whose [execute] did not complete, where
    [len(self.portal_row_desc)] raises [TypeError]. *)
Lemma read_tuple_no_result_set :
  (read_tuple 100 dispatch_ready conn_idle ps_no_result_set
   = (Raise (ProgrammingError ["no result set"]), conn_idle,
      ps_no_result_set)
   /\ _cached_rows ps_no_result_set = []
   /\ (read_tuple 100 dispatch_ready conn_idle ps_no_result_set).1.1
      <> Ok None)
  /\ (read_tuple 100 dispatch_ready conn_idle ps_bind_failed
      = (Raise (TypeError "object of type 'NoneType' has no len()"),
         conn_idle, ps_bind_failed)
      /\ _cached_rows ps_bind_failed = []).
Proof. repeat split. discriminate. Qed.

(** ** The placeholder scanner *)

Lemma join_cons (x : string) (l : list string) : join (x :: l) = x +:+ join l.
Proof.
  unfold join. destruct l as [|y l]; cbn [String.concat].
  - now rewrite str_app_nil_r.
  - reflexivity.
Qed.

Lemma join_app (l1 l2 : list string) : join (l1 ++ l2) = join l1 +:+ join l2.
Proof.
  induction l1 as [|x l1 IH]; [reflexivity|].
  rewrite <- app_comm_cons, !join_cons, IH. now rewrite str_app_assoc.
Qed.

Lemma join_chars (s : string) : join (map char_str (list_ascii_of_string s)) = s.
Proof.
  induction s as [|c s IH]; [reflexivity|].
  cbn [list_ascii_of_string map]. rewrite join_cons, IH. reflexivity.
Qed.

Lemma scan_chars_app (a b : string) (after : option ascii) :
  forall sc prev_c,
    scan_chars sc prev_c (a +:+ b) after
    = '(sc', prev') ← scan_chars sc prev_c a (following b after);
      scan_chars sc' prev' b after.
Proof.
  induction a as [|c a IH]; intros sc prev_c; [reflexivity|].
  cbn [append scan_chars].
  replace (match a +:+ b with String n _ => Some n | EmptyString => after end)
    with (match a with
          | String n _ => Some n
          | EmptyString => following b after
          end) by (destruct a; reflexivity).
  destruct (scan_char sc prev_c c _) as [sc1|e];
    cbn [mbind result_bind]; [apply IH | reflexivity].
Qed.

(** *** Literal text *)

Lemma plain_char_named (c : ascii) :
  plain_char "named" c = true ->
  (c =? "'")%char = false /\ (c =? DQUOTE)%char = false
  /\ (c =? ":")%char = false.
Proof.
  unfold plain_char. cbn [String.eqb Ascii.eqb Bool.eqb].
  rewrite !andb_true_iff, !negb_true_iff. tauto.
Qed.

Lemma plain_char_pyformat (c : ascii) :
  plain_char "pyformat" c = true ->
  (c =? "'")%char = false /\ (c =? DQUOTE)%char = false
  /\ (c =? "%")%char = false.
Proof.
  unfold plain_char. cbn [String.eqb Ascii.eqb Bool.eqb].
  rewrite !andb_true_iff, !negb_true_iff. tauto.
Qed.

Lemma scan_char_plain (style : string) (qe pe : bool) (ph out : list string)
    (idx : Z) (prev_c : option ascii) (c : ascii) (next_c : option ascii) :
  style = "named" \/ style = "pyformat" ->
  plain_char style c = true ->
  scan_char (MkScanner style OUTSIDE qe pe ph out idx) prev_c c next_c
  = Ok (MkScanner style OUTSIDE qe pe ph (out ++ [char_str c]) idx).
Proof.
  intros [-> | ->] Hc.
  - apply plain_char_named in Hc as (H1 & H2 & H3).
    unfold scan_char. cbn [sc_state sc_style]. rewrite H1, H2, H3.
    reflexivity.
  - apply plain_char_pyformat in Hc as (H1 & H2 & H3).
    unfold scan_char. cbn [sc_state sc_style]. rewrite H1, H2, H3.
    reflexivity.
Qed.

Lemma scan_text (style : string) (s : string) (after : option ascii) :
  style = "named" \/ style = "pyformat" ->
  str_forall (plain_char style) s = true ->
  forall qe pe ph out idx prev_c,
    scan_chars (MkScanner style OUTSIDE qe pe ph out idx) prev_c s after
    = Ok (MkScanner style OUTSIDE qe pe ph
            (out ++ map char_str (list_ascii_of_string s)) idx,
          last_char prev_c s).
Proof.
  intros Hstyle. unfold str_forall.
  induction s as [|c s IH]; intros Hs qe pe ph out idx prev_c.
  - cbn. now rewrite app_nil_r.
  - cbn [list_ascii_of_string forallb] in Hs.
    apply andb_true_iff in Hs as [Hc Hs].
    cbn [scan_chars]. rewrite scan_char_plain by assumption.
    cbn [mbind result_bind]. rewrite IH by assumption.
    cbn [list_ascii_of_string map last_char].
    now rewrite <- app_assoc.
Qed.

(** *** Names and their numbers *)

Lemma list_index_app_l (x : string) (l l' : list string) (i : Z) :
  list_index x l = Some i -> list_index x (l ++ l') = Some i.
Proof.
  revert i. induction l as [|y l IH]; intros i H; [discriminate|].
  cbn [list_index app] in *. destruct (String.eqb y x); [assumption|].
  destruct (list_index x l) as [j|]; [|discriminate].
  now rewrite (IH j eq_refl).
Qed.

Lemma list_index_snoc_new (x : string) (l : list string) :
  list_index x l = None ->
  list_index x (l ++ [x]) = Some (Z.of_nat (length l)).
Proof.
  induction l as [|y l IH]; intros H.
  - cbn. now rewrite String.eqb_refl.
  - cbn [list_index app length] in *. destruct (String.eqb y x); [discriminate|].
    destruct (list_index x l) as [j|]; [discriminate|].
    rewrite IH by reflexivity. cbn [option_map]. f_equal. lia.
Qed.

Lemma number_of_add_name (seen : list string) (name : string) :
  number_of (add_name seen name) name
  = match list_index name seen with
    | Some pidx => pidx + 1
    | None => Z.of_nat (length (seen ++ [name]))
    end.
Proof.
  unfold number_of, add_name.
  destruct (list_index name seen) as [i|] eqn:E.
  - now rewrite E.
  - rewrite list_index_snoc_new by assumption.
    rewrite length_app. cbn [length]. lia.
Qed.

Lemma add_name_extends (seen : list string) (name : string) :
  exists ext, add_name seen name = seen ++ ext.
Proof.
  unfold add_name. destruct (list_index name seen).
  - exists []. now rewrite app_nil_r.
  - now exists [name].
Qed.

Lemma foldl_add_name_extends (names seen : list string) :
  exists ext, foldl add_name seen names = seen ++ ext.
Proof.
  revert seen. induction names as [|n names IH]; intros seen.
  - exists []. now rewrite app_nil_r.
  - cbn [foldl]. destruct (add_name_extends seen n) as [e1 ->].
    destruct (IH (seen ++ e1)) as [e2 ->].
    exists (e1 ++ e2). now rewrite app_assoc.
Qed.

Lemma number_of_add_name_pos (seen : list string) (name : string) :
  exists i, list_index name (add_name seen name) = Some i.
Proof.
  unfold add_name. destruct (list_index name seen) as [i|] eqn:E.
  - now exists i.
  - rewrite list_index_snoc_new by assumption. now eexists.
Qed.

(** A name keeps its number when later names are added. *)
Lemma number_of_stable (seen : list string) (name : string)
    (names : list string) :
  number_of (foldl add_name (add_name seen name) names) name
  = number_of (add_name seen name) name.
Proof.
  destruct (foldl_add_name_extends names (add_name seen name)) as [ext ->].
  destruct (number_of_add_name_pos seen name) as [i Hi].
  unfold number_of. now rewrite (list_index_app_l _ _ ext i Hi), Hi.
Qed.

(** *** Ending a parameter name *)

Lemma append_to_last_snoc (seen : list string) (acc : string) (c : ascii) :
  append_to_last (seen ++ [acc]) c = Ok (seen ++ [acc +:+ char_str c]).
Proof.
  unfold append_to_last. rewrite reverse_snoc. now rewrite reverse_involutive.
Qed.

Lemma end_param_name_snoc (style : string) (st : scan_state) (qe pe : bool)
    (seen out : list string) (idx : Z) (name : string) :
  end_param_name (MkScanner style st qe pe (seen ++ [name]) out idx)
  = Ok (MkScanner style OUTSIDE qe pe (add_name seen name)
          (out ++ ["$" +:+ str_of_int (number_of (add_name seen name) name)])
          idx).
Proof.
  unfold end_param_name.
  cbn [set_state placeholders sc_style in_quote_escape in_param_escape
       output_query param_idx].
  rewrite reverse_snoc, reverse_involutive, number_of_add_name.
  unfold add_name. destruct (list_index name seen) as [pidx|]; reflexivity.
Qed.

(** *** Placeholders of the named dialect *)

Ltac concrete_dquote :=
  repeat match goal with
  | |- context [Ascii.eqb (Ascii ?a ?b ?c ?d ?e ?f ?g ?h) DQUOTE] =>
      change (Ascii.eqb (Ascii a b c d e f g h) DQUOTE) with false
  end.

Ltac scanner_simpl :=
  unfold set_style, set_state, set_quote_escape, set_param_escape,
    set_placeholders, emit, emit_next_param;
  cbn [sc_style sc_state in_quote_escape in_param_escape placeholders
       output_query param_idx].

Lemma scan_chars_cons sc prev_c (c : ascii) (rest : string) after :
  scan_chars sc prev_c (String c rest) after
  = sc' ← scan_char sc prev_c c (following rest after);
    scan_chars sc' (Some c) rest after.
Proof. destruct rest; reflexivity. Qed.

Lemma scan_named_name (rest : string) :
  forall (c : ascii) (acc : string) qe pe seen out idx prev_c after,
    str_forall ident_char rest = true ->
    match after with Some n => ident_char n = false | None => True end ->
    scan_chars (MkScanner "named" INSIDE_PN qe pe (seen ++ [acc]) out idx)
      prev_c (String c rest) after
    = Ok (MkScanner "named" OUTSIDE qe pe
            (add_name seen (acc +:+ String c rest))
            (out ++ ["$" +:+ str_of_int
                               (number_of
                                  (add_name seen (acc +:+ String c rest))
                                  (acc +:+ String c rest))])
            idx,
          last_char (Some c) rest).
Proof.
  unfold str_forall.
  induction rest as [|c' rest IH];
    intros c acc qe pe seen out idx prev_c after Hrest Hafter.
  - cbn [scan_chars]. unfold scan_char.
    cbn [sc_state sc_style placeholders String.eqb Ascii.eqb Bool.eqb].
    rewrite append_to_last_snoc. cbn [mbind result_bind].
    assert (Hend :
      match after with
      | Some n =>
          if negb (isalnum n) && negb (n =? "_")%char
          then end_param_name
                 (set_placeholders
                    (MkScanner "named" INSIDE_PN qe pe (seen ++ [acc]) out idx)
                    (seen ++ [acc +:+ char_str c]))
          else Ok (set_placeholders
                     (MkScanner "named" INSIDE_PN qe pe (seen ++ [acc]) out
                        idx)
                     (seen ++ [acc +:+ char_str c]))
      | None =>
          end_param_name
            (set_placeholders
               (MkScanner "named" INSIDE_PN qe pe (seen ++ [acc]) out idx)
               (seen ++ [acc +:+ char_str c]))
      end
      = end_param_name
          (MkScanner "named" INSIDE_PN qe pe (seen ++ [acc +:+ char_str c])
             out idx)).
    { destruct after as [n|]; [|reflexivity].
      unfold ident_char in Hafter. rewrite <- negb_orb, Hafter. reflexivity. }
    rewrite Hend, end_param_name_snoc. reflexivity.
  - cbn [list_ascii_of_string forallb] in Hrest.
    apply andb_true_iff in Hrest as [Hc' Hrest].
    rewrite scan_chars_cons. unfold scan_char.
    cbn [sc_state sc_style placeholders String.eqb Ascii.eqb Bool.eqb
         following].
    rewrite append_to_last_snoc. cbn [mbind result_bind].
    unfold ident_char in Hc'. rewrite <- negb_orb, Hc'.
    cbn [negb mbind result_bind].
    scanner_simpl.
    rewrite (IH c' (acc +:+ char_str c) qe pe seen out idx (Some c) after
               Hrest Hafter).
    replace ((acc +:+ char_str c) +:+ String c' rest)
      with (acc +:+ String c (String c' rest))
      by (now rewrite str_app_assoc).
    reflexivity.
Qed.

Lemma scan_named_param (name : string) qe pe seen out idx prev_c after :
  good_name "named" name = true ->
  match after with Some n => ident_char n = false | None => True end ->
  scan_chars (MkScanner "named" OUTSIDE qe pe seen out idx) prev_c
    (":" +:+ name) after
  = Ok (MkScanner "named" OUTSIDE qe pe (add_name seen name)
          (out ++ ["$" +:+ str_of_int (number_of (add_name seen name) name)])
          idx,
        last_char (Some ":"%char) name).
Proof.
  unfold good_name. cbn [String.eqb Ascii.eqb Bool.eqb].
  intros Hname Hafter. apply andb_true_iff in Hname as [Hne Hid].
  destruct name as [|c rest]; [discriminate|].
  unfold str_forall in Hid. cbn [list_ascii_of_string forallb] in Hid.
  apply andb_true_iff in Hid as [_ Hrest].
  cbn [append]. rewrite scan_chars_cons. unfold scan_char. concrete_dquote.
  cbn [sc_state sc_style String.eqb Ascii.eqb Bool.eqb andb mbind result_bind].
  scanner_simpl.
  rewrite (scan_named_name rest c EmptyString qe pe seen out idx
             (Some ":"%char) after Hrest Hafter).
  reflexivity.
Qed.

(** *** Placeholders of the pyformat dialect *)

Lemma scan_pyformat_name (name : string) :
  forall (acc : string) qe pe seen out idx prev_c after,
    str_forall no_paren name = true ->
    is_char prev_c ")" = false ->
    scan_chars (MkScanner "pyformat" INSIDE_PN qe pe (seen ++ [acc]) out idx)
      prev_c name after
    = Ok (MkScanner "pyformat" INSIDE_PN qe pe (seen ++ [acc +:+ name]) out
            idx,
          last_char prev_c name)
    /\ is_char (last_char prev_c name) ")" = false.
Proof.
  unfold str_forall.
  induction name as [|c name IH];
    intros acc qe pe seen out idx prev_c after Hname Hprev.
  - cbn. now rewrite str_app_nil_r.
  - cbn [list_ascii_of_string forallb] in Hname.
    apply andb_true_iff in Hname as [Hc Hname].
    unfold no_paren in Hc. apply andb_true_iff in Hc as [Hc1 Hc2].
    apply negb_true_iff in Hc1, Hc2.
    rewrite scan_chars_cons. unfold scan_char.
    cbn [sc_state sc_style placeholders String.eqb Ascii.eqb Bool.eqb].
    rewrite Hprev, Hc1, Hc2. cbn [andb orb].
    rewrite append_to_last_snoc. cbn [mbind result_bind].
    scanner_simpl.
    destruct (IH (acc +:+ char_str c) qe pe seen out idx (Some c) after Hname)
      as [H1 H2]; [cbn [is_char]; exact Hc2|].
    rewrite H1. cbn [last_char].
    replace ((acc +:+ char_str c) +:+ name) with (acc +:+ String c name)
      by (now rewrite str_app_assoc).
    split; [reflexivity | exact H2].
Qed.

Lemma scan_pyformat_param (name : string) qe pe seen out idx prev_c after :
  good_name "pyformat" name = true ->
  scan_chars (MkScanner "pyformat" OUTSIDE qe pe seen out idx) prev_c
    ("%(" +:+ name +:+ ")s") after
  = Ok (MkScanner "pyformat" OUTSIDE qe pe (add_name seen name)
          (out ++ ["$" +:+ str_of_int (number_of (add_name seen name) name)])
          idx,
        Some "s"%char).
Proof.
  unfold good_name. cbn [String.eqb Ascii.eqb Bool.eqb]. intros Hname.
  cbn [append]. rewrite scan_chars_cons. unfold scan_char. concrete_dquote.
  cbn [sc_state sc_style String.eqb Ascii.eqb Bool.eqb andb is_char
       following mbind result_bind].
  scanner_simpl.
  rewrite scan_chars_cons. unfold scan_char.
  cbn [sc_state sc_style placeholders String.eqb Ascii.eqb Bool.eqb is_char
       andb orb mbind result_bind].
  rewrite scan_chars_app.
  destruct (scan_pyformat_name name EmptyString qe pe seen out idx
              (Some "("%char) (following ")s" after) Hname eq_refl)
    as [H1 H2].
  rewrite H1. cbn [mbind result_bind append].
  rewrite scan_chars_cons. unfold scan_char.
  cbn [sc_state sc_style placeholders String.eqb Ascii.eqb Bool.eqb
       following].
  rewrite H2. cbn [andb orb mbind result_bind].
  rewrite scan_chars_cons. unfold scan_char.
  cbn [sc_state sc_style placeholders String.eqb Ascii.eqb Bool.eqb is_char
       andb orb].
  rewrite end_param_name_snoc. reflexivity.
Qed.

(** *** Quoted strings and quoted identifiers *)

Lemma scan_verbatim (P : ascii -> bool) (style : string) (st : scan_state)
    (qe pe : bool) (ph : list string) (idx : Z) :
  (forall c prev_c next_c out,
     P c = true ->
     scan_char (MkScanner style st qe pe ph out idx) prev_c c next_c
     = Ok (MkScanner style st qe pe ph (out ++ [char_str c]) idx)) ->
  forall (s : string) after out prev_c,
    str_forall P s = true ->
    scan_chars (MkScanner style st qe pe ph out idx) prev_c s after
    = Ok (MkScanner style st qe pe ph
            (out ++ map char_str (list_ascii_of_string s)) idx,
          last_char prev_c s).
Proof.
  intros Hstep. unfold str_forall.
  induction s as [|c s IH]; intros after out prev_c Hs.
  - cbn. now rewrite app_nil_r.
  - cbn [list_ascii_of_string forallb] in Hs.
    apply andb_true_iff in Hs as [Hc Hs].
    rewrite scan_chars_cons, Hstep by assumption.
    cbn [mbind result_bind]. rewrite IH by assumption.
    cbn [list_ascii_of_string map last_char].
    now rewrite <- app_assoc.
Qed.

Lemma last_char_forall (P : ascii -> bool) (c0 : ascii) (s : string) :
  (forall c, P c = true -> (c =? c0)%char = false) ->
  forall prev_c,
    is_char prev_c c0 = false ->
    str_forall P s = true ->
    is_char (last_char prev_c s) c0 = false.
Proof.
  intros HP. unfold str_forall.
  induction s as [|c s IH]; intros prev_c Hprev Hs; [exact Hprev|].
  cbn [list_ascii_of_string forallb] in Hs.
  apply andb_true_iff in Hs as [Hc Hs].
  cbn [last_char]. apply IH; [cbn [is_char]; now apply HP | exact Hs].
Qed.

Lemma quoted_char_spec (style : string) (c : ascii) :
  style = "named" \/ style = "pyformat" ->
  quoted_char style c = true ->
  (c =? "'")%char = false /\ (c =? "\")%char = false
  /\ style_in_format_pyformat style && (c =? "%")%char = false.
Proof.
  unfold quoted_char, style_in_format_pyformat.
  intros [-> | ->]; cbn [String.eqb Ascii.eqb Bool.eqb orb andb];
    rewrite !andb_true_iff, !negb_true_iff; tauto.
Qed.

Lemma quoted_ident_char_spec (style : string) (c : ascii) :
  style = "named" \/ style = "pyformat" ->
  quoted_ident_char style c = true ->
  (c =? DQUOTE)%char = false
  /\ style_in_format_pyformat style && (c =? "%")%char = false.
Proof.
  unfold quoted_ident_char, style_in_format_pyformat.
  intros [-> | ->]; cbn [String.eqb Ascii.eqb Bool.eqb orb andb];
    rewrite !andb_true_iff, !negb_true_iff; tauto.
Qed.

(** A single-quoted string is copied, whether it is read as a plain or as
    an escaped string ([E'...']), and the scanner is outside again after
    its closing quote. *)
Lemma scan_quoted (style : string) (body : string) pe ph out idx prev_c
    after :
  style = "named" \/ style = "pyformat" ->
  str_forall (quoted_char style) body = true ->
  is_char after "'" = false ->
  scan_chars (MkScanner style OUTSIDE false pe ph out idx) prev_c
    (quote_str body) after
  = Ok (MkScanner style OUTSIDE false pe ph
          (((out ++ ["'"]) ++ map char_str (list_ascii_of_string body))
           ++ ["'"]) idx,
        Some "'"%char).
Proof.
  intros Hstyle Hbody Hafter. unfold quote_str. cbn [append].
  rewrite scan_chars_cons. unfold scan_char at 1.
  cbn [sc_state Ascii.eqb Bool.eqb andb]. scanner_simpl.
  destruct (is_char prev_c "E"); cbn [mbind result_bind]; scanner_simpl;
    rewrite scan_chars_app.
  - (* INSIDE_ES *)
    rewrite (scan_verbatim (quoted_char style) style INSIDE_ES false pe ph idx)
      by (try exact Hbody;
          intros c p n o Hc;
          apply (quoted_char_spec style c Hstyle) in Hc as (H1 & H2 & H3);
          unfold scan_char; cbn [sc_state sc_style];
          rewrite H1, H3; reflexivity).
    cbn [mbind result_bind]. rewrite scan_chars_cons. unfold scan_char.
    cbn [sc_state Ascii.eqb Bool.eqb andb].
    rewrite (last_char_forall (quoted_char style) "\" body)
      by (try exact Hbody; try reflexivity;
          intros c Hc;
          now apply (quoted_char_spec style c Hstyle) in Hc as (_ & H2 & _)).
    cbn [negb mbind result_bind scan_chars]. scanner_simpl. reflexivity.
  - (* INSIDE_SQ *)
    rewrite (scan_verbatim (quoted_char style) style INSIDE_SQ false pe ph idx)
      by (try exact Hbody;
          intros c p n o Hc;
          apply (quoted_char_spec style c Hstyle) in Hc as (H1 & H2 & H3);
          unfold scan_char; cbn [sc_state sc_style];
          rewrite H1, H3; reflexivity).
    cbn [mbind result_bind]. rewrite scan_chars_cons. unfold scan_char.
    cbn [sc_state Ascii.eqb Bool.eqb andb following]. scanner_simpl.
    rewrite Hafter. cbn [mbind result_bind scan_chars]. reflexivity.
Qed.

(** A quoted identifier is copied likewise. *)
Lemma scan_quoted_ident (style : string) (body : string) qe pe ph out idx
    prev_c after :
  style = "named" \/ style = "pyformat" ->
  str_forall (quoted_ident_char style) body = true ->
  scan_chars (MkScanner style OUTSIDE qe pe ph out idx) prev_c
    (quote_ident body) after
  = Ok (MkScanner style OUTSIDE qe pe ph
          (((out ++ [char_str DQUOTE])
            ++ map char_str (list_ascii_of_string body))
           ++ [char_str DQUOTE]) idx,
        Some DQUOTE).
Proof.
  intros Hstyle Hbody. unfold quote_ident.
  rewrite scan_chars_cons. unfold scan_char at 1.
  cbn [sc_state]. change (DQUOTE =? "'")%char with false.
  rewrite Ascii.eqb_refl. cbn [mbind result_bind]. scanner_simpl.
  rewrite scan_chars_app.
  rewrite (scan_verbatim (quoted_ident_char style) style INSIDE_QI qe pe ph
             idx)
    by (try exact Hbody;
        intros c p n o Hc;
        apply (quoted_ident_char_spec style c Hstyle) in Hc as (H1 & H2);
        unfold scan_char; cbn [sc_state sc_style];
        rewrite H1, H2; reflexivity).
  cbn [mbind result_bind]. unfold char_str. rewrite scan_chars_cons.
  unfold scan_char. cbn [sc_state]. rewrite Ascii.eqb_refl.
  cbn [mbind result_bind scan_chars]. scanner_simpl. reflexivity.
Qed.

Lemma ends_quote_following (rest : string) :
  ends_quote rest = true -> is_char (following rest None) "'" = false.
Proof.
  destruct rest as [|c rest]; cbn [ends_quote following is_char];
    [reflexivity | now rewrite negb_true_iff].
Qed.

(** *** Whole queries *)

Lemma render_cons (style : string) (seg : segment) (t : list segment) :
  render style (seg :: t) = render_segment style seg +:+ render style t.
Proof. unfold render. cbn [map]. apply join_cons. Qed.

Lemma ends_name_following (style : string) (rest : string) :
  ends_name "named" rest = true ->
  match following rest None with
  | Some n => ident_char n = false
  | None => True
  end.
Proof.
  unfold ends_name. cbn [String.eqb Ascii.eqb Bool.eqb].
  destruct rest as [|c rest]; cbn [following]; [trivial|].
  now rewrite negb_true_iff.
Qed.

Lemma scan_template (style : string) (t : list segment) :
  style = "named" \/ style = "pyformat" ->
  forall pe seen out idx prev_c,
    well_formed style t = true ->
    exists out' prev',
      scan_chars (MkScanner style OUTSIDE false pe seen out idx) prev_c
        (render style t) None
      = Ok (MkScanner style OUTSIDE false pe
              (foldl add_name seen (param_names t)) out' idx, prev')
      /\ join out' = join out +:+ numbered_from seen t.
Proof.
  intros Hstyle. set (qe := false).
  induction t as [|[s|body|body|name] t IH];
    intros pe seen out idx prev_c Hwf.
  - exists out, prev_c. split; [reflexivity|]. cbn. now rewrite str_app_nil_r.
  - cbn [well_formed] in Hwf. apply andb_true_iff in Hwf as [Hs Hwf].
    rewrite render_cons. cbn [render_segment]. rewrite scan_chars_app.
    rewrite (scan_text style s _ Hstyle Hs). cbn [mbind result_bind].
    destruct (IH pe seen (out ++ map char_str (list_ascii_of_string s)) idx
                (last_char prev_c s) Hwf) as (out' & prev' & Hscan & Hjoin).
    exists out', prev'. split; [exact Hscan|].
    rewrite Hjoin, join_app, join_chars. cbn [numbered_from].
    now rewrite str_app_assoc.
  - cbn [well_formed] in Hwf. apply andb_true_iff in Hwf as [Hwf1 Hwf].
    apply andb_true_iff in Hwf1 as [Hbody Hends].
    rewrite render_cons. cbn [render_segment]. rewrite scan_chars_app.
    subst qe.
    rewrite (scan_quoted style body pe seen out idx prev_c _ Hstyle Hbody
               (ends_quote_following _ Hends)).
    cbn [mbind result_bind].
    destruct (IH pe seen
                (((out ++ ["'"]) ++ map char_str (list_ascii_of_string body))
                 ++ ["'"]) idx (Some "'"%char) Hwf)
      as (out' & prev' & Hscan & Hjoin).
    exists out', prev'. split; [exact Hscan|].
    rewrite Hjoin, !join_app, join_chars. cbn [numbered_from].
    unfold quote_str. cbn [join String.concat].
    now rewrite !str_app_assoc.
  - cbn [well_formed] in Hwf. apply andb_true_iff in Hwf as [Hbody Hwf].
    rewrite render_cons. cbn [render_segment]. rewrite scan_chars_app.
    rewrite (scan_quoted_ident style body qe pe seen out idx prev_c _ Hstyle
               Hbody).
    cbn [mbind result_bind].
    destruct (IH pe seen
                (((out ++ [char_str DQUOTE])
                  ++ map char_str (list_ascii_of_string body))
                 ++ [char_str DQUOTE]) idx (Some DQUOTE) Hwf)
      as (out' & prev' & Hscan & Hjoin).
    exists out', prev'. split; [exact Hscan|].
    rewrite Hjoin, !join_app, join_chars. cbn [numbered_from].
    unfold quote_ident, char_str. cbn [join String.concat append].
    rewrite !str_app_assoc. cbn [append]. now rewrite ?str_app_assoc.
  - cbn [well_formed] in Hwf. apply andb_true_iff in Hwf as [Hwf1 Hwf].
    apply andb_true_iff in Hwf1 as [Hname Hends].
    rewrite render_cons, scan_chars_app.
    assert (Hparam :
      exists prev1,
        scan_chars (MkScanner style OUTSIDE qe pe seen out idx) prev_c
          (render_segment style (Param name))
          (following (render style t) None)
        = Ok (MkScanner style OUTSIDE qe pe (add_name seen name)
                (out ++ ["$" +:+ str_of_int
                                   (number_of (add_name seen name) name)])
                idx, prev1)).
    { destruct Hstyle as [-> | ->]; cbn [render_segment String.eqb Ascii.eqb
                                          Bool.eqb].
      - eexists. apply scan_named_param; [exact Hname|].
        apply (ends_name_following "named"), Hends.
      - eexists. apply scan_pyformat_param. exact Hname. }
    destruct Hparam as [prev1 ->]. cbn [mbind result_bind].
    destruct (IH pe (add_name seen name)
                (out ++ ["$" +:+ str_of_int
                                   (number_of (add_name seen name) name)])
                idx prev1 Hwf) as (out' & prev' & Hscan & Hjoin).
    exists out', prev'. split; [exact Hscan|].
    rewrite Hjoin, join_app. cbn [numbered_from].
    rewrite join_cons. cbn [join String.concat].
    now rewrite str_app_nil_r, !str_app_assoc.
Qed.

Lemma numbered_from_final (t : list segment) (seen : list string) :
  numbered_from seen t
  = join (map (numbered_segment (foldl add_name seen (param_names t))) t).
Proof.
  revert seen. induction t as [|[s|body|body|name] t IH]; intros seen.
  - reflexivity.
  - cbn [numbered_from map param_names omap numbered_segment].
    rewrite join_cons. now rewrite IH.
  - cbn [numbered_from map param_names omap numbered_segment].
    rewrite join_cons. now rewrite IH.
  - cbn [numbered_from map param_names omap numbered_segment].
    rewrite join_cons. now rewrite IH.
  - cbn [numbered_from map param_names omap numbered_segment foldl].
    rewrite join_cons, IH.
    now rewrite <- (number_of_stable seen name (param_names t)).
Qed.

(** *** The distinct names *)

Lemma list_index_None (x : string) (l : list string) :
  list_index x l = None <-> x ∉ l.
Proof.
  induction l as [|y l IH]; cbn [list_index].
  - split; [intros _; apply not_elem_of_nil | reflexivity].
  - rewrite not_elem_of_cons.
    destruct (String.eqb_spec y x) as [-> | Hne].
    + split; [discriminate | intros [H _]; congruence].
    + destruct (list_index x l); cbn [option_map].
      * split; [discriminate|]. intros [_ H]. now apply IH in H.
      * split; [|reflexivity]. intros _. split; [congruence | now apply IH].
Qed.

Lemma add_name_NoDup (seen : list string) (name : string) :
  NoDup seen -> NoDup (add_name seen name).
Proof.
  intros Hnd. unfold add_name.
  destruct (list_index name seen) eqn:E; [exact Hnd|].
  apply NoDup_app. repeat split; [exact Hnd | | apply NoDup_singleton].
  intros x Hx Hx'. apply list_elem_of_singleton in Hx' as ->.
  now apply list_index_None in E.
Qed.

Lemma add_name_elem (seen : list string) (name x : string) :
  x ∈ add_name seen name <-> x ∈ seen \/ x = name.
Proof.
  unfold add_name. destruct (list_index name seen) eqn:E.
  - split; [now left|]. intros [H | ->]; [exact H|].
    destruct (decide (name ∈ seen)) as [H|H]; [exact H|].
    apply list_index_None in H. congruence.
  - rewrite elem_of_app, list_elem_of_singleton. tauto.
Qed.

Lemma foldl_add_name_NoDup (names seen : list string) :
  NoDup seen -> NoDup (foldl add_name seen names).
Proof.
  revert seen. induction names as [|n names IH]; intros seen Hnd;
    [exact Hnd|].
  cbn [foldl]. apply IH, add_name_NoDup, Hnd.
Qed.

Lemma foldl_add_name_elem (names seen : list string) (x : string) :
  x ∈ foldl add_name seen names <-> x ∈ seen \/ x ∈ names.
Proof.
  revert seen. induction names as [|n names IH]; intros seen; cbn [foldl].
  - rewrite elem_of_nil. tauto.
  - rewrite IH, add_name_elem, elem_of_cons. tauto.
Qed.

Lemma make_args_lookup_dict (names : list string)
    (args : gmap string pyvalue) :
  (forall name, name ∈ names -> is_Some (args !! name)) ->
  make_args (make_args_lookup names) (ArgsDict args)
  = Ok (ArgsTuple (args_in_order args names)).
Proof.
  intros Hall. unfold make_args, args_in_order.
  assert (H : mapM (args_getitem (ArgsDict args)) names
              = Ok (map (fun name => default PyNone (args !! name)) names)).
  { induction names as [|n names IH]; [reflexivity|].
    cbn [mapM map args_getitem].
    destruct (Hall n) as [v Hv]; [apply elem_of_cons; now left|].
    rewrite Hv. cbn [mbind result_bind default].
    cbn [args_getitem] in IH. rewrite IH; [reflexivity|].
    intros name Hin. apply Hall, elem_of_cons. now right. }
  now rewrite H.
Qed.

(** The numbering of names.  On a query of the named or of the pyformat
    dialect made of literal text (free of the dialect's marker), of quoted
    strings and quoted identifiers (in pyformat free of percent signs) and
    of placeholders, [convert_paramstyle] writes each placeholder as [$N],
    with N the rank of its name among the distinct names in the order of
    their first occurrence, so that a repeated name gets the same [$N],
    and copies the rest, a marker inside quotes included; and the closure
    it returns maps a mapping [args] to the tuple of [args[name]] in that
    order. *)
Theorem convert_paramstyle_numbers_names (style : string)
    (t : list segment) (args : gmap string pyvalue) :
  style = "named" \/ style = "pyformat" ->
  well_formed style t = true ->
  let names := first_occurrences (param_names t) in
  convert_paramstyle style (render style t)
  = Ok (numbered t, make_args_lookup names)
  /\ NoDup names
  /\ (forall name, name ∈ names <-> name ∈ param_names t)
  /\ ((forall name, name ∈ names -> is_Some (args !! name)) ->
      make_args (make_args_lookup names) (ArgsDict args)
      = Ok (ArgsTuple (args_in_order args names))).
Proof.
  intros Hstyle Hwf names. repeat split.
  - unfold convert_paramstyle, scanner_init.
    destruct (scan_template style t Hstyle false [] [] 1 None Hwf)
      as (out' & prev' & Hscan & Hjoin).
    rewrite Hscan. cbn [mbind result_bind mret result_ret sc_style
                        output_query placeholders].
    rewrite Hjoin, numbered_from_final. cbn [join String.concat append].
    destruct Hstyle as [-> | ->]; reflexivity.
  - apply foldl_add_name_NoDup, NoDup_nil_2.
  - intros H. apply foldl_add_name_elem in H as [H|H]; [|exact H].
    now apply elem_of_nil in H.
  - intros H. apply foldl_add_name_elem. now right.
  - apply make_args_lookup_dict.
Qed.

Lemma convert_paramstyle_numbers_names_witness :
  (convert_paramstyle "named" "SELECT :a, :b, :a"
   = Ok ("SELECT $1, $2, $1", make_args_lookup ["a"; "b"])
   /\ convert_paramstyle "pyformat" "SELECT %(x)s, %(y)s, %(x)s"
      = Ok ("SELECT $1, $2, $1", make_args_lookup ["x"; "y"])
   /\ convert_paramstyle "named" (render "named" query_quoted_a)
      = Ok (numbered query_quoted_a, make_args_lookup ["a"]))
  /\ make_args (make_args_lookup ["x"; "y"])
       (ArgsDict {[ "x" := PyInt 5; "y" := PyStr "b" ]})
     = Ok (ArgsTuple [PyInt 5; PyStr "b"]).
Proof.
  pose proof (convert_paramstyle_numbers_names "named" query_a_b_a ∅
                (or_introl eq_refl) eq_refl) as (Ha & _).
  pose proof (convert_paramstyle_numbers_names "pyformat" query_x_y_x
                {[ "x" := PyInt 5; "y" := PyStr "b" ]}
                (or_intror eq_refl) eq_refl) as (Hx & _ & _ & Hargs).
  pose proof (convert_paramstyle_numbers_names "named" query_quoted_a ∅
                (or_introl eq_refl) eq_refl) as (Hq & _).
  split; [split; [exact Ha | split; [exact Hx | exact Hq]]|].
  apply Hargs. intros name Hin.
  apply elem_of_cons in Hin as [-> | Hin]; [now eexists|].
  apply list_elem_of_singleton in Hin as ->. now eexists.
Defined.

(** A letter beyond ASCII continues the name of a placeholder of the named
    dialect: the name here is a followed by e with an acute accent
    (U+00E9). *)
Lemma convert_paramstyle_named_latin1 :
  let e := String (ascii_of_N 233) EmptyString in
  convert_paramstyle "named" ("SELECT :a" +:+ e +:+ ", :b")
  = Ok ("SELECT $1, $2", make_args_lookup ["a" +:+ e; "b"]).
Proof. vm_compute. reflexivity. Qed.

(** C4. A pyformat query with a named placeholder and, after it, a
    literal percent sign outside quotes: the placeholder is numbered and
    its name collected, but the [%%] executes [style = "format"], the
    closure is chosen from the final value of [style], and the names are
    dropped: the closure returned is the identity, which hands the mapping
    [{"x": 5}] back instead of the tuple [(5,)].  The same [%%] inside
    quotes, in the branches for the quoted states, leaves [style] alone,
    and the closure returned maps the mapping to the tuple. *)
Theorem convert_paramstyle_pyformat_percent :
  (convert_paramstyle "pyformat" "SELECT %(x)s %% 2"
   = Ok ("SELECT $1 % 2", make_args_identity)
   /\ make_args make_args_identity (ArgsDict args_x_5)
      = Ok (ArgsDict args_x_5)
   /\ make_args make_args_identity (ArgsDict args_x_5)
      <> Ok (ArgsTuple [PyInt 5]))
  /\ (convert_paramstyle "pyformat" "SELECT %(x)s, '100%%'"
      = Ok ("SELECT $1, '100%'", make_args_lookup ["x"])
      /\ make_args (make_args_lookup ["x"]) (ArgsDict args_x_5)
         = Ok (ArgsTuple [PyInt 5])).
Proof. repeat split. discriminate. Qed.

(** *** The dialect during the scan *)

Lemma end_param_name_style (sc sc' : scanner) :
  end_param_name sc = Ok sc' -> sc_style sc' = sc_style sc.
Proof.
  unfold end_param_name. scanner_simpl.
  destruct (reverse (placeholders sc)) as [|last rinit]; [discriminate|].
  destruct (list_index last (reverse rinit)); intros [= <-]; reflexivity.
Qed.

Lemma quoted_percent_style (sc sc' : scanner) c next_c :
  quoted_percent sc c next_c = Ok sc' ->
  sc_style sc' = sc_style sc /\ sc_state sc' = sc_state sc.
Proof.
  unfold quoted_percent.
  destruct (in_param_escape sc); [intros [= <-]; now split|].
  destruct (is_char next_c "%"); [intros [= <-]; now split|].
  destruct next_c; discriminate.
Qed.

Ltac break_scan H :=
  repeat match type of H with
  | context [if ?b then _ else _] => destruct b eqn:?
  | context [match ?x with _ => _ end] => destruct x eqn:?
  end.

(** A turn of the loop leaves the dialect alone, or replaces it by
    [format]; the latter only in state OUTSIDE and from format or
    pyformat. *)
Lemma scan_char_style (sc sc' : scanner) prev_c c next_c :
  scan_char sc prev_c c next_c = Ok sc' ->
  sc_style sc' = sc_style sc
  \/ (sc_style sc' = "format"
      /\ style_in_format_pyformat (sc_style sc) = true
      /\ sc_state sc = OUTSIDE).
Proof.
  destruct sc as [style st qe pe ph out idx]. unfold scan_char.
  cbn [sc_style sc_state in_quote_escape in_param_escape placeholders
       output_query param_idx].
  destruct st.
  - intros H.
    destruct (style_in_format_pyformat style && (c =? "%")%char) eqn:Hfmt.
    + apply andb_true_iff in Hfmt as [Hfmt _].
      break_scan H; try discriminate; injection H as <-;
        scanner_simpl; auto.
    + break_scan H; try discriminate; injection H as <-;
        scanner_simpl; auto.
  - intros H. break_scan H; try discriminate;
      try (injection H as <-; scanner_simpl; now left).
    apply quoted_percent_style in H as [H _]. now left.
  - intros H. break_scan H; try discriminate;
      try (injection H as <-; scanner_simpl; now left).
    apply quoted_percent_style in H as [H _]. now left.
  - intros H. break_scan H; try discriminate;
      try (injection H as <-; scanner_simpl; now left).
    apply quoted_percent_style in H as [H _]. now left.
  - intros H. left.
    destruct (String.eqb style "named").
    + destruct (append_to_last ph c) as [l|e]; [|discriminate].
      cbn [mbind result_bind] in H.
      break_scan H; try discriminate;
        try (apply end_param_name_style in H; exact H);
        injection H as <-; reflexivity.
    + destruct (String.eqb style "pyformat").
      * destruct (is_char prev_c ")" && (c =? "s")%char).
        -- apply end_param_name_style in H. exact H.
        -- destruct ((c =? "(")%char || (c =? ")")%char).
           ++ injection H as <-. reflexivity.
           ++ destruct (append_to_last ph c) as [l|e]; [|discriminate].
              cbn [mbind result_bind] in H. injection H as <-. reflexivity.
      * destruct (String.eqb style "format"); injection H as <-; reflexivity.
Qed.

Lemma scan_chars_style (chars : string) :
  forall sc prev_c after sc' prev',
    scan_chars sc prev_c chars after = Ok (sc', prev') ->
    (sc_style sc = "format" -> sc_style sc' = "format")
    /\ (style_in_format_pyformat (sc_style sc) = true ->
        style_in_format_pyformat (sc_style sc') = true).
Proof.
  induction chars as [|c chars IH]; intros sc prev_c after sc' prev' H.
  - cbn in H. injection H as <- <-. auto.
  - rewrite scan_chars_cons in H.
    destruct (scan_char sc prev_c c (following chars after)) as [sc1|e] eqn:E;
      [|discriminate].
    cbn [mbind result_bind] in H. apply IH in H as [H1 H2].
    apply scan_char_style in E as [E | (E1 & E2 & E3)].
    + rewrite E in *. auto.
    + split; [auto|]. intros _. apply H2. now rewrite E1.
Qed.

Lemma is_char_true (o : option ascii) (c : ascii) :
  is_char o c = true -> o = Some c.
Proof.
  destruct o as [x|]; cbn [is_char]; [|discriminate].
  now intros ->%Ascii.eqb_eq.
Qed.

(** In the format dialect the state INSIDE_PN is entered only on the [%] of
    a [%s]: the character that comes next is [s]. *)
Lemma scan_char_format_pn (sc sc' : scanner) prev_c c next_c :
  sc_style sc = "format" ->
  scan_char sc prev_c c next_c = Ok sc' ->
  sc_state sc' = INSIDE_PN -> next_c = Some "s"%char.
Proof.
  destruct sc as [style st qe pe ph out idx].
  cbn [sc_style]. intros ->. unfold scan_char.
  cbn [sc_style sc_state in_quote_escape in_param_escape placeholders
       output_query param_idx String.eqb Ascii.eqb Bool.eqb andb
       style_in_format_pyformat orb].
  destruct st; intros H.
  - destruct (is_char next_c "s") eqn:Hs.
    + intros _. now apply is_char_true.
    + break_scan H; try discriminate; injection H as <-;
        scanner_simpl; discriminate.
  - break_scan H; try discriminate;
      try (injection H as <-; scanner_simpl; discriminate).
    apply quoted_percent_style in H as [_ H]. rewrite H. discriminate.
  - break_scan H; try discriminate;
      try (injection H as <-; scanner_simpl; discriminate).
    apply quoted_percent_style in H as [_ H]. rewrite H. discriminate.
  - break_scan H; try discriminate;
      try (injection H as <-; scanner_simpl; discriminate).
    apply quoted_percent_style in H as [_ H]. rewrite H. discriminate.
  - injection H as <-. scanner_simpl. discriminate.
Qed.

Lemma scan_chars_format_pn (chars : string) :
  forall sc prev_c after sc' prev',
    sc_style sc = "format" ->
    (sc_state sc = INSIDE_PN -> following chars after = Some "s"%char) ->
    scan_chars sc prev_c chars after = Ok (sc', prev') ->
    sc_state sc' = INSIDE_PN -> after = Some "s"%char.
Proof.
  induction chars as [|c chars IH];
    intros sc prev_c after sc' prev' Hfmt Hpn H.
  - cbn in H. injection H as <- <-. exact Hpn.
  - rewrite scan_chars_cons in H.
    destruct (scan_char sc prev_c c (following chars after)) as [sc1|e] eqn:E;
      [|discriminate].
    cbn [mbind result_bind] in H.
    apply (IH sc1 (Some c) after sc' prev'); [| |exact H].
    + destruct (scan_char_style _ _ _ _ _ E) as [Hs | (Hs & _)]; congruence.
    + apply (scan_char_format_pn _ _ _ _ _ Hfmt E).
Qed.

(** In the format dialect a character that has a successor can only make
    the scanner raise [QueryParameterParseError]. *)
Lemma scan_char_format_raises (sc : scanner) prev_c c n e :
  sc_style sc = "format" ->
  scan_char sc prev_c c (Some n) = Raise e ->
  exists msg, e = QueryParameterParseError msg.
Proof.
  destruct sc as [style st qe pe ph out idx].
  cbn [sc_style]. intros ->. unfold scan_char, quoted_percent.
  cbn [sc_style sc_state in_quote_escape in_param_escape placeholders
       output_query param_idx String.eqb Ascii.eqb Bool.eqb andb
       style_in_format_pyformat orb].
  destruct st; intros H; break_scan H; try discriminate;
    injection H as <-; eexists; reflexivity.
Qed.

Lemma scan_chars_format_raises (chars : string) :
  forall sc prev_c a e,
    sc_style sc = "format" ->
    scan_chars sc prev_c chars (Some a) = Raise e ->
    exists msg, e = QueryParameterParseError msg.
Proof.
  induction chars as [|c chars IH]; intros sc prev_c a e Hfmt H.
  - discriminate.
  - rewrite scan_chars_cons in H.
    destruct (scan_char sc prev_c c (following chars (Some a))) as [sc1|e1]
      eqn:E; cbn [mbind result_bind] in H.
    + apply (IH sc1 (Some c) a e); [|exact H].
      destruct (scan_char_style _ _ _ _ _ E) as [Hs | (Hs & _)]; congruence.
    + injection H as <-.
      destruct chars as [|c' chars]; cbn [following] in E;
        eapply scan_char_format_raises; eauto.
Qed.

(** *** Percent signs *)

(** A [%] that is met with no escape pending, outside a parameter name,
    and is followed by a character that neither doubles it nor makes a
    placeholder of it, stops the translation. *)
Lemma scan_char_percent_raises (sc : scanner) prev_c (x : ascii) :
  style_in_format_pyformat (sc_style sc) = true ->
  in_param_escape sc = false ->
  sc_state sc <> INSIDE_PN ->
  x <> "%"%char ->
  (sc_state sc = OUTSIDE ->
   x <> "s"%char /\ ~ (sc_style sc = "pyformat" /\ x = "("%char)) ->
  exists msg,
    scan_char sc prev_c "%" (Some x) = Raise (QueryParameterParseError msg).
Proof.
  destruct sc as [style st qe pe ph out idx].
  cbn [sc_style sc_state in_param_escape].
  intros Hstyle -> Hpn Hx Hout.
  apply Ascii.eqb_neq in Hx.
  unfold scan_char, quoted_percent. concrete_dquote.
  cbn [sc_style sc_state in_quote_escape in_param_escape placeholders
       output_query param_idx Ascii.eqb Bool.eqb andb is_char].
  rewrite Hstyle.
  destruct st; try congruence.
  - destruct (Hout eq_refl) as [Hs Hpar].
    apply Ascii.eqb_neq in Hs.
    unfold style_in_format_pyformat in Hstyle.
    apply orb_true_iff in Hstyle as [Hf | Hp].
    + apply String.eqb_eq in Hf as ->.
      cbn [String.eqb Ascii.eqb Bool.eqb andb]. scanner_simpl.
      rewrite Hx, Hs. eexists; reflexivity.
    + apply String.eqb_eq in Hp as ->.
      cbn [String.eqb Ascii.eqb Bool.eqb andb]. scanner_simpl.
      assert (Hp : (x =? "(")%char = false).
      { apply Ascii.eqb_neq. intros ->. now apply Hpar. }
      rewrite Hp, Hx, Hs. eexists; reflexivity.
  - cbn [andb]. rewrite Hx. eexists; reflexivity.
  - cbn [andb]. rewrite Hx. eexists; reflexivity.
  - cbn [andb]. rewrite Hx. eexists; reflexivity.
Qed.

Lemma style_format_or_pyformat (style : string) :
  style_in_format_pyformat style = true ->
  style = "format" \/ style = "pyformat".
Proof.
  unfold style_in_format_pyformat. intros H.
  apply orb_true_iff in H as [H|H]; apply String.eqb_eq in H; auto.
Qed.

(** One turn of the loop on a character that is known. *)
Ltac scan_step :=
  rewrite scan_chars_cons; unfold scan_char, quoted_percent;
  concrete_dquote;
  do 3 (scanner_simpl;
        cbn [String.eqb Ascii.eqb Bool.eqb andb orb negb is_char following
             style_in_format_pyformat mbind result_bind]).

Lemma scan_percent_pair (sc : scanner) prev_c after :
  style_in_format_pyformat (sc_style sc) = true ->
  in_param_escape sc = false ->
  sc_state sc <> INSIDE_PN ->
  scan_chars sc prev_c "%%" after = Ok (after_percent_pair sc, Some "%"%char).
Proof.
  destruct sc as [style st qe pe ph out idx].
  cbn [sc_style sc_state in_param_escape].
  intros Hstyle -> Hpn. unfold after_percent_pair.
  apply style_format_or_pyformat in Hstyle as [-> | ->];
    destruct st; try congruence;
    scan_step;
    scan_step; reflexivity.
Qed.

Lemma scan_percent_s (sc : scanner) prev_c after :
  style_in_format_pyformat (sc_style sc) = true ->
  in_param_escape sc = false ->
  sc_state sc = OUTSIDE ->
  scan_chars sc prev_c "%s" after = Ok (after_percent_s sc, Some "s"%char).
Proof.
  destruct sc as [style st qe pe ph out idx].
  cbn [sc_style sc_state in_param_escape].
  intros Hstyle -> ->. unfold after_percent_s.
  apply style_format_or_pyformat in Hstyle as [-> | ->];
    scan_step;
    scan_step; reflexivity.
Qed.

Lemma convert_paramstyle_raises (style query : string) (e : exn) :
  scan_chars (scanner_init style) None query None = Raise e ->
  convert_paramstyle style query = Raise e.
Proof. unfold convert_paramstyle. now intros ->. Qed.

(** *** The output only grows *)

Lemma end_param_name_output (sc sc' : scanner) :
  end_param_name sc = Ok sc' ->
  exists ext, output_query sc' = output_query sc ++ ext.
Proof.
  unfold end_param_name. scanner_simpl.
  destruct (reverse (placeholders sc)) as [|last rinit]; [discriminate|].
  destruct (list_index last (reverse rinit)); intros [= <-];
    eexists; reflexivity.
Qed.

Lemma quoted_percent_output (sc sc' : scanner) c next_c :
  quoted_percent sc c next_c = Ok sc' ->
  exists ext, output_query sc' = output_query sc ++ ext.
Proof.
  unfold quoted_percent.
  destruct (in_param_escape sc); [intros [= <-]; eexists; reflexivity|].
  destruct (is_char next_c "%").
  - intros [= <-]. exists []. scanner_simpl. now rewrite app_nil_r.
  - destruct next_c; discriminate.
Qed.

Ltac output_grows H :=
  first
    [ apply end_param_name_output in H; exact H
    | apply quoted_percent_output in H; exact H
    | injection H as <-; scanner_simpl;
      first [ eexists; reflexivity
            | exists []; now rewrite app_nil_r ] ].

(** A turn of the loop appends to [output_query], or leaves it alone. *)
Lemma scan_char_output (sc sc' : scanner) prev_c c next_c :
  scan_char sc prev_c c next_c = Ok sc' ->
  exists ext, output_query sc' = output_query sc ++ ext.
Proof.
  destruct sc as [style st qe pe ph out idx]. unfold scan_char.
  cbn [sc_style sc_state in_quote_escape in_param_escape placeholders
       output_query param_idx].
  destruct st; intros H.
  - break_scan H; try discriminate; output_grows H.
  - break_scan H; try discriminate; output_grows H.
  - break_scan H; try discriminate; output_grows H.
  - break_scan H; try discriminate; output_grows H.
  - destruct (String.eqb style "named").
    + destruct (append_to_last ph c) as [l|e]; [|discriminate].
      cbn [mbind result_bind] in H.
      break_scan H; try discriminate; output_grows H.
    + destruct (String.eqb style "pyformat").
      * destruct (is_char prev_c ")" && (c =? "s")%char);
          [output_grows H|].
        destruct ((c =? "(")%char || (c =? ")")%char); [output_grows H|].
        destruct (append_to_last ph c) as [l|e]; [|discriminate].
        cbn [mbind result_bind] in H. output_grows H.
      * break_scan H; output_grows H.
Qed.

Lemma scan_chars_output (chars : string) :
  forall sc prev_c after sc' prev',
    scan_chars sc prev_c chars after = Ok (sc', prev') ->
    exists ext, output_query sc' = output_query sc ++ ext.
Proof.
  induction chars as [|c chars IH]; intros sc prev_c after sc' prev' H.
  - injection H as <- _. exists []. now rewrite app_nil_r.
  - rewrite scan_chars_cons in H.
    destruct (scan_char sc prev_c c (following chars after)) as [sc1|e]
      eqn:E; cbn [mbind result_bind] in H; [|discriminate].
    destruct (scan_char_output _ _ _ _ _ E) as [ext1 H1].
    destruct (IH _ _ _ _ _ H) as [ext2 H2].
    exists (ext1 ++ ext2). now rewrite H2, H1, app_assoc.
Qed.

(** *** The text before a percent sign

    A turn of the loop that is followed by a [%] and leaves no escape
    pending goes as it does at the end of the query. *)
Lemma quoted_percent_before_percent (sc sc' : scanner) c :
  quoted_percent sc c (Some "%"%char) = Ok sc' ->
  in_param_escape sc' = false ->
  quoted_percent sc c None = Ok sc'.
Proof.
  unfold quoted_percent.
  destruct (in_param_escape sc); [auto|].
  cbn [is_char Ascii.eqb Bool.eqb andb].
  intros [= <-]. scanner_simpl. discriminate.
Qed.

Lemma scan_char_before_percent (sc sc' : scanner) prev_c c :
  scan_char sc prev_c c (Some "%"%char) = Ok sc' ->
  in_param_escape sc' = false ->
  scan_char sc prev_c c None = Ok sc'.
Proof.
  destruct sc as [style st qe pe ph out idx]. unfold scan_char.
  cbn [sc_style sc_state in_quote_escape in_param_escape placeholders
       output_query param_idx].
  change (isalnum "%") with false.
  cbn [is_char Ascii.eqb Bool.eqb andb negb].
  rewrite !andb_false_r.
  destruct st; intros H Hesc.
  - destruct (c =? "'")%char; [exact H|].
    destruct (c =? DQUOTE)%char; [exact H|].
    destruct (String.eqb style "qmark" && (c =? "?")%char); [exact H|].
    destruct (String.eqb style "numeric" && (c =? ":")%char); [exact H|].
    destruct (String.eqb style "named" && (c =? ":")%char); [exact H|].
    destruct (style_in_format_pyformat style && (c =? "%")%char);
      [|exact H].
    revert H. scanner_simpl. destruct pe; [auto|].
    intros [= <-]. discriminate.
  - destruct (c =? "'")%char; [exact H|].
    destruct (style_in_format_pyformat style && (c =? "%")%char);
      [|exact H].
    now apply quoted_percent_before_percent.
  - destruct (c =? DQUOTE)%char; [exact H|].
    destruct (style_in_format_pyformat style && (c =? "%")%char);
      [|exact H].
    now apply quoted_percent_before_percent.
  - destruct ((c =? "'")%char && negb (is_char prev_c "\")); [exact H|].
    destruct (style_in_format_pyformat style && (c =? "%")%char);
      [|exact H].
    now apply quoted_percent_before_percent.
  - exact H.
Qed.

Lemma scan_chars_before_percent (pre : string) :
  forall sc0 prev0 sc prev_c,
    scan_chars sc0 prev0 pre (Some "%"%char) = Ok (sc, prev_c) ->
    in_param_escape sc = false ->
    scan_chars sc0 prev0 pre None = Ok (sc, prev_c).
Proof.
  induction pre as [|c pre IH]; intros sc0 prev0 sc prev_c H Hesc.
  - exact H.
  - rewrite scan_chars_cons in *.
    destruct pre as [|c' pre].
    + cbn [following] in *.
      destruct (scan_char sc0 prev0 c (Some "%"%char)) as [sc1|e] eqn:E;
        cbn [mbind result_bind] in H; [|discriminate].
      injection H as <- <-.
      rewrite (scan_char_before_percent _ _ _ _ E Hesc). reflexivity.
    + cbn [following] in *.
      destruct (scan_char sc0 prev0 c (Some c')) as [sc1|e];
        cbn [mbind result_bind] in *; [|discriminate].
      now apply IH.
Qed.

(** The translation of the text before a doubled percent sign, and the
    place of the single [%] in the translation of the whole. *)
Lemma convert_paramstyle_percent_pair (style pre post : string)
    (sc : scanner) prev_c (out : string) (f : make_args_t) :
  style_in_format_pyformat style = true ->
  scan_chars (scanner_init style) None pre (Some "%"%char) = Ok (sc, prev_c) ->
  in_param_escape sc = false ->
  sc_state sc <> INSIDE_PN ->
  convert_paramstyle style (pre +:+ "%%" +:+ post) = Ok (out, f) ->
  exists f_pre sc' prev' ext,
    convert_paramstyle style pre = Ok (join (output_query sc), f_pre)
    /\ scan_chars (after_percent_pair sc) (Some "%"%char) post None
       = Ok (sc', prev')
    /\ output_query sc' = output_query sc ++ "%" :: ext
    /\ out = join (output_query sc) +:+ "%" +:+ join ext.
Proof.
  intros Hfp Hpre Hesc Hpn Hout.
  destruct (scan_chars_style _ _ _ _ _ _ Hpre) as [_ Hsty].
  unfold convert_paramstyle in Hout.
  rewrite scan_chars_app in Hout. cbn [following append] in Hout.
  rewrite Hpre in Hout. cbn [mbind result_bind] in Hout.
  rewrite (scan_chars_app "%%" post) in Hout.
  rewrite (scan_percent_pair sc prev_c (following post None)
             (Hsty Hfp) Hesc Hpn) in Hout.
  cbn [mbind result_bind] in Hout.
  destruct (scan_chars (after_percent_pair sc) (Some "%"%char) post None)
    as [[sc' prev']|e] eqn:Hpost; [|discriminate].
  cbn [mbind result_bind mret result_ret] in Hout.
  injection Hout as <- _.
  destruct (scan_chars_output _ _ _ _ _ _ Hpost) as [ext Hext].
  assert (Hpair : output_query (after_percent_pair sc)
                  = output_query sc ++ ["%"])
    by (unfold after_percent_pair; destruct (sc_state sc); reflexivity).
  rewrite Hpair, <- app_assoc in Hext. cbn [app] in Hext.
  eexists. exists sc', prev', ext.
  split; [|split; [reflexivity|split; [exact Hext|]]].
  - unfold convert_paramstyle.
    rewrite (scan_chars_before_percent _ _ _ _ _ Hpre Hesc). reflexivity.
  - rewrite Hext, join_app, join_cons. reflexivity.
Qed.

(** C5 (amended).  In the format and pyformat dialects, in a query that
    [convert_paramstyle] translates, a doubled percent sign read outside a
    parameter name, outside or inside quotes, and not begun by the second
    half of an earlier pair, leaves a single [%] in the output: the output
    is the translation of the text before the pair, then [%], then what
    the rest of the query adds.  And a [%] that the scanner meets outside
    a parameter name, not as the second half of such a pair, and that is
    followed by a character other than [%] (outside quotes: other than
    [%], [s] and, in pyformat, the parenthesis that opens a placeholder)
    makes [convert_paramstyle] raise [QueryParameterParseError]. *)
Theorem convert_paramstyle_percent (style : string) :
  style = "format" \/ style = "pyformat" ->
  convert_paramstyle style "WHERE s = '100%%' AND t = %s"
  = Ok ("WHERE s = '100%' AND t = $1", make_args_identity)
  /\ (forall pre post sc prev_c out f,
        scan_chars (scanner_init style) None pre (Some "%"%char)
        = Ok (sc, prev_c) ->
        in_param_escape sc = false ->
        sc_state sc <> INSIDE_PN ->
        convert_paramstyle style (pre +:+ "%%" +:+ post) = Ok (out, f) ->
        exists f_pre sc' prev' ext,
          convert_paramstyle style pre = Ok (join (output_query sc), f_pre)
          /\ scan_chars (after_percent_pair sc) (Some "%"%char) post None
             = Ok (sc', prev')
          /\ output_query sc' = output_query sc ++ "%" :: ext
          /\ out = join (output_query sc) +:+ "%" +:+ join ext)
  /\ (forall pre (x : ascii) rest sc prev_c,
        scan_chars (scanner_init style) None pre (Some "%"%char)
        = Ok (sc, prev_c) ->
        in_param_escape sc = false ->
        sc_state sc <> INSIDE_PN ->
        x <> "%"%char ->
        (sc_state sc = OUTSIDE ->
         x <> "s"%char /\ ~ (sc_style sc = "pyformat" /\ x = "("%char)) ->
        exists msg,
          convert_paramstyle style (pre +:+ String "%" (String x rest))
          = Raise (QueryParameterParseError msg)).
Proof.
  intros Hstyle.
  assert (Hfp : style_in_format_pyformat (sc_style (scanner_init style))
                = true) by (destruct Hstyle as [-> | ->]; reflexivity).
  split; [destruct Hstyle as [-> | ->]; reflexivity|]. split.
  - intros pre post sc prev_c out f.
    apply convert_paramstyle_percent_pair. exact Hfp.
  - intros pre x rest sc prev_c Hpre Hesc Hpn Hx Hout.
    destruct (scan_chars_style _ _ _ _ _ _ Hpre) as [_ Hsty].
    destruct (scan_char_percent_raises sc prev_c x (Hsty Hfp) Hesc Hpn Hx
                Hout) as [msg Hmsg].
    exists msg. apply convert_paramstyle_raises.
    rewrite scan_chars_app. cbn [following]. rewrite Hpre.
    cbn [mbind result_bind]. rewrite scan_chars_cons. cbn [following].
    destruct rest; cbn [following]; rewrite Hmsg; reflexivity.
Qed.

Lemma convert_paramstyle_percent_witness :
  (exists f_pre out_post,
     convert_paramstyle "format" "WHERE s = '100"
     = Ok ("WHERE s = '100", f_pre)
     /\ "WHERE s = '100%' AND t = $1"
        = "WHERE s = '100" +:+ "%" +:+ out_post)
  /\ (exists f_pre out_post,
        convert_paramstyle "pyformat" "SELECT 10 "
        = Ok ("SELECT 10 ", f_pre)
        /\ "SELECT 10 % 3" = "SELECT 10 " +:+ "%" +:+ out_post)
  /\ (exists msg,
        convert_paramstyle "format" "SELECT '100%d'"
        = Raise (QueryParameterParseError msg))
  /\ (exists msg,
        convert_paramstyle "pyformat" "SELECT 100 %d"
        = Raise (QueryParameterParseError msg)).
Proof.
  split; [|split; [|split]].
  - destruct (convert_paramstyle_percent "format" (or_introl eq_refl))
      as (_ & Hpair & _).
    destruct (Hpair "WHERE s = '100" "' AND t = %s"
                (MkScanner "format" INSIDE_SQ false false []
                   (map char_str (list_ascii_of_string "WHERE s = '100")) 1)
                (Some "0"%char) "WHERE s = '100%' AND t = $1"
                make_args_identity eq_refl eq_refl)
      as (f_pre & sc' & prev' & ext & Hpre & _ & _ & Hout);
      [discriminate | reflexivity |].
    exists f_pre, (join ext). split; [exact Hpre | exact Hout].
  - destruct (convert_paramstyle_percent "pyformat" (or_intror eq_refl))
      as (_ & Hpair & _).
    destruct (Hpair "SELECT 10 " " 3"
                (MkScanner "pyformat" OUTSIDE false false []
                   (map char_str (list_ascii_of_string "SELECT 10 ")) 1)
                (Some " "%char) "SELECT 10 % 3"
                make_args_identity eq_refl eq_refl)
      as (f_pre & sc' & prev' & ext & Hpre & _ & _ & Hout);
      [discriminate | reflexivity |].
    exists f_pre, (join ext). split; [exact Hpre | exact Hout].
  - destruct (convert_paramstyle_percent "format" (or_introl eq_refl))
      as (_ & _ & Hraise).
    apply (Hraise "SELECT '100" "d"%char "'"
             (MkScanner "format" INSIDE_SQ false false []
                (map char_str (list_ascii_of_string "SELECT '100")) 1)
             (Some "0"%char)); try reflexivity; discriminate.
  - destruct (convert_paramstyle_percent "pyformat" (or_intror eq_refl))
      as (_ & _ & Hraise).
    apply (Hraise "SELECT 100 " "d"%char EmptyString
             (MkScanner "pyformat" OUTSIDE false false []
                (map char_str (list_ascii_of_string "SELECT 100 ")) 1)
             (Some " "%char)); try reflexivity; try discriminate.
    intros _. split; [discriminate|]. intros [_ H]. discriminate.
Defined.

(** C5, as stated, fails inside a pyformat parameter name, where a percent
    sign is a character of the name like another: [%d] is there, its [%]
    does not start a placeholder, and the query is translated; and the
    [%%] of a name stays doubled in the name and leaves no [%] in the
    output.  It fails also where a pyformat query is not translated at
    all: after a [%%] outside quotes the dialect is [format], and the
    [%(] of a later placeholder raises. *)
Lemma convert_paramstyle_percent_in_name :
  convert_paramstyle "pyformat" "SELECT %(a%d)s"
  = Ok ("SELECT $1", make_args_lookup ["a%d"])
  /\ convert_paramstyle "pyformat" "SELECT %(a%%b)s"
     = Ok ("SELECT $1", make_args_lookup ["a%%b"])
  /\ convert_paramstyle "pyformat" "SELECT 10 %% 3, %(x)s"
     = Raise (QueryParameterParseError "Only %s and %% are supported").
Proof. repeat split. Qed.

(** C9. In the pyformat dialect a [%] read outside quotes and not followed
    by an opening parenthesis sets the dialect to [format], and no later
    turn of the loop changes it back; so a query in which a [%s]
    placeholder comes before the [%(] of a named one is not translated:
    [convert_paramstyle] raises [QueryParameterParseError]. *)
Theorem pyformat_switches_to_format :
  (forall sc prev_c next_c sc',
     sc_style sc = "pyformat" ->
     sc_state sc = OUTSIDE ->
     is_char next_c "(" = false ->
     scan_char sc prev_c "%" next_c = Ok sc' ->
     sc_style sc' = "format")
  /\ (forall chars sc prev_c after sc' prev',
        sc_style sc = "format" ->
        scan_chars sc prev_c chars after = Ok (sc', prev') ->
        sc_style sc' = "format")
  /\ (forall pre mid rest sc prev_c,
        scan_chars (scanner_init "pyformat") None pre (Some "%"%char)
        = Ok (sc, prev_c) ->
        sc_state sc = OUTSIDE ->
        in_param_escape sc = false ->
        (forall sc2 prev2,
           scan_chars (scanner_init "pyformat") None (pre +:+ "%s" +:+ mid)
             (Some "%"%char) = Ok (sc2, prev2) ->
           in_param_escape sc2 = false) ->
        exists msg,
          convert_paramstyle "pyformat" (pre +:+ "%s" +:+ mid +:+ "%(" +:+ rest)
          = Raise (QueryParameterParseError msg))
  /\ convert_paramstyle "pyformat" "SELECT %s, %(x)s"
     = Raise (QueryParameterParseError "Only %s and %% are supported").
Proof.
  split; [|split; [|split; [|reflexivity]]].
  - intros [style st qe pe ph out idx] prev_c next_c sc'.
    cbn [sc_style sc_state]. intros -> -> Hnext.
    unfold scan_char. concrete_dquote.
    cbn [sc_style sc_state String.eqb Ascii.eqb Bool.eqb andb orb
         style_in_format_pyformat].
    rewrite Hnext. scanner_simpl.
    intros H. break_scan H; try discriminate; injection H as <-; reflexivity.
  - intros chars sc prev_c after sc' prev' Hfmt H.
    now apply (scan_chars_style _ _ _ _ _ _ H).
  - intros pre mid rest sc prev_c Hpre Hout Hesc Hmid.
    assert (Hfp : style_in_format_pyformat (sc_style sc) = true).
    { now apply (scan_chars_style _ _ _ _ _ _ Hpre). }
    (* the scan up to the second placeholder *)
    assert (Hscan :
      scan_chars (scanner_init "pyformat") None (pre +:+ "%s" +:+ mid)
        (Some "%"%char)
      = scan_chars (after_percent_s sc) (Some "s"%char) mid (Some "%"%char)).
    { rewrite scan_chars_app. cbn [following append]. rewrite Hpre.
      cbn [mbind result_bind].
      change (String "%" (String "s" mid)) with ("%s" +:+ mid).
      rewrite scan_chars_app, scan_percent_s by assumption.
      reflexivity. }
    assert (Hwhole :
      scan_chars (scanner_init "pyformat") None
        (pre +:+ "%s" +:+ mid +:+ "%(" +:+ rest) None
      = '(sc2, prev2) ← scan_chars (after_percent_s sc) (Some "s"%char) mid
                          (Some "%"%char);
        scan_chars sc2 prev2 ("%(" +:+ rest) None).
    { rewrite <- Hscan.
      replace (pre +:+ "%s" +:+ mid +:+ "%(" +:+ rest)
        with ((pre +:+ "%s" +:+ mid) +:+ ("%(" +:+ rest))
        by (now rewrite !str_app_assoc).
      now rewrite scan_chars_app. }
    assert (Hfmt : sc_style (after_percent_s sc) = "format") by reflexivity.
    destruct (scan_chars (after_percent_s sc) (Some "s"%char) mid
                (Some "%"%char)) as [[sc2 prev2]|e] eqn:E.
    + cbn [mbind result_bind] in Hwhole.
      assert (Hfmt2 : sc_style sc2 = "format")
        by now apply (scan_chars_style _ _ _ _ _ _ E).
      assert (Hpn2 : sc_state sc2 <> INSIDE_PN).
      { intros Hpn.
        assert (Hs : Some "%"%char = Some "s"%char); [|discriminate Hs].
        apply (scan_chars_format_pn mid (after_percent_s sc) (Some "s"%char)
                 (Some "%"%char) sc2 prev2 Hfmt); [|exact E|exact Hpn].
        unfold after_percent_s. scanner_simpl. rewrite Hout. discriminate. }
      destruct (scan_char_percent_raises sc2 prev2 "("%char) as [msg Hmsg];
        try discriminate.
      * now rewrite Hfmt2.
      * apply (Hmid sc2 prev2). now rewrite Hscan.
      * exact Hpn2.
      * intros _. split; [discriminate|]. rewrite Hfmt2. intros [H _].
        discriminate.
      * exists msg. apply convert_paramstyle_raises. rewrite Hwhole.
        cbn [append]. rewrite scan_chars_cons. cbn [following].
        rewrite Hmsg. reflexivity.
    + cbn [mbind result_bind] in Hwhole.
      destruct (scan_chars_format_raises _ _ _ _ _ Hfmt E) as [msg ->].
      exists msg. now apply convert_paramstyle_raises.
Qed.

Lemma pyformat_switches_to_format_witness :
  exists msg,
    convert_paramstyle "pyformat" "SELECT %(a)s, %s, 'it''s', %(x)s"
    = Raise (QueryParameterParseError msg).
Proof.
  destruct pyformat_switches_to_format as (_ & _ & Hraise & _).
  apply (Hraise "SELECT %(a)s, " ", 'it''s', " "x)s"
           (MkScanner "pyformat" OUTSIDE false false ["a"]
              (map char_str (list_ascii_of_string "SELECT ")
               ++ ["$1"; ","; " "]) 1)
           (Some " "%char)); try reflexivity.
  intros sc2 prev2 H. vm_compute in H. now injection H as <- _.
Defined.

(** ** Arrays *)

Lemma pyarr_rect' (P : pyarr -> Prop) :
  (forall v, P (Item v)) ->
  (forall l, Forall P l -> P (PyList l)) ->
  forall v, P v.
Proof.
  intros HI HL. fix IH 1. intros [v|l]; [apply HI|].
  apply HL. induction l as [|x l IHl]; constructor; [apply IH | exact IHl].
Qed.

Lemma flatten_item_list (l : list pyarr) :
  flatten_item (PyList l) = array_flatten l.
Proof. reflexivity. Qed.

Lemma array_flatten_cons (v : pyarr) (l : list pyarr) :
  array_flatten (v :: l) = flatten_item v ++ array_flatten l.
Proof. reflexivity. Qed.

Lemma shape_size_cons (d : Z) (shape : list Z) :
  shape_size (d :: shape) = d * shape_size shape.
Proof. reflexivity. Qed.

(** The leaves of a rectangular array are as many as its shape says. *)
Lemma has_shape_size (shape : list Z) :
  forall v, has_shape shape v = true ->
    Z.of_nat (length (flatten_item v)) = shape_size shape.
Proof.
  induction shape as [|d shape IH]; intros [x|l] H; try discriminate.
  - reflexivity.
  - cbn [has_shape] in H. apply andb_true_iff in H as [Hd Hl].
    apply Z.eqb_eq in Hd. rewrite flatten_item_list, shape_size_cons, <- Hd.
    clear Hd. induction l as [|v l IHl]; [reflexivity|].
    cbn [forallb] in Hl. apply andb_true_iff in Hl as [Hv Hl].
    rewrite array_flatten_cons, length_app, Nat2Z.inj_add, (IH v Hv),
      (IHl Hl).
    cbn [length]. lia.
Qed.

Lemma check_items_Return (check : pyarr -> outcome (list Z)) (req_len : Z)
    (req_inner : list Z) (vs : list pyarr) (u : unit) :
  check_items check req_len req_inner vs = Return u
  <-> Forall (fun v => check v = Return req_inner
                       /\ len_item v = Ok req_len) vs.
Proof.
  destruct u. induction vs as [|v vs IH]; cbn [check_items].
  - split; [constructor | reflexivity].
  - rewrite Forall_cons, <- IH. clear IH.
    destruct (check v) as [inner|e]; cbn [mbind outcome_bind];
      [|split; [discriminate | intros [[? _] _]; discriminate]].
    destruct (len_item v) as [len_v|e]; cbn [lift mbind outcome_bind];
      [|split; [discriminate | intros [[_ ?] _]; discriminate]].
    unfold list_Z_eqb.
    destruct (Z.eqb_spec len_v req_len) as [-> | Hne]; cbn [negb orb].
    + destruct (bool_decide_reflect (inner = req_inner)) as [-> | Hne];
        cbn [negb].
      * tauto.
      * split; [discriminate | intros [[[= ?] _] _]; contradiction].
    + split; [discriminate | intros [[_ [= ?]] _]; contradiction].
Qed.

Lemma has_shape_cons (d : Z) (shape : list Z) (l : list pyarr) :
  has_shape (d :: shape) (PyList l)
  = (Z.of_nat (length l) =? d) && forallb (has_shape shape) l.
Proof. reflexivity. Qed.

Lemma existsb_is_list_false (l : list pyarr) :
  existsb is_list l = false <-> forallb (has_shape []) l = true.
Proof.
  induction l as [|v l IH]; [tauto|].
  cbn [existsb forallb]. rewrite orb_false_iff, andb_true_iff, IH.
  destruct v; cbn; intuition discriminate.
Qed.

Lemma array_check_dimensions_flat (x0 : pyvalue) (rest : list pyarr) :
  array_check_dimensions (PyList (Item x0 :: rest))
  = if existsb is_list (Item x0 :: rest)
    then Throw (ArrayDimensionsNotConsistentError
                  "array dimensions not consistent")
    else Return [].
Proof. reflexivity. Qed.

Lemma array_check_dimensions_nested (l0 rest : list pyarr) :
  array_check_dimensions (PyList (PyList l0 :: rest))
  = req_inner_lengths ← array_check_dimensions (PyList l0);
    _ ← check_items array_check_dimensions (Z.of_nat (length l0))
          req_inner_lengths (PyList l0 :: rest);
    mret (Z.of_nat (length l0) :: req_inner_lengths).
Proof. reflexivity. Qed.

Lemma array_check_dimensions_sound (v : pyarr) :
  forall dims,
    forallb scalar (flatten_item v) = true ->
    array_check_dimensions v = Return dims ->
    match v with
    | PyList l =>
        has_shape (Z.of_nat (length l) :: dims) v = true
        /\ Forall (fun d => 0 < d) (Z.of_nat (length l) :: dims)
    | Item _ => False
    end.
Proof.
  induction v as [x|l IHl] using pyarr_rect'; intros dims Hleaves Hcheck.
  - destruct x; cbn in Hleaves, Hcheck; discriminate.
  - destruct l as [|v0 rest]; [discriminate|].
    destruct v0 as [x0|l0].
    + rewrite array_check_dimensions_flat in Hcheck.
      destruct (existsb is_list (Item x0 :: rest)) eqn:E; [discriminate|].
      injection Hcheck as <-. apply existsb_is_list_false in E.
      rewrite has_shape_cons, Z.eqb_refl, E. split; [reflexivity|].
      constructor; [cbn [length]; lia | constructor].
    + rewrite array_check_dimensions_nested in Hcheck.
      destruct (array_check_dimensions (PyList l0)) as [req_inner|e] eqn:E0;
        [|discriminate].
      cbn [mbind outcome_bind] in Hcheck.
      destruct (check_items array_check_dimensions (Z.of_nat (length l0))
                  req_inner (PyList l0 :: rest)) as [u|e] eqn:Ei;
        [|discriminate].
      injection Hcheck as <-.
      apply check_items_Return in Ei.
      assert (Hall : Forall (fun v =>
                has_shape (Z.of_nat (length l0) :: req_inner) v = true
                /\ Forall (fun d => 0 < d) (Z.of_nat (length l0) :: req_inner))
                (PyList l0 :: rest)).
      { rewrite flatten_item_list in Hleaves.
        revert IHl Ei Hleaves. generalize (PyList l0 :: rest) as items.
        induction items as [|v items IHitems]; intros IHl Ei Hleaves;
          [constructor|].
        rewrite array_flatten_cons, forallb_app in Hleaves.
        apply andb_true_iff in Hleaves as [Hv Hrest].
        apply Forall_cons in IHl as [IHv IHl].
        apply Forall_cons in Ei as [[Hcv Hlv] Ei].
        constructor; [|now apply IHitems].
        specialize (IHv req_inner Hv Hcv).
        destruct v as [x|lv]; [contradiction|].
        cbn [len_item] in Hlv. injection Hlv as Hlv. now rewrite <- Hlv. }
      split.
      * rewrite has_shape_cons, Z.eqb_refl. cbn [andb].
        apply forallb_forall. intros v Hin.
        apply (proj1 (List.Forall_forall _ _) Hall v Hin).
      * constructor; [cbn [length]; lia|].
        apply Forall_cons in Hall as [[_ Hpos] _]. exact Hpos.
Qed.

Lemma array_check_dimensions_complete (dims : list Z) :
  forall arr,
    has_shape (Z.of_nat (length arr) :: dims) (PyList arr) = true ->
    Forall (fun d => 0 < d) (Z.of_nat (length arr) :: dims) ->
    array_check_dimensions (PyList arr) = Return dims.
Proof.
  induction dims as [|d dims IH]; intros arr Hshape Hpos.
  - rewrite has_shape_cons, Z.eqb_refl in Hshape.
    cbn [andb] in Hshape.
    apply Forall_cons in Hpos as [Hlen _].
    destruct arr as [|v0 rest]; [cbn in Hlen; lia|].
    destruct v0 as [x0|l0]; [|discriminate].
    rewrite array_check_dimensions_flat.
    apply existsb_is_list_false in Hshape. now rewrite Hshape.
  - rewrite has_shape_cons, Z.eqb_refl in Hshape.
    cbn [andb] in Hshape.
    apply Forall_cons in Hpos as [Hlen Hpos].
    assert (Hitems : Forall (fun v =>
              array_check_dimensions v = Return dims
              /\ len_item v = Ok d) arr).
    { clear Hlen. induction arr as [|v arr IHarr]; [constructor|].
      cbn [forallb] in Hshape. apply andb_true_iff in Hshape as [Hv Hrest].
      constructor; [|now apply IHarr].
      destruct v as [x|lv]; [discriminate|].
      rewrite has_shape_cons in Hv. apply andb_true_iff in Hv as [Hd Hlv].
      apply Z.eqb_eq in Hd. split.
      - apply IH.
        + now rewrite has_shape_cons, Z.eqb_refl, Hlv.
        + rewrite Hd. exact Hpos.
      - cbn [len_item]. now rewrite Hd. }
    destruct arr as [|v0 rest]; [cbn in Hlen; lia|].
    pose proof Hitems as Hitems'.
    apply Forall_cons in Hitems' as [[Hc0 Hl0] _].
    destruct v0 as [x0|l0]; [destruct x0; discriminate|].
    cbn [len_item] in Hl0. injection Hl0 as Hl0.
    rewrite array_check_dimensions_nested, Hc0. cbn [mbind outcome_bind].
    rewrite Hl0.
    destruct (check_items array_check_dimensions d dims (PyList l0 :: rest))
      as [u|e] eqn:Ei.
    + reflexivity.
    + assert (H : check_items array_check_dimensions d dims
                    (PyList l0 :: rest) = Return tt)
        by (now apply check_items_Return).
      congruence.
Qed.

(** X1. [array_check_dimensions] accepts the rectangular arrays without empty
    dimension and no other array: on a list whose leaves are [None], bools,
    ints or Decimals it returns [dims] exactly when the list has the shape
    [len(arr) :: dims] with every length positive; the number of elements
    that [array_flatten] yields is then the product of these lengths. *)
Theorem array_check_dimensions_rectangular (arr : list pyarr)
    (dims : list Z) :
  forallb scalar (array_flatten arr) = true ->
  (array_check_dimensions (PyList arr) = Return dims
   <-> has_shape (Z.of_nat (length arr) :: dims) (PyList arr) = true
       /\ Forall (fun d => 0 < d) (Z.of_nat (length arr) :: dims))
  /\ (array_check_dimensions (PyList arr) = Return dims ->
      Z.of_nat (length (array_flatten arr))
      = shape_size (Z.of_nat (length arr) :: dims)).
Proof.
  intros Hleaves.
  assert (Hsound : array_check_dimensions (PyList arr) = Return dims ->
            has_shape (Z.of_nat (length arr) :: dims) (PyList arr) = true
            /\ Forall (fun d => 0 < d) (Z.of_nat (length arr) :: dims)).
  { intros H.
    apply (array_check_dimensions_sound (PyList arr) dims Hleaves H). }
  split; [split; [exact Hsound|]|].
  - intros [Hshape Hpos]. now apply array_check_dimensions_complete.
  - intros H. destruct (Hsound H) as [Hshape _].
    apply (has_shape_size _ _ Hshape).
Qed.

Lemma array_check_dimensions_rectangular_witness :
  (array_check_dimensions (PyList array_2x3) = Return [3]
   <-> has_shape [2; 3] (PyList array_2x3) = true
       /\ Forall (fun d => 0 < d) [2; 3])
  /\ (array_check_dimensions (PyList array_2x3) = Return [3] ->
      Z.of_nat (length (array_flatten array_2x3)) = 6).
Proof.
  apply (array_check_dimensions_rectangular array_2x3 [3]). reflexivity.
Defined.

Lemma last_cons_default (d d' : Z) (ds : list Z) :
  List.last (d' :: ds) d = List.last (d' :: ds) d'.
Proof.
  revert d d'. induction ds as [|x ds IH]; intros d d'; [reflexivity|].
  change (List.last (d' :: x :: ds) d) with (List.last (x :: ds) d).
  change (List.last (d' :: x :: ds) d') with (List.last (x :: ds) d').
  now rewrite (IH d x), (IH d' x).
Qed.

Lemma array_dim_lengths_has_shape (ds : list Z) :
  forall d arr,
    has_shape (d :: ds) (PyList arr) = true ->
    Forall (fun d => 0 < d) (d :: ds) ->
    array_dim_lengths (PyList arr) = Ok (ds ++ [List.last (d :: ds) d]).
Proof.
  induction ds as [|d' ds IH]; intros d arr Hshape Hpos.
  - rewrite has_shape_cons in Hshape. apply andb_true_iff in Hshape as [Hd Hl].
    apply Z.eqb_eq in Hd. apply Forall_cons in Hpos as [Hlen _].
    destruct arr as [|v0 rest]; [cbn in Hd; lia|].
    destruct v0 as [x0|l0]; [|discriminate].
    cbn [array_dim_lengths app List.last]. now rewrite Hd.
  - rewrite has_shape_cons in Hshape. apply andb_true_iff in Hshape as [Hd Hl].
    apply Z.eqb_eq in Hd. apply Forall_cons in Hpos as [Hlen Hpos].
    destruct arr as [|v0 rest]; [cbn in Hd; lia|].
    cbn [forallb] in Hl. apply andb_true_iff in Hl as [H0 _].
    destruct v0 as [x0|l0]; [discriminate|].
    pose proof H0 as H0'. rewrite has_shape_cons in H0'.
    apply andb_true_iff in H0' as [Hd0 _]. apply Z.eqb_eq in Hd0.
    change (array_dim_lengths (PyList (PyList l0 :: rest)))
      with (rest' ← array_dim_lengths (PyList l0);
            mret (Z.of_nat (length l0) :: rest')).
    rewrite (IH d' l0 H0 Hpos). cbn [mbind result_bind mret result_ret].
    rewrite Hd0.
    change (List.last (d :: d' :: ds) d) with (List.last (d' :: ds) d).
    now rewrite (last_cons_default d d' ds).
Qed.

Lemma snoc_last_eq (ds : list Z) :
  forall d, ds ++ [List.last (d :: ds) d] = d :: ds <-> Forall (eq d) ds.
Proof.
  induction ds as [|d' ds IH]; intros d.
  - split; [constructor | reflexivity].
  - change (List.last (d :: d' :: ds) d) with (List.last (d' :: ds) d).
    rewrite (last_cons_default d d' ds), Forall_cons. cbn [app]. split.
    + intros [= -> H]. split; [reflexivity|]. now apply IH.
    + intros [-> H]. f_equal. now apply IH.
Qed.

(** X2. [array_dim_lengths] does not return the shape of the array it is given:
    for a rectangular array of shape [d1, d2, ..., dk] it returns
    [d2, ..., dk, dk], the length of the outermost list being left out and
    that of the innermost lists standing twice.  The result is the shape
    exactly when all the dimensions have the same length. *)
Theorem array_dim_lengths_drops_outer (d : Z) (ds : list Z)
    (arr : list pyarr) :
  has_shape (d :: ds) (PyList arr) = true ->
  Forall (fun d => 0 < d) (d :: ds) ->
  array_dim_lengths (PyList arr) = Ok (ds ++ [List.last (d :: ds) d])
  /\ (array_dim_lengths (PyList arr) = Ok (d :: ds) <-> Forall (eq d) ds).
Proof.
  intros Hshape Hpos.
  rewrite (array_dim_lengths_has_shape ds d arr Hshape Hpos).
  split; [reflexivity|]. split.
  - intros [= H]. exact (proj1 (snoc_last_eq ds d) H).
  - intros H. f_equal. exact (proj2 (snoc_last_eq ds d) H).
Qed.

Lemma array_dim_lengths_drops_outer_witness :
  array_dim_lengths (PyList array_2x3) = Ok [3; 3]
  /\ (array_dim_lengths (PyList array_2x3) = Ok [2; 3] <-> Forall (eq 2) [3]).
Proof.
  apply (array_dim_lengths_drops_outer 2 [3] array_2x3); [reflexivity|].
  repeat constructor.
Defined.

Lemma find_first_None (vs : list pyvalue) :
  List.find (fun v => negb (is_None v)) vs = None
  <-> forallb is_None vs = true.
Proof.
  induction vs as [|v vs IH]; [tauto|].
  cbn [List.find forallb]. destruct (is_None v); cbn [negb andb].
  - exact IH.
  - split; discriminate.
Qed.

(** X3. [array_inspect] raises [ArrayContentEmptyError] exactly for the lists
    without any element other than [None]: the empty list, lists of empty
    lists, lists of nulls. *)
Theorem array_inspect_empty (PY2 : bool) (value : list pyarr) :
  array_inspect PY2 value = Throw (ArrayContentEmptyError "array has no values")
  <-> forallb is_None (array_flatten value) = true.
Proof.
  unfold array_inspect, array_find_first_element.
  rewrite <- find_first_None.
  destruct (List.find _ (array_flatten value)) as [first|]; [|tauto].
  split; [|discriminate]. intros H. exfalso.
  destruct (is_integer_type PY2 first).
  - destruct (int_ranges PY2 (array_flatten value) (true, true, true))
      as [[[b2 b4] b8]|e]; [|discriminate].
    destruct b2; [discriminate|]. destruct b4; [discriminate|].
    destruct b8; discriminate.
  - destruct first; try discriminate;
      destruct (make_params PY2 _) as [[|[[oid fc] f] ps]|e];
      try discriminate;
      try (destruct (pg_array_types oid); discriminate);
      destruct e; discriminate.
Qed.

Lemma value_between_int_leaf (PY2 : bool) (lo hi : Z) (v : pyvalue) (z : Z) :
  int_leaf v = Some z ->
  value_between PY2 lo v hi = Ok (between lo z hi).
Proof.
  unfold value_between, between.
  destruct v as [| [|] | z' | | | |]; intros [= <-]; cbn;
    destruct (lo <? _); reflexivity.
Qed.

Lemma between_int2_int4 (z : Z) :
  between min_int2 z max_int2 = true -> between min_int4 z max_int4 = true.
Proof.
  unfold between, min_int2, max_int2, min_int4, max_int4.
  rewrite !andb_true_iff, !Z.ltb_lt. lia.
Qed.

Lemma between_int4_int8 (z : Z) :
  between min_int4 z max_int4 = true -> between min_int8 z max_int8 = true.
Proof.
  unfold between, min_int4, max_int4, min_int8, max_int8.
  rewrite !andb_true_iff, !Z.ltb_lt. lia.
Qed.

(** The three flags after the loop: each one tells whether every integer
    met lies within the bounds of its type. *)
Lemma int_ranges_flags (PY2 : bool) (vs : list pyvalue) :
  forall a b c,
    Forall (fun v => is_None v = true \/ is_Some (int_leaf v)) vs ->
    int_ranges PY2 vs (a, b, c)
    = Ok (a && forallb (fun z => between min_int2 z max_int2)
                 (omap int_leaf vs),
          b && forallb (fun z => between min_int4 z max_int4)
                 (omap int_leaf vs),
          c && forallb (fun z => between min_int8 z max_int8)
                 (omap int_leaf vs)).
Proof.
  induction vs as [|v vs IH]; intros a b c Hall.
  - cbn. now rewrite !andb_true_r.
  - apply Forall_cons in Hall as [Hv Hall]. cbn [int_ranges].
    destruct Hv as [Hnone | [z Hz]].
    + rewrite Hnone. destruct v; try discriminate. cbn [omap list_omap int_leaf].
      now apply IH.
    + assert (Hn : is_None v = false) by (destruct v; try reflexivity;
                                           discriminate).
      rewrite Hn, (value_between_int_leaf PY2 _ _ v z Hz).
      cbn [omap list_omap]. rewrite Hz. cbn [forallb].
      destruct (between min_int2 z max_int2) eqn:E2.
      * rewrite (between_int2_int4 z E2),
          (between_int4_int8 z (between_int2_int4 z E2)).
        cbn [andb]. now apply IH.
      * rewrite (value_between_int_leaf PY2 _ _ v z Hz).
        destruct (between min_int4 z max_int4) eqn:E4.
        -- rewrite (between_int4_int8 z E4), IH by assumption.
           cbn [andb]. now rewrite andb_false_r.
        -- rewrite (value_between_int_leaf PY2 _ _ v z Hz).
           destruct (between min_int8 z max_int8) eqn:E8;
             rewrite IH by assumption; cbn [andb];
             now rewrite ?andb_false_r.
Qed.

(** What [array_inspect] selects for a list of integers and nulls. *)
Lemma array_inspect_ints (PY2 : bool) (value : list pyarr) :
  Forall (fun v => is_None v = true \/ is_Some (int_leaf v))
    (array_flatten value) ->
  forallb is_None (array_flatten value) = false ->
  array_inspect PY2 value
  = match int_array_type (omap int_leaf (array_flatten value)) with
    | Some (array_typeoid, oid, send_func) =>
        Return (array_typeoid, FC_BINARY,
                MkArraySender value typ_integer_types oid send_func)
    | None =>
        Throw (ArrayContentNotSupportedError
                 "numeric not supported as array contents")
    end.
Proof.
  intros Hall Hsome. unfold array_inspect, array_find_first_element.
  destruct (List.find _ (array_flatten value)) as [first|] eqn:Ef.
  - apply find_some in Ef as [Hin Hnn].
    assert (Hint : is_integer_type PY2 first = true).
    { apply (proj1 (List.Forall_forall _ _) Hall) in Hin
        as [Hnone | [z Hz]].
      - now rewrite Hnone in Hnn.
      - destruct first; try discriminate; reflexivity. }
    rewrite Hint, (int_ranges_flags PY2 _ true true true Hall).
    cbn [andb]. unfold int_array_type.
    change (- 2 ^ 15) with min_int2. change (2 ^ 15) with max_int2.
    change (- 2 ^ 31) with min_int4. change (2 ^ 31) with max_int4.
    change (- 2 ^ 63) with min_int8. change (2 ^ 63) with max_int8.
    destruct (forallb (fun z => between min_int2 z max_int2) _);
      [reflexivity|].
    destruct (forallb (fun z => between min_int4 z max_int4) _);
      [reflexivity|].
    destruct (forallb (fun z => between min_int8 z max_int8) _); reflexivity.
  - apply find_first_None in Ef. congruence.
Qed.

Lemma forallb_between (b : Z) (zs : list Z) :
  forallb (fun z => between (- b) z b) zs = true
  <-> Forall (fun z => - b < z < b) zs.
Proof.
  rewrite forallb_forall, List.Forall_forall.
  split; intros H z Hz; specialize (H z Hz); unfold between in *.
  - apply andb_true_iff in H as [H1 H2]. lia.
  - apply andb_true_iff. split; [apply Z.ltb_lt | apply Z.ltb_lt]; lia.
Qed.

(** X4. For a list of ints, bools and nulls with at least one element that is
    not null, [array_inspect] selects the narrowest of INT2[] (1005),
    INT4[] (1007) and INT8[] (1016) whose open interval (-2^15, 2^15),
    (-2^31, 2^31) or (-2^63, 2^63) holds every integer of the list (a bool
    counts as 0 or 1, so a list of bools is sent as INT2[]), and raises
    [ArrayContentNotSupportedError] when some integer is outside the
    last. *)
Theorem array_inspect_int_array (PY2 : bool) (value : list pyarr) :
  Forall (fun v => is_None v = true \/ is_Some (int_leaf v))
    (array_flatten value) ->
  forallb is_None (array_flatten value) = false ->
  let within b :=
    Forall (fun z => - b < z < b) (omap int_leaf (array_flatten value)) in
  let sender := MkArraySender value typ_integer_types in
  (within (2 ^ 15) ->
   array_inspect PY2 value = Return (1005, FC_BINARY, sender 21 send_h_pack))
  /\ (~ within (2 ^ 15) -> within (2 ^ 31) ->
      array_inspect PY2 value
      = Return (1007, FC_BINARY, sender 23 send_i_pack))
  /\ (~ within (2 ^ 31) -> within (2 ^ 63) ->
      array_inspect PY2 value
      = Return (1016, FC_BINARY, sender 20 send_q_pack))
  /\ (~ within (2 ^ 63) ->
      array_inspect PY2 value
      = Throw (ArrayContentNotSupportedError
                 "numeric not supported as array contents")).
Proof.
  intros Hall Hsome within sender.
  rewrite (array_inspect_ints PY2 value Hall Hsome). unfold int_array_type.
  pose proof (forallb_between (2 ^ 15)
                (omap int_leaf (array_flatten value))) as H2.
  pose proof (forallb_between (2 ^ 31)
                (omap int_leaf (array_flatten value))) as H4.
  pose proof (forallb_between (2 ^ 63)
                (omap int_leaf (array_flatten value))) as H8.
  fold (within (2 ^ 15)) in H2. fold (within (2 ^ 31)) in H4.
  fold (within (2 ^ 63)) in H8.
  assert (M1 : within (2 ^ 15) -> within (2 ^ 31)).
  { intros W. eapply List.Forall_impl; [|exact W]. cbv beta. intros; lia. }
  assert (M2 : within (2 ^ 31) -> within (2 ^ 63)).
  { intros W. eapply List.Forall_impl; [|exact W]. cbv beta. intros; lia. }
  assert (F2 : ~ within (2 ^ 15) ->
               forallb (fun z => between (- 2 ^ 15) z (2 ^ 15))
                 (omap int_leaf (array_flatten value)) = false).
  { intros N. apply not_true_iff_false. intros E. apply N, H2, E. }
  assert (F4 : ~ within (2 ^ 31) ->
               forallb (fun z => between (- 2 ^ 31) z (2 ^ 31))
                 (omap int_leaf (array_flatten value)) = false).
  { intros N. apply not_true_iff_false. intros E. apply N, H4, E. }
  assert (F8 : ~ within (2 ^ 63) ->
               forallb (fun z => between (- 2 ^ 63) z (2 ^ 63))
                 (omap int_leaf (array_flatten value)) = false).
  { intros N. apply not_true_iff_false. intros E. apply N, H8, E. }
  split; [|split; [|split]].
  - intros W. now rewrite (proj2 H2 W).
  - intros N W. now rewrite (F2 N), (proj2 H4 W).
  - intros N W.
    now rewrite (F2 (fun w => N (M1 w))), (F4 N), (proj2 H8 W).
  - intros N.
    now rewrite (F2 (fun w => N (M2 (M1 w)))), (F4 (fun w => N (M2 w))),
      (F8 N).
Qed.

Lemma array_inspect_int_array_witness :
  array_inspect true array_of_bools
  = Return (1005, FC_BINARY,
            MkArraySender array_of_bools typ_integer_types 21 send_h_pack).
Proof.
  refine (proj1 (array_inspect_int_array true array_of_bools _ _) _).
  - constructor; [right; now eexists|].
    constructor; [right; now eexists | constructor].
  - reflexivity.
  - constructor; [lia|]. constructor; [lia | constructor].
Defined.

(** ** The [struct] packers: what is packed is unpacked *)

Lemma Z_of_byte_of_Z (z : Z) : Z_of_byte (byte_of_Z z) = z mod 256.
Proof.
  unfold Z_of_byte, byte_of_Z.
  rewrite N_ascii_embedding.
  - apply Z2N.id. apply Z.mod_pos_bound. lia.
  - pose proof (Z.mod_pos_bound z 256 ltac:(lia)). lia.
Qed.

Lemma length_be_encode (width : nat) (v : Z) :
  String.length (be_encode width v) = width.
Proof. induction width as [|w IH]; cbn; [reflexivity | now rewrite IH]. Qed.

Lemma be_decode_encode (width : nat) (v : Z) :
  forall acc,
    be_decode (be_encode width v) acc
    = acc * 256 ^ Z.of_nat width + v mod 256 ^ Z.of_nat width.
Proof.
  induction width as [|w IH]; intros acc.
  - cbn [be_encode be_decode]. rewrite Z.mod_1_r. cbn. lia.
  - cbn [be_encode be_decode]. rewrite IH, Z_of_byte_of_Z.
    rewrite Nat2Z.inj_succ, Z.pow_succ_r by lia.
    rewrite (Z.mul_comm 256 (256 ^ Z.of_nat w)).
    rewrite (Z.rem_mul_r v (256 ^ Z.of_nat w) 256) by lia.
    lia.
Qed.

Lemma substring_app_mid (pre s post : string) :
  String.substring (String.length pre) (String.length s) (pre +:+ s +:+ post)
  = s.
Proof.
  induction pre as [|c pre IH]; cbn [String.length append String.substring].
  - induction s as [|c s IH]; cbn [String.length append String.substring].
    + now destruct post.
    + now rewrite IH.
  - exact IH.
Qed.

Lemma pack_int_Ok (width : nat) (v : Z) (data : bytes) :
  pack_int width v = Ok data ->
  data = be_encode width v
  /\ - 2 ^ (8 * Z.of_nat width - 1) <= v < 2 ^ (8 * Z.of_nat width - 1).
Proof.
  unfold pack_int.
  destruct (Z.leb_spec (- 2 ^ (8 * Z.of_nat width - 1)) v);
    destruct (Z.ltb_spec v (2 ^ (8 * Z.of_nat width - 1)));
    cbn [andb]; intros [= <-]. split; [reflexivity | lia].
Qed.

Lemma pack_int_in_range (width : nat) (v : Z) :
  - 2 ^ (8 * Z.of_nat width - 1) <= v < 2 ^ (8 * Z.of_nat width - 1) ->
  pack_int width v = Ok (be_encode width v).
Proof.
  intros H. unfold pack_int.
  destruct (Z.leb_spec (- 2 ^ (8 * Z.of_nat width - 1)) v); [|lia].
  destruct (Z.ltb_spec v (2 ^ (8 * Z.of_nat width - 1))); [|lia].
  reflexivity.
Qed.

(** A packed integer is read back from the place where it lies. *)
Lemma unpack_int_pack (width : nat) (v : Z) (pre post : bytes) :
  (0 < width)%nat ->
  - 2 ^ (8 * Z.of_nat width - 1) <= v < 2 ^ (8 * Z.of_nat width - 1) ->
  unpack_int width (pre +:+ be_encode width v +:+ post)
    (Z.of_nat (String.length pre))
  = Ok v.
Proof.
  intros Hw Hv. unfold unpack_int.
  rewrite !str_length_app, length_be_encode.
  destruct (Z.ltb_spec (Z.of_nat (String.length pre)) 0); [lia|].
  destruct (Z.leb_spec 0 (Z.of_nat (String.length pre))); [|lia].
  destruct (Z.leb_spec (Z.of_nat width)
              (Z.of_nat (String.length pre + (width + String.length post))
               - Z.of_nat (String.length pre))); [|lia].
  cbn [andb]. rewrite Nat2Z.id.
  pose proof (substring_app_mid pre (be_encode width v) post) as Hs.
  rewrite length_be_encode in Hs. rewrite Hs, be_decode_encode.
  assert (Hpow : 256 ^ Z.of_nat width = 2 * 2 ^ (8 * Z.of_nat width - 1)).
  { replace 256 with (2 ^ 8) by reflexivity.
    rewrite <- Z.pow_mul_r by lia.
    replace (8 * Z.of_nat width) with (1 + (8 * Z.of_nat width - 1)) at 1
      by lia.
    rewrite Z.pow_add_r by lia. reflexivity. }
  set (half := 2 ^ (8 * Z.of_nat width - 1)) in *.
  assert (Hhalf : 0 < half) by (apply Z.pow_pos_nonneg; lia).
  rewrite Hpow. f_equal.
  destruct (Z_lt_le_dec v 0) as [Hneg | Hpos].
  - replace (v mod (2 * half)) with (v + 2 * half).
    + destruct (Z.ltb_spec (0 * (2 * half) + (v + 2 * half)) half); lia.
    + apply (Z.mod_unique _ _ (-1)); lia.
  - rewrite Z.mod_small by lia.
    destruct (Z.ltb_spec (0 * (2 * half) + v) half); lia.
Qed.

(** ** Arrays: what is sent is received *)

Lemma zip_groups_group (len : nat) (g : list pyarr) :
  forall need acc rest,
    length g = need -> (0 < need)%nat ->
    zip_groups len need acc (g ++ rest)
    = PyList (acc ++ g) :: zip_groups len len [] rest.
Proof.
  induction g as [|x g IH]; intros need acc rest Hlen Hpos.
  - cbn in Hlen. lia.
  - destruct need as [|[|m]]; [lia| |].
    + destruct g; [reflexivity | discriminate].
    + cbn [app zip_groups].
      rewrite (IH (S m) (acc ++ [x]) rest) by (cbn in Hlen; lia).
      now rewrite <- app_assoc.
Qed.

Lemma zip_groups_concat (len : nat) (gs : list (list pyarr)) :
  (0 < len)%nat ->
  Forall (fun g => length g = len) gs ->
  zip_groups len len [] (concat gs) = map PyList gs.
Proof.
  intros Hpos. induction gs as [|g gs IH]; intros Hall.
  - destruct len; [lia | reflexivity].
  - apply Forall_cons in Hall as [Hg Hall].
    cbn [concat map]. rewrite (zip_groups_group len g len [] _ Hg Hpos).
    now rewrite IH.
Qed.

Lemma array_flatten_app (a b : list pyarr) :
  array_flatten (a ++ b) = array_flatten a ++ array_flatten b.
Proof. unfold array_flatten. apply flat_map_app. Qed.

Lemma array_flatten_leaves (l : list pyarr) :
  forallb (has_shape []) l = true ->
  map Item (array_flatten l) = l.
Proof.
  induction l as [|v l IH]; intros H; [reflexivity|].
  cbn [forallb] in H. apply andb_true_iff in H as [Hv Hl].
  destruct v as [x|lv]; [|discriminate].
  rewrite array_flatten_cons. cbn [flatten_item app map]. now rewrite IH.
Qed.

(** The lists of a level, once their items are put side by side, are cut
    back by [regroup]. *)
Lemma has_shape_items (s : Z) (shape : list Z) (gs : list pyarr) :
  forallb (has_shape (s :: shape)) gs = true ->
  exists ls : list (list pyarr),
    gs = map PyList ls
    /\ Forall (fun l => Z.of_nat (length l) = s) ls
    /\ forallb (has_shape shape) (concat ls) = true
    /\ array_flatten gs = array_flatten (concat ls).
Proof.
  induction gs as [|g gs IH]; intros H.
  - exists []. repeat split. constructor.
  - cbn [forallb] in H. apply andb_true_iff in H as [Hg Hgs].
    destruct (IH Hgs) as (ls & -> & Hlen & Hsh & Hfl).
    destruct g as [x|l]; [discriminate|].
    rewrite has_shape_cons in Hg. apply andb_true_iff in Hg as [Hd Hl].
    apply Z.eqb_eq in Hd.
    exists (l :: ls). repeat split.
    + constructor; assumption.
    + cbn [concat]. rewrite forallb_app. now rewrite Hl, Hsh.
    + cbn [concat map]. rewrite array_flatten_cons, array_flatten_app.
      now rewrite flatten_item_list, Hfl.
Qed.

Lemma regroup_flatten (shape : list Z) :
  forall gs : list pyarr,
    Forall (fun d => 0 < d) shape ->
    forallb (has_shape shape) gs = true ->
    foldl (fun values length => regroup length values)
      (map Item (array_flatten gs)) (rev shape)
    = gs.
Proof.
  induction shape as [|s shape IH]; intros gs Hpos Hgs.
  - cbn [rev foldl]. now apply array_flatten_leaves.
  - apply Forall_cons in Hpos as [Hs Hpos].
    destruct (has_shape_items s shape gs Hgs) as (ls & -> & Hlen & Hsh & Hfl).
    cbn [rev]. rewrite foldl_app. cbn [foldl].
    rewrite Hfl, (IH (concat ls) Hpos Hsh).
    unfold regroup. destruct (Z.leb_spec s 0); [lia|].
    apply zip_groups_concat; [lia|].
    eapply Forall_impl; [exact Hlen|]. cbn. intros l Hl. lia.
Qed.

Lemma i_pack_small (v : Z) :
  - 2 ^ 31 <= v < 2 ^ 31 -> i_pack v = Ok (be_encode 4 v).
Proof. intros H. apply pack_int_in_range. exact H. Qed.

Lemma i_unpack_at (v : Z) (pre post : bytes) :
  - 2 ^ 31 <= v < 2 ^ 31 ->
  i_unpack (pre +:+ be_encode 4 v +:+ post) (Z.of_nat (String.length pre))
  = Ok v.
Proof. intros H. apply unpack_int_pack; [lia | exact H]. Qed.

Lemma recv_elements_S conversion (n : nat) (data : bytes) (idx final_idx : Z)
    (values : list pyarr) :
  recv_elements conversion (S n) data idx final_idx values
  = if idx <? final_idx then
      match i_unpack data idx with
      | Raise e => Some (Raise e)
      | Ok element_len =>
          if element_len =? -1 then
            recv_elements conversion n data (idx + 4) final_idx
              (values ++ [Item PyNone])
          else
            match conversion data (idx + 4) element_len with
            | None => None
            | Some (Raise e) => Some (Raise e)
            | Some (Ok v) =>
                recv_elements conversion n data (idx + 4 + element_len)
                  final_idx (values ++ [v])
            end
      end
    else Some (Ok values).
Proof. reflexivity. Qed.

(** The loop of [array_recv] reads back the elements that the loop of
    [send_array] has written with an integer packer of [width] bytes. *)
Lemma recv_send_int_elements (PY2 : bool) (textout : string -> result bytes)
    (width : nat) (send_func : send_func)
    (conversion : bytes -> Z -> Z -> option (result pyarr)) :
  (0 < width <= 8)%nat ->
  (forall z, apply_send PY2 textout send_func (PyInt z) = pack_int width z) ->
  (forall d o l,
     conversion d o l = Some (Item ∘ PyInt <$> unpack_int width d o)) ->
  forall vs enc,
    Forall (fun v => v = PyNone \/ exists z, v = PyInt z) vs ->
    send_elements PY2 textout send_func vs = Ok enc ->
    forall pre values fuel,
      (length vs < fuel)%nat ->
      recv_elements conversion fuel (pre +:+ enc)
        (Z.of_nat (String.length pre))
        (Z.of_nat (String.length pre) + Z.of_nat (String.length enc)) values
      = Some (Ok (values ++ map Item vs)).
Proof.
  intros Hw Hsend Hconv vs.
  induction vs as [|v vs IH]; intros enc Hleaves Henc pre values fuel Hfuel.
  - injection Henc as <-. destruct fuel as [|n]; [cbn in Hfuel; lia|].
    rewrite recv_elements_S. cbn [String.length map].
    destruct (Z.ltb_spec (Z.of_nat (String.length pre))
                (Z.of_nat (String.length pre) + Z.of_nat 0)); [lia|].
    now rewrite app_nil_r.
  - apply Forall_cons in Hleaves as [Hv Hleaves].
    destruct fuel as [|n]; [cbn in Hfuel; lia|].
    cbn [send_elements] in Henc.
    destruct (send_elements PY2 textout send_func vs) as [rest|e] eqn:Erest;
      [|destruct (if is_None v then _ else _); discriminate].
    assert (Hrest : forall pre' values',
              recv_elements conversion n (pre' +:+ rest)
                (Z.of_nat (String.length pre'))
                (Z.of_nat (String.length pre')
                 + Z.of_nat (String.length rest)) values'
              = Some (Ok (values' ++ map Item vs))).
    { intros pre' values'. apply IH; [exact Hleaves | reflexivity|].
      cbn in Hfuel. lia. }
    destruct Hv as [-> | [z ->]].
    + (* a null *)
      cbn [is_None] in Henc. rewrite (i_pack_small (-1)) in Henc by lia.
      cbn [mbind result_bind] in Henc. cbv [mret result_ret] in Henc.
      assert (Henc' : be_encode 4 (-1) +:+ rest = enc)
        by (injection Henc; intros H; exact H).
      subst enc. clear Henc.
      rewrite recv_elements_S, str_length_app, length_be_encode.
      destruct (Z.ltb_spec (Z.of_nat (String.length pre))
                  (Z.of_nat (String.length pre)
                   + Z.of_nat (4 + String.length rest))); [|lia].
      rewrite (i_unpack_at (-1) pre rest) by lia.
      cbn [Z.eqb Pos.eqb].
      specialize (Hrest (pre +:+ be_encode 4 (-1)) (values ++ [Item PyNone])).
      rewrite str_app_assoc, str_length_app, length_be_encode in Hrest.
      replace (Z.of_nat (String.length pre) + 4)
        with (Z.of_nat (String.length pre + 4)) by lia.
      replace (Z.of_nat (String.length pre)
               + Z.of_nat (4 + String.length rest))
        with (Z.of_nat (String.length pre + 4)
              + Z.of_nat (String.length rest)) by lia.
      rewrite Hrest. cbn [map]. now rewrite <- app_assoc.
    + (* an integer *)
      cbn [is_None] in Henc. rewrite Hsend in Henc.
      destruct (pack_int width z) as [inner|e] eqn:Einner; [|discriminate].
      apply pack_int_Ok in Einner as [-> Hz].
      cbn [mbind result_bind mret result_ret] in Henc.
      rewrite length_be_encode in Henc.
      rewrite (i_pack_small (Z.of_nat width)) in Henc by lia.
      cbn [mbind result_bind] in Henc. cbv [mret result_ret] in Henc.
      assert (Henc' : (be_encode 4 (Z.of_nat width) +:+ be_encode width z)
                      +:+ rest = enc)
        by (injection Henc; intros H; exact H).
      subst enc. clear Henc.
      rewrite recv_elements_S, !str_length_app, !length_be_encode.
      destruct (Z.ltb_spec (Z.of_nat (String.length pre))
                  (Z.of_nat (String.length pre)
                   + Z.of_nat (4 + width + String.length rest))); [|lia].
      rewrite !str_app_assoc.
      rewrite (i_unpack_at (Z.of_nat width) pre
                 (be_encode width z +:+ rest)) by lia.
      destruct (Z.eqb_spec (Z.of_nat width) (-1)); [lia|].
      rewrite Hconv.
      pose proof (unpack_int_pack width z (pre +:+ be_encode 4 (Z.of_nat width))
                    rest ltac:(lia) Hz) as Hun.
      rewrite str_length_app, length_be_encode, !str_app_assoc in Hun.
      replace (Z.of_nat (String.length pre) + 4)
        with (Z.of_nat (String.length pre + 4)) by lia.
      rewrite Hun. cbn [fmap result_fmap].
      specialize (Hrest (pre +:+ be_encode 4 (Z.of_nat width)
                         +:+ be_encode width z)
                    (values ++ [Item (PyInt z)])).
      rewrite !str_app_assoc, !str_length_app, !length_be_encode in Hrest.
      replace (Z.of_nat (String.length pre + 4) + Z.of_nat width)
        with (Z.of_nat (String.length pre + (4 + width))) by lia.
      replace (Z.of_nat (String.length pre)
               + Z.of_nat (4 + width + String.length rest))
        with (Z.of_nat (String.length pre + (4 + width))
              + Z.of_nat (String.length rest)) by lia.
      change ((Item ∘ PyInt) z) with (Item (PyInt z)).
      rewrite Hrest. cbn [map]. now rewrite <- app_assoc.
Qed.

Lemma i_unpack_at_offset (v : Z) (pre post : bytes) (offset : Z) :
  offset = Z.of_nat (String.length pre) ->
  - 2 ^ 31 <= v < 2 ^ 31 ->
  i_unpack (pre +:+ be_encode 4 v +:+ post) offset = Ok v.
Proof. intros ->. apply i_unpack_at. Qed.

Lemma send_elements_int_Ok (PY2 : bool) (textout : string -> result bytes)
    (width : nat) (send_func : send_func) :
  (0 < width <= 8)%nat ->
  (forall z, apply_send PY2 textout send_func (PyInt z) = pack_int width z) ->
  forall vs,
    Forall (fun v => v = PyNone
                     \/ exists z, v = PyInt z
                        /\ - 2 ^ (8 * Z.of_nat width - 1) <= z
                           < 2 ^ (8 * Z.of_nat width - 1)) vs ->
    exists enc, send_elements PY2 textout send_func vs = Ok enc.
Proof.
  intros Hw Hsend vs. induction vs as [|v vs IH]; intros Hall.
  - now eexists.
  - apply Forall_cons in Hall as [Hv Hall]. destruct (IH Hall) as [rest Hrest].
    cbn [send_elements]. rewrite Hrest.
    destruct Hv as [-> | (z & -> & Hz)]; cbn [is_None].
    + rewrite (i_pack_small (-1)) by lia. now eexists.
    + rewrite Hsend, (pack_int_in_range width z Hz).
      cbn [mbind result_bind]. rewrite length_be_encode.
      rewrite (i_pack_small (Z.of_nat width)) by lia. now eexists.
Qed.

Lemma send_dims_recv_dims (dim_lengths : list Z) :
  Forall (fun d => - 2 ^ 31 <= d < 2 ^ 31) dim_lengths ->
  exists enc,
    send_dims dim_lengths = Ok enc
    /\ forall pre post,
         recv_dims (length dim_lengths) (pre +:+ enc +:+ post)
           (Z.of_nat (String.length pre))
         = Ok (dim_lengths,
               Z.of_nat (String.length pre) + Z.of_nat (String.length enc)).
Proof.
  induction dim_lengths as [|d ds IH]; intros Hall.
  - exists EmptyString. split; [reflexivity|]. intros pre post.
    cbn [length recv_dims String.length]. do 2 f_equal. lia.
  - apply Forall_cons in Hall as [Hd Hall].
    destruct (IH Hall) as (rest & Hrest & Hrecv).
    exists ((be_encode 4 d +:+ be_encode 4 1) +:+ rest). split.
    + cbn [send_dims]. unfold ii_pack.
      rewrite (i_pack_small d Hd), (i_pack_small 1) by lia.
      cbn [mbind result_bind]. now rewrite Hrest.
    + intros pre post. cbn [length recv_dims]. unfold ii_unpack, unpack_offset.
      rewrite !str_app_assoc, !str_length_app, !length_be_encode.
      destruct (Z.ltb_spec (Z.of_nat (String.length pre)) 0); [lia|].
      destruct (Z.leb_spec 0 (Z.of_nat (String.length pre))); [|lia].
      destruct (Z.leb_spec 8
                  (Z.of_nat (String.length pre
                             + (4 + (4 + (String.length rest
                                          + String.length post))))
                   - Z.of_nat (String.length pre))); [|lia].
      cbn [andb mbind result_bind].
      rewrite (i_unpack_at d pre) by exact Hd.
      cbn [mbind result_bind].
      pose proof (i_unpack_at_offset 1 (pre +:+ be_encode 4 d)
                    (rest +:+ post)
                    (Z.of_nat (String.length pre) + 4)) as Hone.
      rewrite str_length_app, length_be_encode, !str_app_assoc in Hone.
      rewrite Hone by lia. cbn [mbind result_bind].
      specialize (Hrecv (pre +:+ be_encode 4 d +:+ be_encode 4 1) post).
      rewrite !str_app_assoc, !str_length_app, !length_be_encode in Hrecv.
      replace (Z.of_nat (String.length pre) + 8)
        with (Z.of_nat (String.length pre + (4 + 4))) by lia.
      rewrite Hrecv. cbn [mbind result_bind mret result_ret].
      do 2 f_equal. lia.
Qed.

Lemma check_homogenous_ints (PY2 : bool) (vs : list pyvalue) :
  Forall (fun v => v = PyNone \/ exists z, v = PyInt z) vs ->
  check_homogenous PY2 typ_integer_types vs = Return tt.
Proof.
  induction vs as [|v vs IH]; intros Hall; [reflexivity|].
  apply Forall_cons in Hall as [[-> | [z ->]] Hall]; cbn; now apply IH.
Qed.

Lemma last_repeat (m d : Z) (k : nat) :
  List.last (m :: repeat m k) d = m.
Proof.
  induction k as [|k IH]; [reflexivity|].
  change (List.last (m :: repeat m (S k)) d)
    with (List.last (m :: repeat m k) d).
  exact IH.
Qed.

Lemma tail_dim_lengths (d m : Z) (k : nat) :
  tail (repeat m k ++ [List.last (d :: repeat m k) d]) = repeat m k.
Proof.
  destruct k as [|k]; [reflexivity|].
  change (List.last (d :: repeat m (S k)) d)
    with (List.last (m :: repeat m k) d).
  rewrite last_repeat. cbn [repeat app tail].
  now rewrite <- repeat_cons.
Qed.

Lemma unpack_offset_Ok (size : Z) (data : bytes) (offset : Z) :
  0 <= offset -> size <= Z.of_nat (String.length data) - offset ->
  unpack_offset size data offset = Ok offset.
Proof.
  intros H0 Hs. unfold unpack_offset.
  destruct (Z.ltb_spec offset 0); [lia|].
  destruct (Z.leb_spec 0 offset); [|lia].
  destruct (Z.leb_spec size (Z.of_nat (String.length data) - offset)); [|lia].
  reflexivity.
Qed.

Lemma iii_unpack_header (a b c : Z) (post : bytes) :
  - 2 ^ 31 <= a < 2 ^ 31 -> - 2 ^ 31 <= b < 2 ^ 31 ->
  - 2 ^ 31 <= c < 2 ^ 31 ->
  iii_unpack ((be_encode 4 a +:+ be_encode 4 b +:+ be_encode 4 c) +:+ post) 0
  = Ok (a, b, c).
Proof.
  intros Ha Hb Hc. unfold iii_unpack.
  rewrite unpack_offset_Ok
    by (rewrite ?str_length_app, ?length_be_encode; lia).
  rewrite !str_app_assoc. cbn [mbind result_bind].
  pose proof (i_unpack_at_offset a EmptyString
                (be_encode 4 b +:+ be_encode 4 c +:+ post) 0 eq_refl Ha)
    as Ha'.
  change (EmptyString +:+ be_encode 4 a +:+ be_encode 4 b +:+ be_encode 4 c
          +:+ post)
    with (be_encode 4 a +:+ be_encode 4 b +:+ be_encode 4 c +:+ post) in Ha'.
  rewrite Ha'. cbn [mbind result_bind].
  pose proof (i_unpack_at_offset b (be_encode 4 a)
                (be_encode 4 c +:+ post) (0 + 4)) as Hb'.
  rewrite length_be_encode in Hb'. rewrite Hb' by (try reflexivity; lia).
  cbn [mbind result_bind].
  pose proof (i_unpack_at_offset c (be_encode 4 a +:+ be_encode 4 b) post
                (0 + 8)) as Hc'.
  rewrite str_length_app, !length_be_encode, str_app_assoc in Hc'.
  rewrite Hc' by (try reflexivity; lia).
  reflexivity.
Qed.

(** What [send_array] writes for a rectangular array of integers and nulls
    whose dimensions after the first all have the length [m], with an
    integer packer of [width] bytes and the decoder of the same type,
    [array_recv] reads back as the same list. *)
Lemma send_array_recv_int (PY2 : bool) (textout : string -> result bytes)
    (recv_extern : recv_func -> bytes -> Z -> Z -> result pyvalue)
    (width : nat) (send_func : send_func) (oid : Z) (value : list pyarr)
    (d m : Z) (k : nat) :
  (0 < width <= 8)%nat ->
  (forall z, apply_send PY2 textout send_func (PyInt z) = pack_int width z) ->
  (forall fuel data o l,
     apply_recv PY2 recv_extern fuel (pg_types oid).2 data o l
     = Some (Item ∘ PyInt <$> unpack_int width data o)) ->
  - 2 ^ 31 <= oid < 2 ^ 31 ->
  has_shape (d :: repeat m k) (PyList value) = true ->
  0 < d < 2 ^ 31 -> 0 < m < 2 ^ 31 -> Z.of_nat k + 1 < 2 ^ 31 ->
  Forall (fun v => v = PyNone
                   \/ exists z, v = PyInt z
                      /\ - 2 ^ (8 * Z.of_nat width - 1) <= z
                         < 2 ^ (8 * Z.of_nat width - 1))
    (array_flatten value) ->
  exists data,
    send_array PY2 textout
      (MkArraySender value typ_integer_types oid send_func) value
    = Return data
    /\ forall fuel,
         (length (array_flatten value) <= fuel)%nat ->
         array_recv PY2 recv_extern fuel data 0
           (Z.of_nat (String.length data))
         = Some (Ok value).
Proof.
  intros Hw Hsend Hrecv Hoid Hshape Hd Hm Hk Hleaves.
  assert (Hleaves' : Forall (fun v => v = PyNone \/ exists z, v = PyInt z)
                       (array_flatten value)).
  { eapply Forall_impl; [exact Hleaves|]. cbn.
    intros v [-> | (z & -> & _)]; [now left | right; now eexists]. }
  assert (Hpos : Forall (fun d => 0 < d) (d :: repeat m k)).
  { constructor; [lia|]. apply List.Forall_forall. intros x Hx.
    apply repeat_spec in Hx. lia. }
  pose proof Hshape as Hshape'. rewrite has_shape_cons in Hshape'.
  apply andb_true_iff in Hshape' as [Hlen Hitems]. apply Z.eqb_eq in Hlen.
  (* the two checks *)
  unfold send_array. cbn [as_typ as_value as_oid as_send_func].
  rewrite (check_homogenous_ints PY2 _ Hleaves').
  cbn [mbind outcome_bind].
  rewrite (array_check_dimensions_complete (repeat m k) value)
    by (rewrite Hlen; assumption).
  cbn [mbind outcome_bind].
  (* the header *)
  rewrite (array_dim_lengths_has_shape (repeat m k) d value Hshape Hpos).
  cbn [mbind result_bind].
  set (dim_lengths := repeat m k ++ [List.last (d :: repeat m k) d]).
  assert (Hndims : length dim_lengths = S k).
  { unfold dim_lengths. rewrite length_app, repeat_length. cbn. lia. }
  assert (Hdims : Forall (fun d => - 2 ^ 31 <= d < 2 ^ 31) dim_lengths).
  { unfold dim_lengths. apply Forall_app. split.
    - apply List.Forall_forall. intros x Hx. apply repeat_spec in Hx. lia.
    - constructor; [|constructor].
      destruct k as [|k]; [cbn; lia|].
      change (List.last (d :: repeat m (S k)) d)
        with (List.last (m :: repeat m k) d).
      rewrite last_repeat. lia. }
  set (has_null := if array_has_null value then 1 else 0).
  assert (Hnull : - 2 ^ 31 <= has_null < 2 ^ 31)
    by (unfold has_null; destruct (array_has_null value); lia).
  unfold iii_pack.
  rewrite (i_pack_small (Z.of_nat (length dim_lengths))) by lia.
  rewrite (i_pack_small has_null Hnull), (i_pack_small oid Hoid).
  cbn [mbind result_bind]. cbv [mret result_ret].
  destruct (send_dims_recv_dims dim_lengths Hdims) as (dims & Hsd & Hrd).
  rewrite Hsd. cbn [mbind result_bind].
  destruct (send_elements_int_Ok PY2 textout width send_func Hw Hsend
              (array_flatten value) Hleaves) as [elems Helems].
  rewrite Helems. cbn [mbind result_bind lift].
  set (header := be_encode 4 (Z.of_nat (length dim_lengths))
                 +:+ be_encode 4 has_null +:+ be_encode 4 oid).
  assert (Hheader : String.length header = 12%nat)
    by (unfold header; now rewrite !str_length_app, !length_be_encode).
  eexists. split; [reflexivity|].
  (* reading it back *)
  intros fuel Hfuel. unfold array_recv, array_recv_with.
  unfold header at 1.
  rewrite iii_unpack_header by lia.
  fold header. rewrite Nat2Z.id.
  specialize (Hrd header elems). rewrite Hheader in Hrd.
  change (0 + 12) with (Z.of_nat 12). rewrite Hrd.
  pose proof (recv_send_int_elements PY2 textout width send_func
                (apply_recv PY2 recv_extern fuel (pg_types oid).2)
                Hw Hsend (Hrecv fuel) (array_flatten value) elems Hleaves'
                Helems (header +:+ dims) [] (S fuel) ltac:(lia)) as Hel.
  rewrite str_app_assoc, str_length_app, Hheader in Hel.
  rewrite !str_length_app, Hheader.
  replace (Z.of_nat 12 + Z.of_nat (String.length dims))
    with (Z.of_nat (12 + String.length dims)) by lia.
  replace (0 + Z.of_nat (12 + (String.length dims + String.length elems)))
    with (Z.of_nat (12 + String.length dims)
          + Z.of_nat (String.length elems)) by lia.
  rewrite Hel. cbn [app].
  unfold dim_lengths. rewrite tail_dim_lengths.
  now rewrite (regroup_flatten (repeat m k) value)
    by (try assumption; now apply Forall_cons in Hpos as [_ ?]).
Qed.

Lemma int_leaves_between (lo hi : Z) (vs : list pyvalue) :
  Forall (fun v => v = PyNone \/ exists z, v = PyInt z) vs ->
  forallb (fun z => between lo z hi) (omap int_leaf vs) = true ->
  Forall (fun v => v = PyNone \/ exists z, v = PyInt z /\ lo < z < hi) vs.
Proof.
  induction vs as [|v vs IH]; intros Hall Hb; [constructor|].
  apply Forall_cons in Hall as [Hv Hall].
  destruct Hv as [-> | [z ->]]; cbn [omap list_omap int_leaf forallb] in Hb.
  - constructor; [now left | now apply IH].
  - apply andb_true_iff in Hb as [Hz Hb]. constructor; [|now apply IH].
    right. exists z. split; [reflexivity|].
    unfold between in Hz. apply andb_true_iff in Hz as [H1 H2].
    apply Z.ltb_lt in H1, H2. lia.
Qed.

Lemma between_int_leaves (lo hi : Z) (vs : list pyvalue) :
  Forall (fun v => v = PyNone \/ exists z, v = PyInt z /\ lo < z < hi) vs ->
  forallb (fun z => between lo z hi) (omap int_leaf vs) = true.
Proof.
  induction vs as [|v vs IH]; intros Hall; [reflexivity|].
  apply Forall_cons in Hall as [Hv Hall].
  destruct Hv as [-> | (z & -> & Hz)]; cbn [omap list_omap int_leaf forallb].
  - now apply IH.
  - rewrite (IH Hall). unfold between.
    destruct (Z.ltb_spec lo z); [|lia]. destruct (Z.ltb_spec z hi); [|lia].
    reflexivity.
Qed.

(** X5. An array of integers and nulls comes back as it was sent: for a
    rectangular list of ints in (-2^63, 2^63) and nulls, not all null,
    whose dimensions after the first all have the same length (every list
    of one or two dimensions is such), the bytes that the encoder chosen by
    [array_inspect] writes are decoded by [array_recv] into the same
    list. *)
Theorem array_int_roundtrip (PY2 : bool) (textout : string -> result bytes)
    (recv_extern : recv_func -> bytes -> Z -> Z -> result pyvalue)
    (value : list pyarr) (d m : Z) (k : nat) :
  has_shape (d :: repeat m k) (PyList value) = true ->
  0 < d < 2 ^ 31 -> 0 < m < 2 ^ 31 -> Z.of_nat k + 1 < 2 ^ 31 ->
  Forall (fun v => v = PyNone
                   \/ exists z, v = PyInt z /\ - 2 ^ 63 < z < 2 ^ 63)
    (array_flatten value) ->
  forallb is_None (array_flatten value) = false ->
  exists array_typeoid s data,
    array_inspect PY2 value = Return (array_typeoid, FC_BINARY, s)
    /\ send_array PY2 textout s value = Return data
    /\ forall fuel,
         (length (array_flatten value) <= fuel)%nat ->
         array_recv PY2 recv_extern fuel data 0
           (Z.of_nat (String.length data))
         = Some (Ok value).
Proof.
  intros Hshape Hd Hm Hk Hleaves Hsome.
  assert (Hleaves' : Forall (fun v => v = PyNone \/ exists z, v = PyInt z)
                       (array_flatten value)).
  { eapply Forall_impl; [exact Hleaves|]. cbn.
    intros v [-> | (z & -> & _)]; [now left | right; now eexists]. }
  rewrite array_inspect_ints; [|clear -Hleaves'|exact Hsome].
  2:{ eapply Forall_impl; [exact Hleaves'|]. cbn.
      intros v [-> | [z ->]]; [now left | right; now eexists]. }
  unfold int_array_type.
  destruct (forallb (fun z => between (- 2 ^ 15) z (2 ^ 15)) _) eqn:E2;
    [|destruct (forallb (fun z => between (- 2 ^ 31) z (2 ^ 31)) _) eqn:E4;
      [|rewrite (between_int_leaves _ _ _ Hleaves)]].
  - destruct (send_array_recv_int PY2 textout recv_extern 2 send_h_pack 21
                value d m k) as (data & Hsend & Hrecv);
      try assumption; try lia; try reflexivity.
    + intros [|fuel] data o l; reflexivity.
    + eapply Forall_impl; [exact (int_leaves_between _ _ _ Hleaves' E2)|].
      cbn. intros v [-> | (z & -> & Hz)]; [now left|].
      right. exists z. split; [reflexivity|].
      change (2 ^ (8 * Z.of_nat 2 - 1)) with (2 ^ 15). lia.
    + now exists 1005, (MkArraySender value typ_integer_types 21 send_h_pack),
        data.
  - destruct (send_array_recv_int PY2 textout recv_extern 4 send_i_pack 23
                value d m k) as (data & Hsend & Hrecv);
      try assumption; try lia; try reflexivity.
    + intros [|fuel] data o l; reflexivity.
    + eapply Forall_impl; [exact (int_leaves_between _ _ _ Hleaves' E4)|].
      cbn. intros v [-> | (z & -> & Hz)]; [now left|].
      right. exists z. split; [reflexivity|].
      change (2 ^ (8 * Z.of_nat 4 - 1)) with (2 ^ 31). lia.
    + now exists 1007, (MkArraySender value typ_integer_types 23 send_i_pack),
        data.
  - destruct (send_array_recv_int PY2 textout recv_extern 8 send_q_pack 20
                value d m k) as (data & Hsend & Hrecv);
      try assumption; try lia; try reflexivity.
    + intros [|fuel] data o l; reflexivity.
    + eapply Forall_impl; [exact Hleaves|].
      cbn. intros v [-> | (z & -> & Hz)]; [now left|].
      right. exists z. split; [reflexivity|].
      change (2 ^ (8 * Z.of_nat 8 - 1)) with (2 ^ 63). lia.
    + now exists 1016, (MkArraySender value typ_integer_types 20 send_q_pack),
        data.
Qed.

Lemma array_int_roundtrip_witness :
  exists array_typeoid s data,
    array_inspect true array_2x3 = Return (array_typeoid, FC_BINARY, s)
    /\ send_array true encode_ascii s array_2x3 = Return data
    /\ forall fuel,
         (length (array_flatten array_2x3) <= fuel)%nat ->
         array_recv true (fun _ _ _ _ => Raise ValueError) fuel data 0
           (Z.of_nat (String.length data))
         = Some (Ok array_2x3).
Proof.
  apply (array_int_roundtrip true encode_ascii
           (fun _ _ _ _ => Raise ValueError) array_2x3 2 3 1);
    try reflexivity; try lia.
  repeat (constructor;
          [right; eexists; split; [reflexivity | lia]|]).
  constructor.
Defined.

(** ** The positional dialects *)

Lemma copied_outside_spec (style : string) (c : ascii) :
  copied_outside style c = true ->
  (c =? "'")%char = false /\ (c =? DQUOTE)%char = false
  /\ String.eqb style "qmark" && (c =? "?")%char = false
  /\ String.eqb style "numeric" && (c =? ":")%char = false
  /\ String.eqb style "named" && (c =? ":")%char = false
  /\ String.eqb style "pyformat" && (c =? "%")%char = false
  /\ style_in_format_pyformat style && (c =? "%")%char = false.
Proof.
  unfold copied_outside. rewrite !andb_true_iff, !negb_true_iff.
  intros (((((H1 & H2) & H3) & H4) & H5) & H6). repeat split; try assumption.
  unfold style_in_format_pyformat in H6.
  destruct (String.eqb style "pyformat"); [|reflexivity].
  now rewrite orb_true_r in H6.
Qed.

Lemma scan_char_copied (style : string) (qe pe : bool) (ph out : list string)
    (idx : Z) (prev_c : option ascii) (c : ascii) (next_c : option ascii) :
  copied_outside style c = true ->
  scan_char (MkScanner style OUTSIDE qe pe ph out idx) prev_c c next_c
  = Ok (MkScanner style OUTSIDE qe pe ph (out ++ [char_str c]) idx).
Proof.
  intros Hc.
  apply copied_outside_spec in Hc as (H1 & H2 & H3 & H4 & H5 & H6 & H7).
  unfold scan_char. cbn [sc_state sc_style].
  rewrite H1, H2, H3, H4, H5, H6, H7. reflexivity.
Qed.

Lemma scan_copied (style : string) (s : string) (after : option ascii) :
  str_forall (copied_outside style) s = true ->
  forall qe pe ph out idx prev_c,
    scan_chars (MkScanner style OUTSIDE qe pe ph out idx) prev_c s after
    = Ok (MkScanner style OUTSIDE qe pe ph
            (out ++ map char_str (list_ascii_of_string s)) idx,
          last_char prev_c s).
Proof.
  intros Hs qe pe ph out idx prev_c.
  apply (scan_verbatim (copied_outside style)); [|exact Hs].
  intros c p n o Hc. now apply scan_char_copied.
Qed.

Lemma copied_quoted_spec (style : string) (c : ascii) :
  copied_quoted style c = true ->
  (c =? "'")%char = false /\ (c =? "\")%char = false
  /\ style_in_format_pyformat style && (c =? "%")%char = false.
Proof.
  unfold copied_quoted. rewrite !andb_true_iff, !negb_true_iff. tauto.
Qed.

Lemma copied_ident_spec (style : string) (c : ascii) :
  copied_ident style c = true ->
  (c =? DQUOTE)%char = false
  /\ style_in_format_pyformat style && (c =? "%")%char = false.
Proof.
  unfold copied_ident. rewrite !andb_true_iff, !negb_true_iff. tauto.
Qed.

(** In every dialect a single-quoted string is copied, whether it is read
    as a plain or as an escaped string. *)
Lemma scan_quoted_copied (style : string) (body : string) pe ph out idx
    prev_c after :
  str_forall (copied_quoted style) body = true ->
  is_char after "'" = false ->
  scan_chars (MkScanner style OUTSIDE false pe ph out idx) prev_c
    (quote_str body) after
  = Ok (MkScanner style OUTSIDE false pe ph
          (((out ++ ["'"]) ++ map char_str (list_ascii_of_string body))
           ++ ["'"]) idx,
        Some "'"%char).
Proof.
  intros Hbody Hafter. unfold quote_str. cbn [append].
  rewrite scan_chars_cons. unfold scan_char at 1.
  cbn [sc_state Ascii.eqb Bool.eqb andb]. scanner_simpl.
  destruct (is_char prev_c "E"); cbn [mbind result_bind]; scanner_simpl;
    rewrite scan_chars_app.
  - (* INSIDE_ES *)
    rewrite (scan_verbatim (copied_quoted style) style INSIDE_ES false pe ph
               idx)
      by (try exact Hbody;
          intros c p n o Hc;
          apply copied_quoted_spec in Hc as (H1 & H2 & H3);
          unfold scan_char; cbn [sc_state sc_style];
          rewrite H1, H3; reflexivity).
    cbn [mbind result_bind]. rewrite scan_chars_cons. unfold scan_char.
    cbn [sc_state Ascii.eqb Bool.eqb andb].
    rewrite (last_char_forall (copied_quoted style) "\" body)
      by (try exact Hbody; try reflexivity;
          intros c Hc;
          now apply copied_quoted_spec in Hc as (_ & H2 & _)).
    cbn [negb mbind result_bind scan_chars]. scanner_simpl. reflexivity.
  - (* INSIDE_SQ *)
    rewrite (scan_verbatim (copied_quoted style) style INSIDE_SQ false pe ph
               idx)
      by (try exact Hbody;
          intros c p n o Hc;
          apply copied_quoted_spec in Hc as (H1 & H2 & H3);
          unfold scan_char; cbn [sc_state sc_style];
          rewrite H1, H3; reflexivity).
    cbn [mbind result_bind]. rewrite scan_chars_cons. unfold scan_char.
    cbn [sc_state Ascii.eqb Bool.eqb andb following]. scanner_simpl.
    rewrite Hafter. cbn [mbind result_bind scan_chars]. reflexivity.
Qed.

Lemma scan_ident_copied (style : string) (body : string) qe pe ph out idx
    prev_c after :
  str_forall (copied_ident style) body = true ->
  scan_chars (MkScanner style OUTSIDE qe pe ph out idx) prev_c
    (quote_ident body) after
  = Ok (MkScanner style OUTSIDE qe pe ph
          (((out ++ [char_str DQUOTE])
            ++ map char_str (list_ascii_of_string body))
           ++ [char_str DQUOTE]) idx,
        Some DQUOTE).
Proof.
  intros Hbody. unfold quote_ident.
  rewrite scan_chars_cons. unfold scan_char at 1.
  cbn [sc_state]. change (DQUOTE =? "'")%char with false.
  rewrite Ascii.eqb_refl. cbn [mbind result_bind]. scanner_simpl.
  rewrite scan_chars_app.
  rewrite (scan_verbatim (copied_ident style) style INSIDE_QI qe pe ph idx)
    by (try exact Hbody;
        intros c p n o Hc;
        apply copied_ident_spec in Hc as (H1 & H2);
        unfold scan_char; cbn [sc_state sc_style];
        rewrite H1, H2; reflexivity).
  cbn [mbind result_bind]. unfold char_str. rewrite scan_chars_cons.
  unfold scan_char. cbn [sc_state]. rewrite Ascii.eqb_refl.
  cbn [mbind result_bind scan_chars]. scanner_simpl. reflexivity.
Qed.

Lemma render_pos_cons (style : string) (seg : pos_segment)
    (t : list pos_segment) :
  render_pos style (seg :: t)
  = render_pos_segment style seg +:+ render_pos style t.
Proof. unfold render_pos. cbn [map]. apply join_cons. Qed.

Lemma join_quote_str (out : list string) (body : string) :
  join (((out ++ ["'"]) ++ map char_str (list_ascii_of_string body))
        ++ ["'"])
  = join out +:+ quote_str body.
Proof.
  rewrite !join_app, join_chars. unfold quote_str.
  cbn [join String.concat]. now rewrite !str_app_assoc.
Qed.

Lemma join_quote_ident (out : list string) (body : string) :
  join (((out ++ [char_str DQUOTE])
         ++ map char_str (list_ascii_of_string body))
        ++ [char_str DQUOTE])
  = join out +:+ quote_ident body.
Proof.
  rewrite !join_app, join_chars. unfold quote_ident, char_str.
  cbn [join String.concat append].
  rewrite !str_app_assoc. cbn [append]. now rewrite ?str_app_assoc.
Qed.

Lemma scan_pos_template (style : string) (t : list pos_segment) :
  style = "qmark" \/ style = "format" ->
  forall out idx prev_c,
    well_formed_pos style t = true ->
    exists out' idx' prev',
      scan_chars (MkScanner style OUTSIDE false false [] out idx) prev_c
        (render_pos style t) None
      = Ok (MkScanner style OUTSIDE false false [] out' idx', prev')
      /\ join out' = join out +:+ numbered_pos idx t.
Proof.
  intros Hstyle.
  induction t as [|[s|body|body| |] t IH]; intros out idx prev_c Hwf.
  - exists out, idx, prev_c. split; [reflexivity|].
    cbn. now rewrite str_app_nil_r.
  - cbn [well_formed_pos] in Hwf. apply andb_true_iff in Hwf as [Hs Hwf].
    rewrite render_pos_cons. cbn [render_pos_segment].
    rewrite scan_chars_app, (scan_copied style s _ Hs).
    cbn [mbind result_bind].
    destruct (IH (out ++ map char_str (list_ascii_of_string s)) idx
                (last_char prev_c s) Hwf)
      as (out' & idx' & prev' & Hscan & Hjoin).
    exists out', idx', prev'. split; [exact Hscan|].
    rewrite Hjoin, join_app, join_chars. cbn [numbered_pos].
    now rewrite str_app_assoc.
  - cbn [well_formed_pos] in Hwf. apply andb_true_iff in Hwf as [Hwf1 Hwf].
    apply andb_true_iff in Hwf1 as [Hbody Hends].
    rewrite render_pos_cons. cbn [render_pos_segment].
    rewrite scan_chars_app,
      (scan_quoted_copied style body false [] out idx prev_c _ Hbody
         (ends_quote_following _ Hends)).
    cbn [mbind result_bind].
    destruct (IH (((out ++ ["'"]) ++ map char_str (list_ascii_of_string body))
                  ++ ["'"]) idx (Some "'"%char) Hwf)
      as (out' & idx' & prev' & Hscan & Hjoin).
    exists out', idx', prev'. split; [exact Hscan|].
    rewrite Hjoin, join_quote_str. cbn [numbered_pos].
    now rewrite str_app_assoc.
  - cbn [well_formed_pos] in Hwf. apply andb_true_iff in Hwf as [Hbody Hwf].
    rewrite render_pos_cons. cbn [render_pos_segment].
    rewrite scan_chars_app,
      (scan_ident_copied style body false false [] out idx prev_c _ Hbody).
    cbn [mbind result_bind].
    destruct (IH (((out ++ [char_str DQUOTE])
                   ++ map char_str (list_ascii_of_string body))
                  ++ [char_str DQUOTE]) idx (Some DQUOTE) Hwf)
      as (out' & idx' & prev' & Hscan & Hjoin).
    exists out', idx', prev'. split; [exact Hscan|].
    rewrite Hjoin, join_quote_ident. cbn [numbered_pos].
    now rewrite str_app_assoc.
  - (* a doubled percent sign, in the format dialect *)
    cbn [well_formed_pos] in Hwf. apply andb_true_iff in Hwf as [Hfmt Hwf].
    apply String.eqb_eq in Hfmt. subst style.
    rewrite render_pos_cons. cbn [render_pos_segment].
    rewrite scan_chars_app,
      (scan_percent_pair (MkScanner "format" OUTSIDE false false [] out idx))
      by (try reflexivity; discriminate).
    cbn [mbind result_bind]. unfold after_percent_pair. scanner_simpl.
    destruct (IH (out ++ ["%"]) idx (Some "%"%char) Hwf)
      as (out' & idx' & prev' & Hscan & Hjoin).
    exists out', idx', prev'. split; [exact Hscan|].
    rewrite Hjoin, join_app. cbn [numbered_pos join String.concat].
    now rewrite str_app_assoc.
  - (* a placeholder *)
    cbn [well_formed_pos] in Hwf.
    rewrite render_pos_cons, scan_chars_app.
    assert (Hparam :
      exists prev1,
        scan_chars (MkScanner style OUTSIDE false false [] out idx) prev_c
          (render_pos_segment style PParam)
          (following (render_pos style t) None)
        = Ok (MkScanner style OUTSIDE false false []
                (out ++ ["$" +:+ str_of_int idx]) (idx + 1), prev1)).
    { destruct Hstyle as [-> | ->];
        cbn [render_pos_segment String.eqb Ascii.eqb Bool.eqb].
      - eexists. scan_step. reflexivity.
      - eexists.
        rewrite (scan_percent_s
                   (MkScanner "format" OUTSIDE false false [] out idx))
          by reflexivity.
        unfold after_percent_s. scanner_simpl. reflexivity. }
    destruct Hparam as [prev1 ->]. cbn [mbind result_bind].
    destruct (IH (out ++ ["$" +:+ str_of_int idx]) (idx + 1) prev1 Hwf)
      as (out' & idx' & prev' & Hscan & Hjoin).
    exists out', idx', prev'. split; [exact Hscan|].
    rewrite Hjoin, join_app. cbn [numbered_pos join String.concat].
    now rewrite ?str_app_nil_r, !str_app_assoc.
Qed.

(** X6. In the qmark and format dialects, take a query made of literal
    text (free of quotes and of the marker of the dialect, [?] or [%]), of
    quoted strings (free of quote and backslash, not followed by a quote)
    and quoted identifiers (free of double quote), which in the format
    dialect hold no percent sign, of doubled percent signs outside quotes
    (format only) and of placeholders.  [convert_paramstyle] numbers its
    placeholders [?] and [%s] [$1], [$2], ... from left to right, writes
    each doubled percent sign as a single one, copies the rest, a [?]
    inside quotes included, and returns the closure that hands the
    arguments on as they are. *)
Theorem convert_paramstyle_positional (style : string)
    (t : list pos_segment) :
  style = "qmark" \/ style = "format" ->
  well_formed_pos style t = true ->
  convert_paramstyle style (render_pos style t)
  = Ok (numbered_pos 1 t, make_args_identity).
Proof.
  intros Hstyle Hwf. unfold convert_paramstyle, scanner_init.
  destruct (scan_pos_template style t Hstyle [] 1 None Hwf)
    as (out' & idx' & prev' & Hscan & Hjoin).
  rewrite Hscan. cbn [mbind result_bind mret result_ret sc_style
                      output_query placeholders].
  rewrite Hjoin. cbn [join String.concat append].
  destruct Hstyle as [-> | ->]; reflexivity.
Qed.

Lemma convert_paramstyle_positional_witness :
  convert_paramstyle "qmark" "SELECT ?, 'a?' || ?"
  = Ok ("SELECT $1, 'a?' || $2", make_args_identity)
  /\ convert_paramstyle "format" "SELECT %s, 100 %% 3, %s"
     = Ok ("SELECT $1, 100 % 3, $2", make_args_identity).
Proof.
  split.
  - apply (convert_paramstyle_positional "qmark" query_qmark);
      [now left | reflexivity].
  - apply (convert_paramstyle_positional "format" query_format);
      [now right | reflexivity].
Defined.

Lemma scan_numeric_text (s : string) (after : option ascii) :
  str_forall no_quote s = true ->
  forall qe pe ph out idx prev_c,
    exists out',
      scan_chars (MkScanner "numeric" OUTSIDE qe pe ph out idx) prev_c s after
      = Ok (MkScanner "numeric" OUTSIDE qe pe ph out' idx, last_char prev_c s)
      /\ join out' = join out +:+ colons_to_dollars s.
Proof.
  unfold str_forall. induction s as [|c s IH];
    intros Hs qe pe ph out idx prev_c.
  - exists out. split; [reflexivity|]. cbn. now rewrite str_app_nil_r.
  - cbn [list_ascii_of_string forallb] in Hs.
    apply andb_true_iff in Hs as [Hc Hs].
    unfold no_quote in Hc. apply andb_true_iff in Hc as [H1 H2].
    apply negb_true_iff in H1, H2.
    rewrite scan_chars_cons. unfold scan_char.
    cbn [sc_state sc_style String.eqb Ascii.eqb Bool.eqb andb
         style_in_format_pyformat orb].
    rewrite H1, H2.
    destruct (c =? ":")%char eqn:Ec; cbn [mbind result_bind]; scanner_simpl.
    + destruct (IH Hs qe pe ph (out ++ ["$"]) idx (Some c))
        as (out' & Hscan & Hjoin).
      exists out'. split; [exact Hscan|].
      rewrite Hjoin, join_app. cbn [colons_to_dollars join String.concat].
      rewrite Ec. now rewrite str_app_assoc.
    + destruct (IH Hs qe pe ph (out ++ [char_str c]) idx (Some c))
        as (out' & Hscan & Hjoin).
      exists out'. split; [exact Hscan|].
      rewrite Hjoin, join_app. cbn [colons_to_dollars join String.concat].
      rewrite Ec. unfold char_str. now rewrite str_app_assoc.
Qed.

Lemma render_lit_cons (seg : lit_segment) (t : list lit_segment) :
  render_lit (seg :: t) = render_lit_segment seg +:+ render_lit t.
Proof. unfold render_lit. cbn [map]. apply join_cons. Qed.

Lemma scan_lit_template (t : list lit_segment) :
  forall out prev_c,
    well_formed_lit t = true ->
    exists out' prev',
      scan_chars (MkScanner "numeric" OUTSIDE false false [] out 1) prev_c
        (render_lit t) None
      = Ok (MkScanner "numeric" OUTSIDE false false [] out' 1, prev')
      /\ join out' = join out +:+ join (map numeric_segment t).
Proof.
  induction t as [|[s|body|body] t IH]; intros out prev_c Hwf.
  - exists out, prev_c. split; [reflexivity|]. cbn. now rewrite str_app_nil_r.
  - cbn [well_formed_lit] in Hwf. apply andb_true_iff in Hwf as [Hs Hwf].
    rewrite render_lit_cons. cbn [render_lit_segment].
    rewrite scan_chars_app.
    destruct (scan_numeric_text s (following (render_lit t) None) Hs
                false false [] out 1 prev_c) as (out1 & -> & Hjoin1).
    cbn [mbind result_bind].
    destruct (IH out1 (last_char prev_c s) Hwf)
      as (out' & prev' & Hscan & Hjoin).
    exists out', prev'. split; [exact Hscan|].
    rewrite Hjoin, Hjoin1. cbn [map numeric_segment]. rewrite join_cons.
    now rewrite str_app_assoc.
  - cbn [well_formed_lit] in Hwf. apply andb_true_iff in Hwf as [Hwf1 Hwf].
    apply andb_true_iff in Hwf1 as [Hbody Hends].
    rewrite render_lit_cons. cbn [render_lit_segment].
    rewrite scan_chars_app,
      (scan_quoted_copied "numeric" body false [] out 1 prev_c _ Hbody
         (ends_quote_following _ Hends)).
    cbn [mbind result_bind].
    destruct (IH (((out ++ ["'"]) ++ map char_str (list_ascii_of_string body))
                  ++ ["'"]) (Some "'"%char) Hwf)
      as (out' & prev' & Hscan & Hjoin).
    exists out', prev'. split; [exact Hscan|].
    rewrite Hjoin, join_quote_str. cbn [map numeric_segment].
    rewrite join_cons. now rewrite str_app_assoc.
  - cbn [well_formed_lit] in Hwf. apply andb_true_iff in Hwf as [Hbody Hwf].
    rewrite render_lit_cons. cbn [render_lit_segment].
    rewrite scan_chars_app,
      (scan_ident_copied "numeric" body false false [] out 1 prev_c _ Hbody).
    cbn [mbind result_bind].
    destruct (IH (((out ++ [char_str DQUOTE])
                   ++ map char_str (list_ascii_of_string body))
                  ++ [char_str DQUOTE]) (Some DQUOTE) Hwf)
      as (out' & prev' & Hscan & Hjoin).
    exists out', prev'. split; [exact Hscan|].
    rewrite Hjoin, join_quote_ident. cbn [map numeric_segment].
    rewrite join_cons. now rewrite str_app_assoc.
Qed.

(** X7. In the numeric dialect [convert_paramstyle] does not read the number
    of a placeholder: it turns every colon outside quotes into a dollar
    sign, the colons of a cast [::] included, copies everything else, and
    returns the closure that hands the arguments on as they are. *)
Theorem convert_paramstyle_numeric (t : list lit_segment) :
  well_formed_lit t = true ->
  convert_paramstyle "numeric" (render_lit t)
  = Ok (join (map numeric_segment t), make_args_identity).
Proof.
  intros Hwf. unfold convert_paramstyle, scanner_init.
  destruct (scan_lit_template t [] None Hwf) as (out' & prev' & Hscan & Hjoin).
  rewrite Hscan. cbn [mbind result_bind mret result_ret sc_style
                      output_query placeholders].
  rewrite Hjoin. reflexivity.
Qed.

Lemma convert_paramstyle_numeric_witness :
  convert_paramstyle "numeric" "SELECT :1::int, ':2'"
  = Ok ("SELECT $1$$int, ':2'", make_args_identity).
Proof.
  apply (convert_paramstyle_numeric query_numeric). reflexivity.
Defined.

(** ** The fields of a response *)

Lemma bytes_split_app (s rest : bytes) :
  str_forall (fun c => negb (c =? NUL)%char) s = true ->
  bytes_split NUL (s +:+ String NUL rest) = s :: bytes_split NUL rest.
Proof.
  unfold str_forall. induction s as [|c s IH]; intros Hs.
  - cbn [append bytes_split]. now rewrite Ascii.eqb_refl.
  - cbn [list_ascii_of_string forallb] in Hs.
    apply andb_true_iff in Hs as [Hc Hs]. apply negb_true_iff in Hc.
    cbn [append bytes_split]. rewrite Hc, (IH Hs). reflexivity.
Qed.

Lemma field_bytes_app (k : ascii) (v rest : string) :
  field_bytes (k, v) +:+ rest = String k (v +:+ String NUL rest).
Proof.
  unfold field_bytes, char_str. cbn [fst snd append].
  now rewrite str_app_assoc.
Qed.

Lemma bytes_split_response_body (fields : list (ascii * string)) :
  forallb field_ok fields = true ->
  bytes_split NUL (response_body fields)
  = map (fun f => String f.1 f.2) fields ++ [EmptyString; EmptyString].
Proof.
  unfold response_body. induction fields as [|[k v] fields IH]; intros Hall.
  - reflexivity.
  - cbn [forallb] in Hall. apply andb_true_iff in Hall as [Hf Hall].
    unfold field_ok in Hf. cbn [fst snd] in Hf.
    apply andb_true_iff in Hf as [Hk Hv]. apply negb_true_iff in Hk.
    cbn [map]. rewrite join_cons, str_app_assoc, field_bytes_app.
    cbn [bytes_split]. rewrite Hk, (bytes_split_app v _ Hv), (IH Hall).
    reflexivity.
Qed.

Lemma substring_all (s : string) :
  String.substring 0 (String.length s) s = s.
Proof. induction s as [|c s IH]; cbn; [reflexivity | now rewrite IH]. Qed.

Lemma field_key (k : ascii) (v : string) :
  str_slice (String k v) 0 1 = char_str k.
Proof.
  unfold str_slice, slice_bound. cbn [String.length].
  rewrite Nat2Z.inj_succ.
  destruct (Z.ltb_spec 0 0); [lia|]. destruct (Z.ltb_spec 1 0); [lia|].
  rewrite (Z.min_r _ 0), (Z.min_r _ 1) by lia.
  change (Z.to_nat (Z.max 0 1) - Z.to_nat (Z.max 0 0))%nat with 1%nat.
  change (Z.to_nat (Z.max 0 0)) with 0%nat.
  cbn [String.substring]. now destruct v.
Qed.

Lemma field_value (k : ascii) (v : string) :
  str_from (String k v) 1 = v.
Proof.
  unfold str_from, slice_bound. cbn [String.length].
  rewrite Nat2Z.inj_succ.
  destruct (Z.ltb_spec 1 0); [lia|].
  rewrite (Z.min_r _ 1) by lia.
  change (Z.to_nat (Z.max 0 1)) with 1%nat.
  rewrite Z2Nat.inj_succ, Nat2Z.id by lia.
  cbn [String.substring Nat.sub]. rewrite Nat.sub_0_r. apply substring_all.
Qed.

Lemma last_field_from_Some (k : ascii) (fields : list (ascii * string)) :
  forall v,
    is_Some (foldl (fun acc f => if (f.1 =? k)%char then Some f.2 else acc)
               (Some v) fields).
Proof.
  induction fields as [|f fields IH]; intros v; cbn [foldl]; [now eexists|].
  destruct (f.1 =? k)%char; apply IH.
Qed.

Lemma dict_of_fields (fields : list (ascii * string)) (k : ascii) :
  forall (acc : option string) (m : gmap bytes bytes),
    (forall v, acc = Some v -> m !! char_str k = Some v) ->
    foldl (fun m kv => <[kv.1 := kv.2]> m) m
      (map (fun s => (str_slice s 0 1, str_from s 1))
         (map (fun f => String f.1 f.2) fields))
    !! char_str k
    = match foldl (fun acc f => if (f.1 =? k)%char then Some f.2 else acc)
              acc fields with
      | Some v => Some v
      | None => m !! char_str k
      end.
Proof.
  induction fields as [|[k' v'] fields IH]; intros acc m Hacc.
  - cbn [map foldl]. destruct acc as [v|]; [now apply Hacc | reflexivity].
  - cbn [map foldl fst snd]. rewrite field_key, field_value.
    destruct (Ascii.eqb_spec k' k) as [-> | Hne]; cbv beta iota.
    + rewrite (IH (Some v') (<[char_str k := v']> m)).
      * destruct (last_field_from_Some k fields v') as [v ->]. reflexivity.
      * intros v [= <-]. now rewrite lookup_insert_eq.
    + assert (Hk : char_str k' <> char_str k) by (intros [= ?]; congruence).
      rewrite (IH acc (<[char_str k' := v']> m)).
      * destruct (foldl _ acc fields); [reflexivity|].
        now rewrite lookup_insert_ne.
      * intros v Hv. rewrite lookup_insert_ne by exact Hk. now apply Hacc.
Qed.

(** X8. [data_into_dict] finds every field of a response: for a body made of
    fields (a code that is not zero, a value without zero byte, a zero
    byte) and the final zero byte, the dictionary maps each code to the
    value of the last field that has it, and holds no other code. *)
Theorem data_into_dict_fields (fields : list (ascii * string)) (k : ascii) :
  forallb field_ok fields = true ->
  data_into_dict (response_body fields) !! char_str k = last_field k fields.
Proof.
  intros Hall. unfold data_into_dict, dict_of_pairs.
  rewrite (bytes_split_response_body fields Hall), map_app, foldl_app.
  cbn [map foldl fst snd].
  change (str_slice EmptyString 0 1) with EmptyString.
  change (str_from EmptyString 1) with EmptyString.
  rewrite !lookup_insert_ne by discriminate.
  rewrite (dict_of_fields fields k None ∅) by discriminate.
  rewrite lookup_empty. unfold last_field.
  now destruct (foldl _ None fields).
Qed.

Lemma data_into_dict_fields_witness :
  data_into_dict error_response_28000 !! "C" = Some "28000".
Proof.
  apply (data_into_dict_fields
           [("S"%char, "FATAL"); ("C"%char, "28000");
            ("M"%char, "password authentication failed for user")]
           "C"%char).
  reflexivity.
Defined.

(** ** The dispatch loop *)

Lemma substring_app_l (pre post : string) :
  String.substring 0 (String.length pre) (pre +:+ post) = pre.
Proof.
  induction pre as [|c pre IH]; cbn [String.length append String.substring].
  - now destruct post.
  - now rewrite IH.
Qed.

Lemma substring_app_r (pre post : string) :
  String.substring (String.length pre)
    (String.length (pre +:+ post) - String.length pre) (pre +:+ post) = post.
Proof.
  induction pre as [|c pre IH]; cbn [String.length append String.substring].
  - rewrite Nat.sub_0_r. apply substring_all.
  - exact IH.
Qed.

Lemma sock_read_app (PY2 : bool) (n : Z) (pre post : bytes) :
  n = Z.of_nat (String.length pre) ->
  sock_read PY2 n (pre +:+ post) = Ok (pre, post).
Proof.
  intros ->. unfold sock_read.
  destruct (Z.leb_spec 0 (Z.of_nat (String.length pre))) as [_|H]; [|lia].
  rewrite Nat2Z.id, substring_app_l, substring_app_r. reflexivity.
Qed.

Lemma ci_unpack_header (code : bytes) (len : Z) :
  String.length code = 1%nat -> - 2 ^ 31 <= len < 2 ^ 31 ->
  ci_unpack (code +:+ be_encode 4 len) = Ok (code, len).
Proof.
  intros Hc Hl. unfold ci_unpack.
  rewrite unpack_offset_Ok.
  2: lia.
  2: { rewrite str_length_app, length_be_encode. lia. }
  cbn [mbind result_bind].
  rewrite <- (str_app_nil_r (code +:+ be_encode 4 len)), str_app_assoc.
  rewrite (i_unpack_at_offset len code EmptyString); [| rewrite Hc; lia | exact Hl].
  cbn [mbind result_bind mret result_ret]. rewrite str_app_nil_r.
  change (Z.to_nat 0) with 0%nat. rewrite <- Hc at 1.
  now rewrite substring_app_l.
Qed.

Section DispatchFacts.
Variable PY2 : bool.
Context {State : Type}.
Variable message_types : bytes -> option (bytes -> State -> result unit * State).
Variable is_Error : exn -> bool.

(** One turn of the loop on a message that lies whole in the input. *)
Lemma handle_messages_loop_frame (no_statement : bool) (n : nat)
    (error : option exn) (m : bytes * bytes) (rest : bytes) (st : State)
    (handler : bytes -> State -> result unit * State) :
  String.length m.1 = 1%nat ->
  Z.of_nat (String.length m.2) + 4 < 2 ^ 31 ->
  message_types m.1 = Some handler ->
  handle_messages_loop PY2 message_types is_Error no_statement (S n) error
    (frame m +:+ rest) st
  = let next (error : option exn) (st : State) :=
      if String.eqb m.1 READY_FOR_QUERY then
        Some (match error with
              | Some e => Raise e
              | None => Ok tt
              end, rest, st)
      else handle_messages_loop PY2 message_types is_Error no_statement n
             error rest st in
    match handler m.2 st with
    | (Ok _, st) => next error st
    | (Raise KeyError, st) => Some (Raise (unrecognised PY2 m.1), rest, st)
    | (Raise e, st) =>
        if is_Error e then
          if no_statement then Some (Raise e, rest, st)
          else next (Some e) st
        else Some (Raise e, rest, st)
    end.
Proof.
  intros Hc Hl Hh. cbn [handle_messages_loop]. unfold frame.
  replace ((m.1 +:+ be_encode 4 (Z.of_nat (String.length m.2) + 4) +:+ m.2)
           +:+ rest)
    with ((m.1 +:+ be_encode 4 (Z.of_nat (String.length m.2) + 4))
          +:+ (m.2 +:+ rest))
    by (now rewrite !str_app_assoc).
  rewrite sock_read_app.
  2: { rewrite str_length_app, length_be_encode, Hc. reflexivity. }
  rewrite ci_unpack_header; [| exact Hc | lia].
  rewrite Hh.
  rewrite sock_read_app by lia.
  reflexivity.
Qed.

Lemma frames_cons (m : bytes * bytes) (msgs : list (bytes * bytes))
    (rest : bytes) :
  frames (m :: msgs) +:+ rest = frame m +:+ (frames msgs +:+ rest).
Proof. unfold frames. cbn [map]. now rewrite join_cons, str_app_assoc. Qed.

Lemma eqb_READY_FOR_QUERY (code : bytes) :
  code <> READY_FOR_QUERY -> String.eqb code READY_FOR_QUERY = false.
Proof. intros H. now apply String.eqb_neq. Qed.

End DispatchFacts.

Section DispatchTheorems.
Variable PY2 : bool.
Context {State : Type}.
Variable message_types : bytes -> option (bytes -> State -> result unit * State).
Variable is_Error : exn -> bool.

Lemma handle_messages_loop_clean (no_statement : bool)
    (msgs : list (bytes * bytes)) :
  forall (error : option exn) (rest : bytes) (st st1 : State) (n fuel : nat),
    Forall (framed message_types) msgs ->
    Forall (fun m => m.1 <> READY_FOR_QUERY) msgs ->
    run_handlers message_types msgs st = ([], st1) ->
    fuel = (length msgs + n)%nat ->
    handle_messages_loop PY2 message_types is_Error no_statement fuel error
      (frames msgs +:+ rest) st
    = handle_messages_loop PY2 message_types is_Error no_statement n error
        rest st1.
Proof.
  induction msgs as [|m msgs IH]; intros error rest st st1 n fuel Hf Hz Hrun ->.
  - cbn in Hrun. injection Hrun as <-. reflexivity.
  - apply Forall_cons in Hf as [(Hc & Hl & [handler Hh]) Hf].
    apply Forall_cons in Hz as [Hm Hz].
    cbn [run_handlers] in Hrun. rewrite Hh in Hrun.
    rewrite frames_cons. cbn [length Nat.add].
    rewrite (handle_messages_loop_frame PY2 message_types is_Error
               no_statement _ error m _ st handler Hc Hl Hh).
    cbv zeta. rewrite (eqb_READY_FOR_QUERY _ Hm).
    destruct (handler m.2 st) as [[u|e] st'].
    + apply (IH error rest st' st1 n); auto.
    + destruct (run_handlers message_types msgs st') as [es st'']. discriminate.
Qed.

Lemma handle_messages_loop_defers (msgs : list (bytes * bytes))
    (status rest : bytes) :
  forall (error : option exn) (st : State) (fuel : nat),
    Forall (framed message_types) (msgs ++ [(READY_FOR_QUERY, status)]) ->
    Forall (fun m => m.1 <> READY_FOR_QUERY) msgs ->
    Forall (latched is_Error)
      (run_handlers message_types (msgs ++ [(READY_FOR_QUERY, status)]) st).1 ->
    (length msgs < fuel)%nat ->
    handle_messages_loop PY2 message_types is_Error false fuel error
      (frames (msgs ++ [(READY_FOR_QUERY, status)]) +:+ rest) st
    = Some (match last (run_handlers message_types
                          (msgs ++ [(READY_FOR_QUERY, status)]) st).1 with
            | Some e => Raise e
            | None => match error with
                      | Some e => Raise e
                      | None => Ok tt
                      end
            end, rest,
            (run_handlers message_types
               (msgs ++ [(READY_FOR_QUERY, status)]) st).2).
Proof.
  induction msgs as [|m msgs IH]; intros error st fuel Hf Hz Hl Hfuel.
  - cbn [app] in *. apply Forall_cons in Hf as [(Hc & Hlen & [handler Hh]) _].
    destruct fuel as [|n]; [cbn in Hfuel; lia|].
    rewrite frames_cons. unfold frames at 1. cbn [map].
    change (join []) with EmptyString. cbn [append].
    rewrite (handle_messages_loop_frame PY2 message_types is_Error false n
               error _ rest st handler Hc Hlen Hh).
    cbv zeta. cbn [fst snd run_handlers] in *. rewrite Hh in *.
    rewrite String.eqb_refl.
    destruct (handler status st) as [[u|e] st'].
    + reflexivity.
    + cbn [fst snd] in *. apply Forall_cons in Hl as [[He Hk] _].
      rewrite He. destruct e; try reflexivity. now contradiction Hk.
  - cbn [app] in *. apply Forall_cons in Hf as [(Hc & Hlen & [handler Hh]) Hf].
    apply Forall_cons in Hz as [Hm Hz].
    destruct fuel as [|n]; [cbn in Hfuel; lia|]. cbn [length] in Hfuel.
    rewrite frames_cons.
    rewrite (handle_messages_loop_frame PY2 message_types is_Error false n
               error m _ st handler Hc Hlen Hh).
    cbv zeta. rewrite (eqb_READY_FOR_QUERY _ Hm).
    cbn [run_handlers] in *. rewrite Hh in *.
    destruct (handler m.2 st) as [[u|e] st'].
    + apply IH; auto. lia.
    + specialize (IH (Some e) st' n Hf Hz).
      destruct (run_handlers message_types
                  (msgs ++ [(READY_FOR_QUERY, status)]) st') as [es st''] eqn:Hr.
      cbn [fst snd] in *. apply Forall_cons in Hl as [[He Hk] Hl].
      rewrite He.
      assert (Hgo : handle_messages_loop PY2 message_types is_Error false n
                      (Some e)
                      (frames (msgs ++ [(READY_FOR_QUERY, status)]) +:+ rest)
                      st'
                    = Some (match last (e :: es) with
                            | Some e0 => Raise e0
                            | None => match error with
                                      | Some e0 => Raise e0
                                      | None => Ok tt
                                      end
                            end, rest, st'')).
      { rewrite IH; [| exact Hl | lia].
        destruct es as [|e1 es]; [reflexivity|].
        change (last (e :: e1 :: es)) with (last (e1 :: es)).
        destruct (last (e1 :: es)) eqn:Hlast; [reflexivity|].
        apply last_None in Hlast. discriminate. }
      destruct e; try exact Hgo. now contradiction Hk.
Qed.

(** X9. With a statement, an error of the driver raised by a handler does not
    stop the loop: the messages up to ReadyForQuery are all read and
    handled, in order, the bytes after it stay unread, and the last error
    raised is the one that the call raises. *)
Theorem handle_messages_defers_errors (msgs : list (bytes * bytes))
    (status rest : bytes) (st : State) (fuel : nat) :
  Forall (framed message_types) (msgs ++ [(READY_FOR_QUERY, status)]) ->
  Forall (fun m => m.1 <> READY_FOR_QUERY) msgs ->
  Forall (latched is_Error)
    (run_handlers message_types (msgs ++ [(READY_FOR_QUERY, status)]) st).1 ->
  (length msgs < fuel)%nat ->
  handle_messages PY2 message_types is_Error false fuel
    (frames (msgs ++ [(READY_FOR_QUERY, status)]) +:+ rest) st
  = Some (match last (run_handlers message_types
                        (msgs ++ [(READY_FOR_QUERY, status)]) st).1 with
          | Some e => Raise e
          | None => Ok tt
          end, rest,
          (run_handlers message_types
             (msgs ++ [(READY_FOR_QUERY, status)]) st).2).
Proof.
  intros Hf Hz Hl Hfuel. unfold handle_messages.
  now rewrite (handle_messages_loop_defers msgs status rest None st fuel).
Qed.

(** X10. Without a statement, or when the exception is not an error of the
    driver, the first exception of a handler ends the call at once: the
    messages that follow, ReadyForQuery among them, stay unread.  A
    [KeyError] of a handler is reported as an unrecognised message
    code. *)
Theorem handle_messages_raises_at_once (no_statement : bool)
    (msgs : list (bytes * bytes)) (m : bytes * bytes) (rest : bytes)
    (st st1 st2 : State) (handler : bytes -> State -> result unit * State)
    (e : exn) (fuel : nat) :
  Forall (framed message_types) (msgs ++ [m]) ->
  Forall (fun m => m.1 <> READY_FOR_QUERY) msgs ->
  run_handlers message_types msgs st = ([], st1) ->
  message_types m.1 = Some handler ->
  handler m.2 st1 = (Raise e, st2) ->
  no_statement = true \/ is_Error e = false \/ e = KeyError ->
  (length msgs < fuel)%nat ->
  handle_messages PY2 message_types is_Error no_statement fuel
    (frames msgs +:+ frame m +:+ rest) st
  = Some (Raise (match e with
                 | KeyError => unrecognised PY2 m.1
                 | _ => e
                 end), rest, st2).
Proof.
  intros Hf Hz Hrun Hh He Hcase Hfuel. unfold handle_messages.
  apply Forall_app in Hf as [Hf Hm]. apply Forall_cons in Hm as [(Hc & Hl & _) _].
  rewrite (handle_messages_loop_clean no_statement msgs None
             (frame m +:+ rest) st st1 (fuel - length msgs) fuel Hf Hz Hrun)
    by lia.
  destruct (fuel - length msgs)%nat as [|n] eqn:Hn; [lia|].
  rewrite (handle_messages_loop_frame PY2 message_types is_Error
             no_statement n None m rest st1 handler Hc Hl Hh).
  cbv zeta. rewrite He.
  destruct Hcase as [-> | [Hne | ->]].
  - destruct e; try reflexivity; now destruct (is_Error _).
  - rewrite Hne. now destruct e.
  - reflexivity.
Qed.

(** X11. A code that has no handler ends the call with the error of an
    unrecognised message code, with or without a statement; the five
    bytes of the header are read and the payload is not. *)
Theorem handle_messages_unrecognised (no_statement : bool)
    (msgs : list (bytes * bytes)) (code len4 rest : bytes) (st st1 : State)
    (fuel : nat) :
  Forall (framed message_types) msgs ->
  Forall (fun m => m.1 <> READY_FOR_QUERY) msgs ->
  run_handlers message_types msgs st = ([], st1) ->
  String.length code = 1%nat ->
  String.length len4 = 4%nat ->
  message_types code = None ->
  (length msgs < fuel)%nat ->
  handle_messages PY2 message_types is_Error no_statement fuel
    (frames msgs +:+ code +:+ len4 +:+ rest) st
  = Some (Raise (unrecognised PY2 code), rest, st1).
Proof.
  intros Hf Hz Hrun Hc Hl Hnone Hfuel. unfold handle_messages.
  rewrite (handle_messages_loop_clean no_statement msgs None
             (code +:+ len4 +:+ rest) st st1 (fuel - length msgs) fuel
             Hf Hz Hrun) by lia.
  destruct (fuel - length msgs)%nat as [|n] eqn:Hn; [lia|].
  cbn [handle_messages_loop].
  rewrite <- str_app_assoc, sock_read_app
    by (rewrite str_length_app, Hc, Hl; reflexivity).
  destruct code as [|c [|]]; try discriminate.
  destruct len4 as [|b3 [|b2 [|b1 [|b0 [|]]]]]; try discriminate.
  unfold ci_unpack.
  rewrite unpack_offset_Ok by (cbn; lia).
  cbn [mbind result_bind mret result_ret]. unfold i_unpack, unpack_int.
  cbn [append String.length]. cbv beta zeta.
  change (Z.to_nat 0) with 0%nat. cbn [String.substring].
  change ((0 + 1 <? 0)) with false. cbv iota.
  change ((0 <=? 0 + 1) && (Z.of_nat 4 <=? Z.of_nat 5 - (0 + 1))) with true.
  cbv iota beta. cbn [mbind result_bind mret result_ret].
  rewrite Hnone. reflexivity.
Qed.

End DispatchTheorems.

Lemma handle_messages_defers_errors_witness :
  handle_messages true (statement_message_types true no_recv 100) is_pg8000_Error false 4
    (frames ([(DATA_ROW, data_row_int4 1);
              (ERROR_RESPONSE, error_response_42601);
              (DATA_ROW, data_row_int4 2)]
             ++ [(READY_FOR_QUERY, "I")]) +:+ EmptyString)
    exchange_suspended
  = Some (Raise (ProgrammingError ["ERROR"; "42601"; "syntax error"]),
          EmptyString,
          MkExchange conn_idle
            (set_cached_rows ps_suspended [[PyInt 1]; [PyInt 2]])
            (Some "Idle") None (portal_row_desc ps_suspended)).
Proof.
  rewrite (handle_messages_defers_errors true (statement_message_types true no_recv 100)
             is_pg8000_Error).
  - reflexivity.
  - repeat (apply Forall_cons; split;
            [split; [reflexivity | split; [vm_compute; reflexivity
                                          | eexists; reflexivity]]|]).
    apply Forall_nil. exact I.
  - repeat (apply Forall_cons; split; [discriminate|]).
    apply Forall_nil. exact I.
  - vm_compute. apply Forall_cons; split; [|apply Forall_nil; exact I].
    split; [reflexivity | discriminate].
  - cbn. lia.
Defined.

Lemma handle_messages_raises_at_once_witness :
  handle_messages true (statement_message_types true no_recv 100) is_pg8000_Error false 2
    (frames [(DATA_ROW, data_row_int4 1)]
     +:+ frame (DATA_ROW, be_encode 2 1)
     +:+ frame (READY_FOR_QUERY, "I"))
    exchange_suspended
  = Some (Raise StructError, frame (READY_FOR_QUERY, "I"),
          MkExchange conn_idle (set_cached_rows ps_suspended [[PyInt 1]])
            None None (portal_row_desc ps_suspended)).
Proof.
  refine (handle_messages_raises_at_once true (statement_message_types true no_recv 100)
            is_pg8000_Error false [(DATA_ROW, data_row_int4 1)]
            (DATA_ROW, be_encode 2 1) (frame (READY_FOR_QUERY, "I"))
            exchange_suspended
            (MkExchange conn_idle (set_cached_rows ps_suspended [[PyInt 1]])
               None None (portal_row_desc ps_suspended))
            (MkExchange conn_idle (set_cached_rows ps_suspended [[PyInt 1]])
               None None (portal_row_desc ps_suspended))
            _ StructError 2 _ _ _ eq_refl _ _ _).
  - repeat (apply Forall_cons; split;
            [split; [reflexivity | split; [vm_compute; reflexivity
                                          | eexists; reflexivity]]|]).
    apply Forall_nil. exact I.
  - repeat (apply Forall_cons; split; [discriminate|]).
    apply Forall_nil. exact I.
  - reflexivity.
  - reflexivity.
  - right. left. reflexivity.
  - cbn. lia.
Defined.

Lemma handle_messages_unrecognised_witness :
  handle_messages false (statement_message_types false no_recv 100) is_pg8000_Error false 1
    (frames [] +:+ "I" +:+ be_encode 4 4 +:+ frame (READY_FOR_QUERY, "I"))
    exchange_suspended
  = Some (Raise (TypeError "Can't convert 'bytes' object to str implicitly"),
          frame (READY_FOR_QUERY, "I"), exchange_suspended).
Proof.
  apply (handle_messages_unrecognised false (statement_message_types false no_recv 100)
           is_pg8000_Error false [] "I" (be_encode 4 4)
           (frame (READY_FOR_QUERY, "I")) exchange_suspended
           exchange_suspended 1).
  - apply Forall_nil. exact I.
  - apply Forall_nil. exact I.
  - reflexivity.
  - reflexivity.
  - reflexivity.
  - reflexivity.
  - cbn. lia.
Defined.

(** ** CommandComplete *)

Lemma isdigit_plain (c : ascii) :
  isdigit c = true ->
  isspace c = false /\ (c =? " ")%char = false /\ (c =? "-")%char = false
  /\ (c =? "+")%char = false.
Proof.
  destruct c as [[|] [|] [|] [|] [|] [|] [|] [|]]; vm_compute; intros H;
    try discriminate H; repeat split.
Qed.

Lemma digits_value_isdigit (f : string) :
  forall acc n, digits_value f acc = Some n -> str_forall isdigit f = true.
Proof.
  unfold str_forall.
  induction f as [|c f IH]; intros acc n H; [reflexivity|].
  cbn [digits_value] in H. cbn [list_ascii_of_string forallb].
  destruct (isdigit c); [|discriminate]. now rewrite (IH _ _ H).
Qed.

Lemma lstrip_space_digits (f : string) :
  str_forall isdigit f = true -> lstrip_space f = f.
Proof.
  unfold str_forall. destruct f as [|c f]; [reflexivity|].
  cbn [list_ascii_of_string forallb lstrip_space]. intros H.
  apply andb_true_iff in H as [Hc _].
  now rewrite (proj1 (isdigit_plain c Hc)).
Qed.

Lemma rstrip_space_digits (f : string) :
  str_forall isdigit f = true -> rstrip_space f = f.
Proof.
  unfold str_forall. induction f as [|c f IH]; [reflexivity|].
  cbn [list_ascii_of_string forallb rstrip_space]. intros H.
  apply andb_true_iff in H as [Hc Hf]. rewrite (IH Hf).
  destruct f; [|reflexivity].
  now rewrite (proj1 (isdigit_plain c Hc)).
Qed.

Lemma int_of_bytes_decimal (f : bytes) (n : Z) :
  decimal f = Some n -> int_of_bytes f = Ok n.
Proof.
  unfold decimal, int_of_bytes. destruct f as [|c f]; [discriminate|].
  intros H. pose proof (digits_value_isdigit _ _ _ H) as Hd.
  rewrite (lstrip_space_digits _ Hd), (rstrip_space_digits _ Hd).
  unfold int_of_str, split_sign.
  unfold str_forall in Hd. cbn [list_ascii_of_string forallb] in Hd.
  apply andb_true_iff in Hd as [Hc _].
  destruct (isdigit_plain c Hc) as (_ & _ & Hm & Hp).
  rewrite Hm, Hp. now rewrite H.
Qed.

Lemma bytes_split_sep (sep : ascii) (s rest : bytes) :
  str_forall (fun c => negb (c =? sep)%char) s = true ->
  bytes_split sep (s +:+ String sep rest) = s :: bytes_split sep rest.
Proof.
  unfold str_forall. induction s as [|c s IH]; intros Hs.
  - cbn [append bytes_split]. now rewrite Ascii.eqb_refl.
  - cbn [list_ascii_of_string forallb] in Hs.
    apply andb_true_iff in Hs as [Hc Hs]. apply negb_true_iff in Hc.
    cbn [append bytes_split]. rewrite Hc, (IH Hs). reflexivity.
Qed.

Lemma bytes_split_none (sep : ascii) (s : bytes) :
  str_forall (fun c => negb (c =? sep)%char) s = true ->
  bytes_split sep s = [s].
Proof.
  unfold str_forall. induction s as [|c s IH]; intros Hs; [reflexivity|].
  cbn [list_ascii_of_string forallb] in Hs.
  apply andb_true_iff in Hs as [Hc Hs]. apply negb_true_iff in Hc.
  cbn [bytes_split]. rewrite Hc, (IH Hs). reflexivity.
Qed.

Lemma decimal_no_space (f : bytes) (n : Z) :
  decimal f = Some n ->
  str_forall (fun c => negb (c =? " ")%char) f = true.
Proof.
  unfold decimal. destruct f as [|c0 f0]; [discriminate|]. intros H.
  pose proof (digits_value_isdigit _ _ _ H) as Hd. revert Hd.
  generalize (String c0 f0). clear. unfold str_forall. intros f.
  induction f as [|c f IH]; [reflexivity|].
  cbn [list_ascii_of_string forallb]. intros H.
  apply andb_true_iff in H as [Hc Hf].
  destruct (isdigit_plain c Hc) as (_ & Hs & _). now rewrite Hs, (IH Hf).
Qed.

Lemma bytes_split_fields (fields : list bytes) (ns : list Z) :
  Forall2 (fun f n => decimal f = Some n) fields ns ->
  forall s, str_forall (fun c => negb (c =? " ")%char) s = true ->
    bytes_split " " (s +:+ join (map (String " ") fields)) = s :: fields.
Proof.
  induction 1 as [|f n fields ns Hf _ IH]; intros s Hs.
  - cbn [map]. change (join []) with EmptyString.
    rewrite str_app_nil_r. now apply bytes_split_none.
  - cbn [map]. rewrite join_cons. cbn [append].
    rewrite (bytes_split_sep " " s _ Hs).
    rewrite (IH f (decimal_no_space f n Hf)). reflexivity.
Qed.

Lemma str_slice_drop_last (s : string) (c : ascii) :
  str_slice (s +:+ char_str c) 0 (-1) = s.
Proof.
  unfold str_slice, slice_bound. rewrite str_length_app. cbn [String.length char_str].
  change (0 <? 0) with false. change (-1 <? 0) with true. cbv iota.
  replace (Z.to_nat (Z.max 0 (Z.min (Z.of_nat (String.length s + 1)) 0)))
    with 0%nat by lia.
  replace (Z.to_nat (Z.max 0 (Z.min (Z.of_nat (String.length s + 1))
                                (-1 + Z.of_nat (String.length s + 1)))) - 0)%nat
    with (String.length s) by lia.
  apply substring_app_l.
Qed.

Lemma counted_commands_tag (tag : bytes) :
  In tag counted_commands ->
  existsb (String.eqb tag) counted_commands = true
  /\ str_forall (fun c => negb (c =? " ")%char) tag = true.
Proof.
  unfold counted_commands. cbn [In].
  intros [<- | [<- | [<- | [<- | [<- | [<- | [<- | []]]]]]]]; split; reflexivity.
Qed.

Lemma Forall2_last_decimal (fields : list bytes) (ns : list Z) :
  Forall2 (fun f n => decimal f = Some n) fields ns -> fields <> [] ->
  forall tag,
    decimal (List.last (tag :: fields) EmptyString) = Some (List.last ns 0).
Proof.
  induction 1 as [|f n fields ns Hf Hall IH]; intros Hne tag; [contradiction|].
  destruct Hall as [|f' n' fields' ns' Hf' Hall'].
  - exact Hf.
  - change (List.last (tag :: f :: f' :: fields') EmptyString)
      with (List.last (f :: f' :: fields') EmptyString).
    change (List.last (n :: n' :: ns') 0) with (List.last (n' :: ns') 0).
    apply IH. discriminate.
Qed.

(** X12. [handle_COMMAND_COMPLETE] on the tag of a counted command: the command
    is kept, the last number of the tag is the row count, which replaces a
    row count of -1 and is added to any other, and for INSERT the first
    number is kept as the oid. *)
Theorem handle_COMMAND_COMPLETE_counted (tag : bytes) (fields : list bytes)
    (ns : list Z) (x : Exchange) :
  In tag counted_commands ->
  Forall2 (fun f n => decimal f = Some n) fields ns ->
  fields <> [] ->
  handle_COMMAND_COMPLETE (command_tag tag fields) x
  = (Ok tt,
     MkExchange (ex_self x)
       (MkPreparedStatement (statement_name (ex_ps x)) (portal_name (ex_ps x))
          (_cached_rows (ex_ps x)) (portal_suspended (ex_ps x))
          (portal_row_desc (ex_ps x)) (Some tag)
          (if row_count (ex_ps x) =? -1 then List.last ns 0
           else row_count (ex_ps x) + List.last ns 0))
       (_ready_status x)
       (if String.eqb tag "INSERT" then head ns else None)
       (statement_row_desc x)).
Proof.
  intros Htag Hf Hne. destruct (counted_commands_tag tag Htag) as [Hin Hsp].
  unfold handle_COMMAND_COMPLETE, command_tag.
  rewrite <- str_app_assoc, str_slice_drop_last.
  rewrite (bytes_split_fields fields ns Hf tag Hsp).
  cbn [List.hd]. rewrite Hin.
  rewrite (int_of_bytes_decimal _ _ (Forall2_last_decimal fields ns Hf Hne tag)).
  destruct (String.eqb tag "INSERT"); [|reflexivity].
  destruct Hf as [|f n fields ns Hd Hall]; [contradiction|].
  cbn [nth_error head]. now rewrite (int_of_bytes_decimal f n Hd).
Qed.

Lemma handle_COMMAND_COMPLETE_counted_witness :
  handle_COMMAND_COMPLETE (command_tag "INSERT" ["0"; "3"]) exchange_suspended
  = (Ok tt,
     MkExchange conn_idle
       (MkPreparedStatement EmptyString (Some "pg8000_portal_0") [] true
          (portal_row_desc ps_suspended) (Some "INSERT") 3)
       None (Some 0) (portal_row_desc ps_suspended)).
Proof.
  apply (handle_COMMAND_COMPLETE_counted "INSERT" ["0"; "3"] [0; 3]
           exchange_suspended).
  - cbn. tauto.
  - repeat constructor.
  - discriminate.
Defined.

(** ** The interval codec *)

Lemma qii_unpack_wire (a b c : Z) :
  - 2 ^ 63 <= a < 2 ^ 63 -> - 2 ^ 31 <= b < 2 ^ 31 ->
  - 2 ^ 31 <= c < 2 ^ 31 ->
  qii_unpack (be_encode 8 a +:+ be_encode 4 b +:+ be_encode 4 c) 0
  = Ok (a, b, c).
Proof.
  intros Ha Hb Hc. unfold qii_unpack.
  rewrite unpack_offset_Ok
    by (rewrite ?str_length_app, ?length_be_encode; lia).
  cbn [mbind result_bind]. unfold q_unpack, i_unpack.
  pose proof (unpack_int_pack 8 a EmptyString
                (be_encode 4 b +:+ be_encode 4 c)) as Ha'.
  cbn [append String.length] in Ha'. change (Z.of_nat 0) with 0 in Ha'.
  rewrite Ha' by (try lia; exact Ha).
  cbn [mbind result_bind].
  pose proof (unpack_int_pack 4 b (be_encode 8 a) (be_encode 4 c)) as Hb'.
  rewrite length_be_encode in Hb'.
  change (0 + 8) with (Z.of_nat 8). rewrite Hb' by (try lia; exact Hb).
  cbn [mbind result_bind].
  pose proof (unpack_int_pack 4 c (be_encode 8 a +:+ be_encode 4 b)
                EmptyString) as Hc'.
  rewrite str_length_app, !length_be_encode, str_app_nil_r, str_app_assoc
    in Hc'.
  change (0 + 12) with (Z.of_nat (8 + 4)). rewrite Hc' by (try lia; exact Hc).
  reflexivity.
Qed.

Lemma Interval_init_ints (a b c : Z) :
  - 2 ^ 63 <= a < 2 ^ 63 -> - 2 ^ 31 <= b < 2 ^ 31 ->
  - 2 ^ 31 <= c < 2 ^ 31 ->
  Interval_init (PyInt a) (PyInt b) (PyInt c) = interval_of_wire a b c.
Proof.
  intros Ha Hb Hc.
  unfold Interval_init, interval_of_wire, _setMicroseconds, _setDays,
    _setMonths, between, min_int8, max_int8, min_int4, max_int4.
  cbn [isinstance_int _microseconds _days _months].
  destruct (Z.eqb_spec a (- 2 ^ 63)) as [->|Hna].
  { reflexivity. }
  destruct (Z.ltb_spec (- 2 ^ 63) a); [|lia].
  destruct (Z.ltb_spec a (2 ^ 63)); [|lia].
  cbn [andb negb].
  destruct (Z.eqb_spec b (- 2 ^ 31)) as [->|Hnb].
  { reflexivity. }
  destruct (Z.ltb_spec (- 2 ^ 31) b); [|lia].
  destruct (Z.ltb_spec b (2 ^ 31)); [|lia].
  cbn [andb negb].
  destruct (Z.eqb_spec c (- 2 ^ 31)) as [->|Hnc].
  { reflexivity. }
  destruct (Z.ltb_spec (- 2 ^ 31) c); [|lia].
  destruct (Z.ltb_spec c (2 ^ 31)); [|lia].
  reflexivity.
Qed.

Section IntervalCodecFacts.
Variable float : Type.
Variable seconds_of : Z -> float.
Variable microseconds_of : float -> result Z.
Variable dii_pack : float -> Z -> Z -> result bytes.
Variable dii_unpack : bytes -> Z -> result (float * Z * Z).

(** X13. With integer datetimes, [interval_recv] decodes the sixteen bytes of
    an interval unless one of the three numbers is the least of its
    width, which the setters of [Interval] refuse with [OverflowError]. *)
Theorem interval_recv_wire (microseconds days months : Z) :
  - 2 ^ 63 <= microseconds < 2 ^ 63 ->
  - 2 ^ 31 <= days < 2 ^ 31 ->
  - 2 ^ 31 <= months < 2 ^ 31 ->
  interval_recv float microseconds_of dii_unpack
    (be_encode 8 microseconds +:+ be_encode 4 days +:+ be_encode 4 months)
    true
  = interval_of_wire microseconds days months.
Proof.
  intros Ha Hb Hc. unfold interval_recv.
  rewrite (qii_unpack_wire _ _ _ Ha Hb Hc).
  now apply Interval_init_ints.
Qed.

(** X14. With integer datetimes, every [Interval] that the constructor builds
    is sent as sixteen bytes from which [interval_recv] builds it
    again. *)
Theorem interval_send_recv (microseconds days months : pyvalue)
    (iv : Interval) :
  Interval_init microseconds days months = Ok iv ->
  exists data,
    interval_send float seconds_of dii_pack iv true = Ok data
    /\ String.length data = 16%nat
    /\ interval_recv float microseconds_of dii_unpack data true = Ok iv.
Proof.
  unfold Interval_init, _setMicroseconds, _setDays, _setMonths, between,
    min_int8, max_int8, min_int4, max_int4.
  destruct (isinstance_int microseconds) as [a|]; [|discriminate].
  destruct (Z.ltb_spec (- 2 ^ 63) a); [|discriminate].
  destruct (Z.ltb_spec a (2 ^ 63)); [|discriminate].
  cbn [andb negb _microseconds _days _months].
  destruct (isinstance_int days) as [b|]; [|discriminate].
  destruct (Z.ltb_spec (- 2 ^ 31) b); [|discriminate].
  destruct (Z.ltb_spec b (2 ^ 31)); [|discriminate].
  cbn [andb negb _microseconds _days _months].
  destruct (isinstance_int months) as [c|]; [|discriminate].
  destruct (Z.ltb_spec (- 2 ^ 31) c); [|discriminate].
  destruct (Z.ltb_spec c (2 ^ 31)); [|discriminate].
  cbn [andb negb _microseconds _days _months].
  intros Hiv. assert (Heq : MkInterval (Some a) (Some b) (Some c) = iv)
    by (injection Hiv; intros E; exact E).
  subst iv.
  exists (be_encode 8 a +:+ be_encode 4 b +:+ be_encode 4 c).
  split; [|split].
  - unfold interval_send, qii_pack, q_pack, i_pack.
    cbn [_microseconds _days _months].
    rewrite (pack_int_in_range 8 a) by lia.
    rewrite (pack_int_in_range 4 b) by lia.
    rewrite (pack_int_in_range 4 c) by lia.
    reflexivity.
  - rewrite !str_length_app, !length_be_encode. reflexivity.
  - unfold interval_recv. rewrite qii_unpack_wire by lia.
    rewrite Interval_init_ints by lia. unfold interval_of_wire.
    destruct (Z.eqb_spec a (- 2 ^ 63)); [lia|].
    destruct (Z.eqb_spec b (- 2 ^ 31)); [lia|].
    destruct (Z.eqb_spec c (- 2 ^ 31)); [lia|].
    reflexivity.
Qed.

End IntervalCodecFacts.

Lemma interval_recv_wire_witness :
  interval_recv unit (fun _ => Raise ValueError)
    (fun _ _ => Raise StructError)
    (be_encode 8 (- 2 ^ 63) +:+ be_encode 4 0 +:+ be_encode 4 0) true
  = Raise (OverflowError
             "microseconds must be representable as a 64-bit integer").
Proof.
  rewrite (interval_recv_wire unit (fun _ => Raise ValueError)
             (fun _ _ => Raise StructError) (- 2 ^ 63) 0 0) by lia.
  reflexivity.
Defined.

Lemma interval_send_recv_witness :
  exists data,
    interval_send unit (fun _ => tt) (fun _ _ _ => Raise StructError)
      (MkInterval (Some 1500000) (Some 2) (Some (-3))) true = Ok data
    /\ String.length data = 16%nat
    /\ interval_recv unit (fun _ => Raise ValueError)
         (fun _ _ => Raise StructError) data true
       = Ok (MkInterval (Some 1500000) (Some 2) (Some (-3))).
Proof.
  apply (interval_send_recv unit (fun _ => tt) (fun _ => Raise ValueError)
           (fun _ _ _ => Raise StructError) (fun _ _ => Raise StructError)
           (PyInt 1500000) (PyInt 2) (PyInt (-3))).
  reflexivity.
Defined.

(** ** RowDescription *)

Lemma unpack_int_at (width : nat) (v : Z) (pre post data : bytes)
    (offset : Z) :
  data = pre +:+ be_encode width v +:+ post ->
  offset = Z.of_nat (String.length pre) ->
  (0 < width)%nat ->
  - 2 ^ (8 * Z.of_nat width - 1) <= v < 2 ^ (8 * Z.of_nat width - 1) ->
  unpack_int width data offset = Ok v.
Proof. intros -> -> Hw Hv. now apply unpack_int_pack. Qed.

Lemma find_from_app (c : ascii) (s rest : string) (i : Z) :
  str_forall (fun x => negb (x =? c)%char) s = true ->
  find_from c (s +:+ String c rest) i = i + Z.of_nat (String.length s).
Proof.
  unfold str_forall. revert i.
  induction s as [|x s IH]; intros i Hs.
  - cbn [append find_from String.length]. rewrite Ascii.eqb_refl. lia.
  - cbn [list_ascii_of_string forallb] in Hs.
    apply andb_true_iff in Hs as [Hx Hs]. apply negb_true_iff in Hx.
    cbn [append find_from String.length]. rewrite Hx, (IH _ Hs). lia.
Qed.

Lemma bytes_find_app (c : ascii) (pre s rest : string) :
  str_forall (fun x => negb (x =? c)%char) s = true ->
  bytes_find c (pre +:+ s +:+ String c rest) (Z.of_nat (String.length pre))
  = Z.of_nat (String.length pre) + Z.of_nat (String.length s).
Proof.
  intros Hs. unfold bytes_find, slice_bound.
  destruct (Z.ltb_spec (Z.of_nat (String.length pre)) 0); [lia|].
  rewrite (str_length_app pre).
  replace (Z.to_nat (Z.max 0 (Z.min (Z.of_nat (String.length pre
             + String.length (s +:+ String c rest)))
             (Z.of_nat (String.length pre)))))
    with (String.length pre) by lia.
  rewrite <- (str_length_app pre), substring_app_r.
  now apply find_from_app.
Qed.

Lemma str_slice_app_mid (pre s post : string) :
  str_slice (pre +:+ s +:+ post) (Z.of_nat (String.length pre))
    (Z.of_nat (String.length pre) + Z.of_nat (String.length s)) = s.
Proof.
  unfold str_slice, slice_bound. rewrite !str_length_app.
  destruct (Z.ltb_spec (Z.of_nat (String.length pre)) 0); [lia|].
  destruct (Z.ltb_spec (Z.of_nat (String.length pre)
                        + Z.of_nat (String.length s)) 0); [lia|].
  replace (Z.to_nat (Z.max 0 (Z.min (Z.of_nat (String.length pre
             + (String.length s + String.length post)))
             (Z.of_nat (String.length pre)))))
    with (String.length pre) by lia.
  replace (Z.to_nat (Z.max 0 (Z.min (Z.of_nat (String.length pre
             + (String.length s + String.length post)))
             (Z.of_nat (String.length pre) + Z.of_nat (String.length s))))
           - String.length pre)%nat
    with (String.length s) by lia.
  apply substring_app_mid.
Qed.

Lemma ihihih_unpack_wire (a b c d e f : Z) (pre post : bytes) :
  - 2 ^ 31 <= a < 2 ^ 31 -> - 2 ^ 15 <= b < 2 ^ 15 ->
  - 2 ^ 31 <= c < 2 ^ 31 -> - 2 ^ 15 <= d < 2 ^ 15 ->
  - 2 ^ 31 <= e < 2 ^ 31 -> - 2 ^ 15 <= f < 2 ^ 15 ->
  ihihih_unpack
    (pre +:+ (be_encode 4 a +:+ be_encode 2 b +:+ be_encode 4 c
              +:+ be_encode 2 d +:+ be_encode 4 e +:+ be_encode 2 f +:+ post))
    (Z.of_nat (String.length pre))
  = Ok (a, b, c, d, e, f).
Proof.
  intros Ha Hb Hc Hd He Hf. unfold ihihih_unpack.
  rewrite unpack_offset_Ok
    by (rewrite ?str_length_app, ?length_be_encode; lia).
  cbn [mbind result_bind]. unfold i_unpack, h_unpack.
  set (data := pre +:+ (be_encode 4 a +:+ be_encode 2 b +:+ be_encode 4 c
                        +:+ be_encode 2 d +:+ be_encode 4 e +:+ be_encode 2 f
                        +:+ post)).
  set (off := Z.of_nat (String.length pre)).
  assert (Ea : unpack_int 4 data off = Ok a).
  { apply (unpack_int_at 4 a pre
             (be_encode 2 b +:+ be_encode 4 c +:+ be_encode 2 d
              +:+ be_encode 4 e +:+ be_encode 2 f +:+ post));
      [reflexivity | reflexivity | lia | exact Ha]. }
  assert (Eb : unpack_int 2 data (off + 4) = Ok b).
  { apply (unpack_int_at 2 b (pre +:+ be_encode 4 a)
             (be_encode 4 c +:+ be_encode 2 d +:+ be_encode 4 e
              +:+ be_encode 2 f +:+ post));
      [ unfold data; now rewrite !str_app_assoc
      | unfold off; rewrite !str_length_app, !length_be_encode; lia
      | lia | exact Hb]. }
  assert (Ec : unpack_int 4 data (off + 6) = Ok c).
  { apply (unpack_int_at 4 c (pre +:+ be_encode 4 a +:+ be_encode 2 b)
             (be_encode 2 d +:+ be_encode 4 e +:+ be_encode 2 f +:+ post));
      [ unfold data; now rewrite !str_app_assoc
      | unfold off; rewrite !str_length_app, !length_be_encode; lia
      | lia | exact Hc]. }
  assert (Ed : unpack_int 2 data (off + 10) = Ok d).
  { apply (unpack_int_at 2 d
             (pre +:+ be_encode 4 a +:+ be_encode 2 b +:+ be_encode 4 c)
             (be_encode 4 e +:+ be_encode 2 f +:+ post));
      [ unfold data; now rewrite !str_app_assoc
      | unfold off; rewrite !str_length_app, !length_be_encode; lia
      | lia | exact Hd]. }
  assert (Ee : unpack_int 4 data (off + 12) = Ok e).
  { apply (unpack_int_at 4 e
             (pre +:+ be_encode 4 a +:+ be_encode 2 b +:+ be_encode 4 c
              +:+ be_encode 2 d)
             (be_encode 2 f +:+ post));
      [ unfold data; now rewrite !str_app_assoc
      | unfold off; rewrite !str_length_app, !length_be_encode; lia
      | lia | exact He]. }
  assert (Ef : unpack_int 2 data (off + 16) = Ok f).
  { apply (unpack_int_at 2 f
             (pre +:+ be_encode 4 a +:+ be_encode 2 b +:+ be_encode 4 c
              +:+ be_encode 2 d +:+ be_encode 4 e)
             post);
      [ unfold data; now rewrite !str_app_assoc
      | unfold off; rewrite !str_length_app, !length_be_encode; lia
      | lia | exact Hf]. }
  rewrite Ea. cbn [mbind result_bind]. rewrite Eb. cbn [mbind result_bind].
  rewrite Ec. cbn [mbind result_bind]. rewrite Ed. cbn [mbind result_bind].
  rewrite Ee. cbn [mbind result_bind]. rewrite Ef. reflexivity.
Qed.

Lemma read_fields_wire (recv : recv_func -> bytes -> Z -> Z -> result pyvalue)
    (fields : list wire_field) :
  Forall wire_field_ok fields ->
  forall (pre post : bytes),
    read_fields recv (length fields)
      (pre +:+ join (map field_wire fields) +:+ post)
      (Z.of_nat (String.length pre))
    = Ok (map (described recv) fields).
Proof.
  induction 1 as [|f fields Hf _ IH]; intros pre post; [reflexivity|].
  destruct Hf as (Hn & Ha & Hb & Hc & Hd & He & Hg).
  cbn [length read_fields map].
  rewrite join_cons, (str_app_assoc (field_wire f)).
  set (tail := join (map field_wire fields) +:+ post).
  assert (Hdata :
    pre +:+ field_wire f +:+ tail
    = pre +:+ wf_name f
      +:+ String NUL
            (be_encode 4 (wf_table_oid f)
             +:+ be_encode 2 (wf_column_attrnum f)
             +:+ be_encode 4 (wf_type_oid f) +:+ be_encode 2 (wf_type_size f)
             +:+ be_encode 4 (wf_type_modifier f)
             +:+ be_encode 2 (wf_format f) +:+ tail)).
  { unfold field_wire, char_str. rewrite !str_app_assoc. reflexivity. }
  rewrite Hdata. rewrite (bytes_find_app NUL pre (wf_name f) _ Hn).
  rewrite str_slice_app_mid.
  assert (Hdata' :
    pre +:+ wf_name f
      +:+ String NUL
            (be_encode 4 (wf_table_oid f)
             +:+ be_encode 2 (wf_column_attrnum f)
             +:+ be_encode 4 (wf_type_oid f) +:+ be_encode 2 (wf_type_size f)
             +:+ be_encode 4 (wf_type_modifier f)
             +:+ be_encode 2 (wf_format f) +:+ tail)
    = (pre +:+ wf_name f +:+ char_str NUL)
      +:+ (be_encode 4 (wf_table_oid f)
           +:+ be_encode 2 (wf_column_attrnum f)
           +:+ be_encode 4 (wf_type_oid f) +:+ be_encode 2 (wf_type_size f)
           +:+ be_encode 4 (wf_type_modifier f)
           +:+ be_encode 2 (wf_format f) +:+ tail)).
  { unfold char_str. rewrite !str_app_assoc. reflexivity. }
  rewrite Hdata'.
  replace (Z.of_nat (String.length pre) + Z.of_nat (String.length (wf_name f))
           + 1)
    with (Z.of_nat (String.length (pre +:+ wf_name f +:+ char_str NUL)))
    by (rewrite !str_length_app; cbn [String.length char_str]; lia).
  rewrite (ihihih_unpack_wire _ _ _ _ _ _ _ _ Ha Hb Hc Hd He Hg).
  set (pre' := pre +:+ wf_name f +:+ char_str NUL).
  assert (Hdata'' :
    pre' +:+ (be_encode 4 (wf_table_oid f)
              +:+ be_encode 2 (wf_column_attrnum f)
              +:+ be_encode 4 (wf_type_oid f) +:+ be_encode 2 (wf_type_size f)
              +:+ be_encode 4 (wf_type_modifier f)
              +:+ be_encode 2 (wf_format f) +:+ tail)
    = (pre' +:+ be_encode 4 (wf_table_oid f)
       +:+ be_encode 2 (wf_column_attrnum f)
       +:+ be_encode 4 (wf_type_oid f) +:+ be_encode 2 (wf_type_size f)
       +:+ be_encode 4 (wf_type_modifier f)
       +:+ be_encode 2 (wf_format f))
      +:+ join (map field_wire fields) +:+ post).
  { unfold tail. rewrite !str_app_assoc. reflexivity. }
  rewrite Hdata''.
  replace (Z.of_nat (String.length pre') + 18)
    with (Z.of_nat (String.length
            (pre' +:+ be_encode 4 (wf_table_oid f)
             +:+ be_encode 2 (wf_column_attrnum f)
             +:+ be_encode 4 (wf_type_oid f) +:+ be_encode 2 (wf_type_size f)
             +:+ be_encode 4 (wf_type_modifier f)
             +:+ be_encode 2 (wf_format f))))
    by (rewrite !str_length_app, !length_be_encode; lia).
  rewrite IH. reflexivity.
Qed.

Lemma read_row_description (recv : recv_func -> bytes -> Z -> Z -> result pyvalue)
    (fields : list wire_field) :
  Forall wire_field_ok fields ->
  Z.of_nat (length fields) < 2 ^ 15 ->
  (count ← h_unpack (row_description fields) 0;
   read_fields recv (Z.to_nat count) (row_description fields) 2)
  = Ok (map (described recv) fields).
Proof.
  intros Hf Hlen. unfold row_description, h_unpack.
  rewrite (unpack_int_at 2 (Z.of_nat (length fields)) EmptyString
             (join (map field_wire fields)));
    [| reflexivity | reflexivity | lia | ].
  2: { change (8 * Z.of_nat 2 - 1) with 15. lia. }
  cbn [mbind result_bind]. rewrite Nat2Z.id.
  rewrite <- (str_app_nil_r (join (map field_wire fields))).
  apply (read_fields_wire recv fields Hf
           (be_encode 2 (Z.of_nat (length fields))) EmptyString).
Qed.

Lemma forallb_described
    (recv : recv_func -> bytes -> Z -> Z -> result pyvalue)
    (fields : list wire_field) :
  forallb (fun d => fd_format d =? (pg_types (fd_type_oid d)).1)
    (map (described recv) fields)
  = forallb format_expected fields.
Proof.
  induction fields as [|f fields IH]; [reflexivity|].
  cbn [map forallb]. now rewrite IH.
Qed.

Section RowDescriptionFacts.
Variable recv : recv_func -> bytes -> Z -> Z -> result pyvalue.
Variable row_cache_size : Z.

(** X15. The first RowDescription of a statement, the answer to the Describe
    that follows Parse, is decoded field by field and kept as
    [statement_row_desc]; nothing else changes and nothing is sent. *)
Theorem handle_ROW_DESCRIPTION_statement (fields : list wire_field)
    (x : Exchange) :
  statement_row_desc x = None ->
  Forall wire_field_ok fields ->
  Z.of_nat (length fields) < 2 ^ 15 ->
  handle_ROW_DESCRIPTION recv row_cache_size (row_description fields) x
  = (Ok tt,
     MkExchange (ex_self x) (ex_ps x) (_ready_status x) (cmd_oid x)
       (Some (map (described recv) fields))).
Proof.
  intros Hnone Hf Hlen. unfold handle_ROW_DESCRIPTION.
  rewrite (read_row_description recv fields Hf Hlen). now rewrite Hnone.
Qed.

(** X16. A later RowDescription, the answer to the Describe of a portal, is
    kept as [portal_row_desc].  When each field has the format that the
    driver reads for its type, Execute is sent for [row_cache_size] rows;
    when one has not, [TypeError] is raised and nothing is sent. *)
Theorem handle_ROW_DESCRIPTION_portal (fields : list wire_field)
    (x : Exchange) (row_desc : list field_desc) :
  statement_row_desc x = Some row_desc ->
  Forall wire_field_ok fields ->
  Z.of_nat (length fields) < 2 ^ 15 ->
  handle_ROW_DESCRIPTION recv row_cache_size (row_description fields) x
  = let ps := set_portal_row_desc (ex_ps x) (map (described recv) fields) in
    if forallb format_expected fields then
      let '(r, self, ps) := send_EXECUTE (ex_self x) ps row_cache_size in
      (r, with_ps (with_self x self) ps)
    else
      (Raise (TypeError "cannot concatenate 'str' and 'int' objects"),
       with_ps x ps).
Proof.
  intros Hsome Hf Hlen. unfold handle_ROW_DESCRIPTION.
  rewrite (read_row_description recv fields Hf Hlen). rewrite Hsome.
  cbv zeta. rewrite forallb_described. reflexivity.
Qed.

End RowDescriptionFacts.

Lemma handle_ROW_DESCRIPTION_statement_witness :
  handle_ROW_DESCRIPTION no_recv 100
    (row_description [MkWireField "n" 0 0 23 4 (-1) 0])
    (MkExchange conn_idle ps_no_result_set None None None)
  = (Ok tt,
     MkExchange conn_idle ps_no_result_set None None
       (Some [MkFieldDesc "n" 23 0 (no_recv int4_recv)])).
Proof.
  apply (handle_ROW_DESCRIPTION_statement no_recv 100
           [MkWireField "n" 0 0 23 4 (-1) 0]
           (MkExchange conn_idle ps_no_result_set None None None)).
  - reflexivity.
  - apply Forall_cons; split; [|apply Forall_nil; exact I].
    unfold wire_field_ok. cbn [wf_name wf_table_oid wf_column_attrnum
      wf_type_oid wf_type_size wf_type_modifier wf_format].
    repeat split; try reflexivity; lia.
  - cbn [length]. lia.
Defined.

Lemma handle_ROW_DESCRIPTION_portal_witness :
  handle_ROW_DESCRIPTION no_recv 100
    (row_description [MkWireField "n" 0 0 23 4 (-1) 0]) exchange_suspended
  = (Raise (TypeError "cannot concatenate 'str' and 'int' objects"),
     with_ps exchange_suspended
       (set_portal_row_desc ps_suspended
          [MkFieldDesc "n" 23 0 (no_recv int4_recv)])).
Proof.
  apply (handle_ROW_DESCRIPTION_portal no_recv 100
           [MkWireField "n" 0 0 23 4 (-1) 0] exchange_suspended
           [MkFieldDesc "n" 23 1 (fun d o l => PyInt <$> i_unpack d o)]).
  - reflexivity.
  - apply Forall_cons; split; [|apply Forall_nil; exact I].
    unfold wire_field_ok. cbn [wf_name wf_table_oid wf_column_attrnum
      wf_type_oid wf_type_size wf_type_modifier wf_format].
    repeat split; try reflexivity; lia.
  - cbn [length]. lia.
Defined.

(** ** Parameters sent and read back *)

Lemma unpack_int_whole (width : nat) (v : Z) :
  (0 < width)%nat ->
  - 2 ^ (8 * Z.of_nat width - 1) <= v < 2 ^ (8 * Z.of_nat width - 1) ->
  unpack_int width (be_encode width v) 0 = Ok v.
Proof.
  intros Hw Hv.
  apply (unpack_int_at width v EmptyString EmptyString);
    [now rewrite str_app_nil_r | reflexivity | exact Hw | exact Hv].
Qed.

Lemma packed_int_roundtrip (PY2 : bool) (textout : string -> result bytes)
    (recv_extern : recv_func -> bytes -> Z -> Z -> result pyvalue)
    (fuel : nat) (z oid : Z) (send : send_func) (width : nat) :
  (oid, send, width) = (21, send_h_pack, 2%nat)
  \/ (oid, send, width) = (23, send_i_pack, 4%nat)
  \/ (oid, send, width) = (20, send_q_pack, 8%nat) ->
  - 2 ^ (8 * Z.of_nat width - 1) <= z < 2 ^ (8 * Z.of_nat width - 1) ->
  (pg_types oid).1 = FC_BINARY
  /\ apply_send PY2 textout send (PyInt z) = Ok (be_encode width z)
  /\ apply_recv PY2 recv_extern fuel (pg_types oid).2 (be_encode width z) 0
       (Z.of_nat (String.length (be_encode width z)))
     = Some (Ok (Item (PyInt z))).
Proof.
  intros [E | [E | E]] Hz; injection E as -> -> ->;
    (split; [reflexivity|]); (split; [now apply pack_int_in_range|]).
  - change (pg_types 21).2 with int2_recv.
    destruct fuel; cbn [apply_recv]; unfold h_unpack;
      (rewrite unpack_int_whole; [reflexivity | lia | exact Hz]).
  - change (pg_types 23).2 with int4_recv.
    destruct fuel; cbn [apply_recv]; unfold i_unpack;
      (rewrite unpack_int_whole; [reflexivity | lia | exact Hz]).
  - change (pg_types 20).2 with int8_recv.
    destruct fuel; cbn [apply_recv]; unfold q_unpack;
      (rewrite unpack_int_whole; [reflexivity | lia | exact Hz]).
Qed.

(** X17. An int that fits in 64 bits, and a bool, are sent by the descriptor
    that [make_params] chooses in the binary format, and the decoder that
    [pg_types] has for the type oid of the descriptor reads the same value
    from the bytes. *)
Theorem scalar_parameter_roundtrip (PY2 : bool)
    (textout : string -> result bytes)
    (recv_extern : recv_func -> bytes -> Z -> Z -> result pyvalue)
    (v : pyvalue) (fuel : nat) :
  (exists b, v = PyBool b)
  \/ (exists z, v = PyInt z /\ - 2 ^ 63 < z < 2 ^ 63) ->
  exists oid send data,
    make_params PY2 [v] = Ok [(oid, FC_BINARY, send)]
    /\ (pg_types oid).1 = FC_BINARY
    /\ apply_send PY2 textout send v = Ok data
    /\ apply_recv PY2 recv_extern fuel (pg_types oid).2 data 0
         (Z.of_nat (String.length data))
       = Some (Ok (Item v)).
Proof.
  intros [[b ->] | [z [-> Hz]]].
  - exists 16, send_bool, (char_str (if b then ascii_of_N 1 else NUL)).
    split; [reflexivity|]. split; [reflexivity|].
    split; [now destruct b|].
    change (pg_types 16).2 with bool_recv.
    destruct fuel; cbn [apply_recv]; unfold apply_bool_recv;
      destruct PY2, b; reflexivity.
  - unfold make_params. cbn [mapM py_types inspect_funcs].
    unfold inspect_int, between, min_int2, max_int2, min_int4, max_int4,
      min_int8, max_int8.
    destruct (Z.ltb_spec (- 2 ^ 15) z) as [H1|H1];
      destruct (Z.ltb_spec z (2 ^ 15)) as [H2|H2]; cbn [andb];
      [ exists 21, send_h_pack, (be_encode 2 z); split; [reflexivity|];
        apply (packed_int_roundtrip PY2 textout recv_extern fuel z 21
                 send_h_pack 2); [now left|];
        change (8 * Z.of_nat 2 - 1) with 15; lia
      | | | ];
      (destruct (Z.ltb_spec (- 2 ^ 31) z) as [H3|H3];
       destruct (Z.ltb_spec z (2 ^ 31)) as [H4|H4]; cbn [andb];
       [ exists 23, send_i_pack, (be_encode 4 z); split; [reflexivity|];
         apply (packed_int_roundtrip PY2 textout recv_extern fuel z 23
                  send_i_pack 4); [now right; left|];
         change (8 * Z.of_nat 4 - 1) with 31; lia
       | | | ]);
      (destruct (Z.ltb_spec (- 2 ^ 63) z) as [H5|H5]; [|lia];
       destruct (Z.ltb_spec z (2 ^ 63)) as [H6|H6]; [|lia]; cbn [andb];
       exists 20, send_q_pack, (be_encode 8 z); split; [reflexivity|];
       apply (packed_int_roundtrip PY2 textout recv_extern fuel z 20
                send_q_pack 8); [now right; right|];
       change (8 * Z.of_nat 8 - 1) with 63; lia).
Qed.

Lemma scalar_parameter_roundtrip_witness :
  exists oid send data,
    make_params false [PyInt 40000] = Ok [(oid, FC_BINARY, send)]
    /\ (pg_types oid).1 = FC_BINARY
    /\ apply_send false encode_ascii send (PyInt 40000) = Ok data
    /\ apply_recv false no_recv 0 (pg_types oid).2 data 0
         (Z.of_nat (String.length data))
       = Some (Ok (Item (PyInt 40000))).
Proof.
  apply (scalar_parameter_roundtrip false encode_ascii no_recv (PyInt 40000)
           0%nat).
  right. exists 40000. split; [reflexivity | lia].
Defined.

(** ** Rows as dictionaries *)

Section RowDictFacts.
Variable row_cache_size : Z.
Variable handle_messages :
  Connection -> PreparedStatement ->
  result unit * Connection * PreparedStatement.

(** X18. [read_dict] never returns a row: its result is [None] or an
    exception.  When the cache holds a row, that row leaves the cache and
    [AttributeError] is raised. *)
Theorem read_dict_never_a_row (self : Connection) (ps : PreparedStatement) :
  (forall d,
     (read_dict row_cache_size handle_messages self ps).1.1 <> Ok (Some d))
  /\ (forall row rows,
        _cached_rows ps = row :: rows ->
        read_dict row_cache_size handle_messages self ps
        = (Raise (AttributeError
                    "'PreparedStatement' object has no attribute 'bind_row_desc'"),
           self, set_cached_rows ps rows)).
Proof.
  split.
  - intros d. unfold read_dict.
    destruct (read_tuple row_cache_size handle_messages self ps)
      as [[[[row|]|e] self'] ps']; discriminate.
  - intros row rows Hrows. unfold read_dict.
    now rewrite (read_tuple_cached row_cache_size handle_messages self ps
                   row rows Hrows).
Qed.

End RowDictFacts.

Lemma read_dict_never_a_row_witness :
  read_dict 100 dispatch_ready conn_idle
    (set_cached_rows ps_suspended [[PyInt 1]; [PyInt 2]])
  = (Raise (AttributeError
              "'PreparedStatement' object has no attribute 'bind_row_desc'"),
     conn_idle, set_cached_rows ps_suspended [[PyInt 2]]).
Proof.
  apply (proj2 (read_dict_never_a_row 100 dispatch_ready conn_idle
                  (set_cached_rows ps_suspended [[PyInt 1]; [PyInt 2]]))
           [PyInt 1] [[PyInt 2]]).
  reflexivity.
Defined.

(** ** DataRow *)

Lemma decode_row_wire (descs : list field_desc) (cols : list (option bytes))
    (row : list pyvalue) :
  Forall3 column_read descs cols row ->
  forall (pre post : bytes),
    decode_row descs (pre +:+ join (map column_wire cols) +:+ post)
      (Z.of_nat (String.length pre))
    = Ok row.
Proof.
  induction 1 as [|desc col v descs cols row Hcol _ IH]; intros pre post;
    [reflexivity|].
  cbn [decode_row map]. rewrite join_cons, (str_app_assoc (column_wire col)).
  set (tail := join (map column_wire cols) +:+ post).
  destruct col as [value|]; cbn [column_wire column_read] in *.
  - destruct Hcol as [Hlen Hdec].
    rewrite (str_app_assoc (be_encode 4 _)).
    rewrite (i_unpack_at (Z.of_nat (String.length value)) pre (value +:+ tail))
      by lia.
    cbn [mbind result_bind].
    destruct (Z.eqb_spec (Z.of_nat (String.length value)) (-1)) as [E|_];
      [lia|].
    replace (pre +:+ be_encode 4 (Z.of_nat (String.length value))
             +:+ value +:+ tail)
      with ((pre +:+ be_encode 4 (Z.of_nat (String.length value)))
            +:+ value +:+ tail)
      by (now rewrite !str_app_assoc).
    replace (Z.of_nat (String.length pre) + 4)
      with (Z.of_nat (String.length
              (pre +:+ be_encode 4 (Z.of_nat (String.length value)))))
      by (rewrite str_length_app, length_be_encode; lia).
    rewrite (Hdec _ tail). cbn [mbind result_bind].
    set (pre' := pre +:+ be_encode 4 (Z.of_nat (String.length value))).
    replace (pre' +:+ value +:+ tail) with ((pre' +:+ value) +:+ tail)
      by (now rewrite !str_app_assoc).
    replace (Z.of_nat (String.length pre') + Z.of_nat (String.length value))
      with (Z.of_nat (String.length (pre' +:+ value)))
      by (rewrite str_length_app; lia).
    unfold tail. rewrite IH. reflexivity.
  - subst v.
    rewrite (i_unpack_at (-1) pre tail) by lia.
    cbn [mbind result_bind]. change (-1 =? -1) with true. cbv iota.
    replace (pre +:+ be_encode 4 (-1) +:+ tail)
      with ((pre +:+ be_encode 4 (-1)) +:+ tail)
      by (now rewrite !str_app_assoc).
    replace (Z.of_nat (String.length pre) + 4)
      with (Z.of_nat (String.length (pre +:+ be_encode 4 (-1))))
      by (rewrite str_length_app, length_be_encode; lia).
    unfold tail. rewrite IH. reflexivity.
Qed.

(** X19. [handle_DATA_ROW] reads the columns of a DataRow in the order of the
    fields of the portal's description, a null as [None] and a value by
    the decoder of its field, and puts the row at the right end of the
    cache. *)
Theorem handle_DATA_ROW_decodes (ps : PreparedStatement)
    (descs : list field_desc) (cols : list (option bytes))
    (row : list pyvalue) :
  portal_row_desc ps = Some descs ->
  Forall3 column_read descs cols row ->
  handle_DATA_ROW (data_row cols) ps
  = (Ok tt, set_cached_rows ps (_cached_rows ps ++ [row])).
Proof.
  intros Hdesc Hcols. unfold handle_DATA_ROW, data_row. rewrite Hdesc.
  pose proof (decode_row_wire descs cols row Hcols
                (be_encode 2 (Z.of_nat (length cols))) EmptyString) as Hrow.
  rewrite str_app_nil_r, length_be_encode in Hrow.
  change (Z.of_nat 2) with 2 in Hrow. rewrite Hrow. reflexivity.
Qed.

Lemma handle_DATA_ROW_decodes_witness :
  handle_DATA_ROW (data_row [Some (be_encode 4 7)]) ps_suspended
  = (Ok tt, set_cached_rows ps_suspended [[PyInt 7]]).
Proof.
  apply (handle_DATA_ROW_decodes ps_suspended
           [MkFieldDesc "n" 23 1 (fun d o l => PyInt <$> i_unpack d o)]
           [Some (be_encode 4 7)] [PyInt 7]).
  - reflexivity.
  - constructor; [|constructor].
    split; [cbn; lia|].
    intros pre post. cbn [fd_func].
    rewrite (i_unpack_at 7 pre post) by lia. reflexivity.
Defined.
